(* ===== verification/_CoqProject ===== *)
-Q . S2P
Prelude.v
Model.v
Editor.v
Numeric.v
Stat.v
Stats.v
Cell.v
Inventory.v
InventorySpec.v
InventoryAdd.v
Serialization.v
InventoryMachine.v
Tests.v
