(* ===== verification/Prelude.v ===== *)
(** * ArcaneWeaver entity components: a verification development

    The program is [src/src/arcaneweaver/core/entity_system/components.py]:
    four Pydantic models that a game attaches to its entities, and the base
    class they share.

    - [ComponentModel]: the base class (enums [FieldType], [ComponentType],
      the validation settings [extra=allow, validate_assignment=True], and the
      editor-form generator [get_editor_config]).
    - [StatComponent]: one numeric attribute with a base and a current value
      and optional bounds; validators clamp on assignment.
    - [StatsComponent]: a list of [StatComponent] looked up by name, with an
      optional capacity.
    - [InventoryCellComponent]: one inventory cell, a stack of one item kind.
    - [InventoryComponent]: a list of cells with the two-pass first-fit
      [add_item], [remove_item], and the counting queries.

    ** How the code is modelled

    Python objects are records; a method is a function from the record (and
    its arguments) to the returned value and the record after the call.  A
    method that can raise returns an [outcome]; where the object is mutated
    before the exception, the mutated record is returned beside it (the
    [method] monad below).  Python [int] is [Z]; [str] is [string];
    [Optional[T]] is [option T]; [float] is a type [V] of the [Num] class of
    [Numeric.v], instantiated with [Z] and with the IEEE binary64 floats of
    the kernel, which are Python's floats; both satisfy the order laws the
    theorems need, floats on every value but NaN.

    Pydantic's behaviour, on which the source relies, is modelled from its
    documentation and marked [spec_modelled] in the map:
    - fields are validated in declaration order, and a field validator reads
      in [validation_info.data] only the fields validated before it.  The
      [data] dict is a [gmap] from field names to values.  At construction the
      bounds of a stat and the stack size of a cell are declared after the
      fields whose validators read them, so the validators see no bound; on
      assignment (validate_assignment=True) they see every other field;
    - an assignment [self.f = v] runs the constraints of [f], its field
      validator, stores the result, then runs the model's after-validators;
    - [model_copy(update=...)] and list mutation ([append], [del]) validate
      nothing.

    ** Files

    - [Prelude.v] (this file): the [outcome] and [method] monads, the fuelled
      [loop] combinator that models [while], [len] and the slice [slice_to],
      sums over lists, the tactics and hint databases of the development.
    - [Model.v]: [ComponentModel]: the enums, the exception values, and the
      value classifier [_infer_value_type].
    - [Editor.v]: [ComponentModel.get_editor_config] with
      [_infer_field_type] and [_get_field_constraints], on a model of the
      [FieldInfo] objects they read, and the tables of the declared fields of
      the five classes; the keys of the configuration
      ([get_editor_config_keys]), and that no declared bound reaches it
      ([get_editor_config_no_bounds]).
    - [Numeric.v]: the [Num] interface a stat's value type implements, its laws
      [NumLaws], the instances for [Z] and for binary64 floats, and the proof
      of the laws for floats ([float_num_laws]) from the specification of the
      kernel's comparisons.  [Stat.v] and [Stats.v] are proved against this
      interface.
    - [Stat.v]: Module [StatComponent]: the record, the two field validators,
      construction, validated assignment, [modify_value], [reset_to_base],
      [set_base_value]; the bounds invariant [inv] and its preservation over
      sequences of calls ([run_inv]); where it fails, for every stat of the
      kind: bounds given inverted ([modify_value_inverted_bounds]), a sum
      that is NaN on floats ([modify_value_nan_escapes]), construction
      ([init_not_clamped]).
    - [Stats.v]: Module [StatsComponent]: the collection and every method;
      the invariant [wf] (distinct names, capacity) and its preservation
      ([stats_run_wf]); the view [to_map] of the list as a [gmap] from names
      to stats, against which [get_stat], [add_stat], [remove_stat] and
      [modify_stat] are lookup, insertion, deletion and update; both error
      paths of [add_stat]; the behaviour on a name held twice, which the
      constructor accepts ([init_duplicate_names]).
    - [Cell.v]: Module [InventoryCellComponent]: the record, construction with
      its validators, validated assignment of [quantity], [item_id] and
      [max_stack_size], [add_items], [remove_items], [clear_slot]; the cell
      invariant [wf] and its preservation ([run_wf]).
    - [Inventory.v]: Module [InventoryComponent]: the definitions only:
      construction, [add_item] (fill pass, and the body [add_item_overflow] of
      the [while] loop), [remove_item], [has_item], [get_item_count],
      [get_empty_cells_count], [is_full], [clear_all]; the invariant [wf] and
      the quantities [count], [free] and [capacity].
    - [InventorySpec.v]: the queries against [count] ([has_item] agrees with
      [get_item_count]), [remove_item], [clear_all], [is_full], construction.
    - [InventoryAdd.v]: [add_item]: the relation [adds] both passes are
      proved against, the invariant and the measure of the [while] loop, and
      from them: the amount returned is the smaller of the request and the
      capacity ([add_item_spec]), the counts ([add_item_counts]), termination
      within the fuel ([add_item_terminates]), the exception path
      ([add_item_raises]), and divergence outside the invariant
      ([add_item_diverges]).
    - [Serialization.v]: [model_validate] on a dumped instance, for the four
      components; for which instances the round trip is the identity
      ([cell_roundtrip], [inventory_roundtrip]).
    - [InventoryMachine.v]: sequences of calls on an inventory ([run]), the
      abstract bag [bag_step] they implement ([run_refines]), and the
      conservation of counts ([run_conservation]).
    - [Tests.v]: the cases of [src/tests/test_components.py] on the modelled
      behaviour, each evaluated on the definitions, stats on floats.

    ** Invariants

    [StatComponent.inv]: base and current value are numbers within the
    bounds.  [InventoryCellComponent.wf]: [1 <= max_stack_size],
    [0 <= quantity <= max_stack_size], and [quantity = 0] exactly when
    [item_id] is [None].  [InventoryComponent.wf]: every cell well-formed,
    [len cells <= max_cells], [1 <= default_max_stack_size].
    [StatsComponent.wf]: distinct names, and [len stats <= max_stats] when
    there is a capacity.  The methods preserve them; construction and plain
    assignment do not always establish them, and the theorems that show it are
    recorded as findings.

    ** Fuel

    The only unbounded loop is the [while remaining_quantity > 0] of
    [add_item].  It is modelled by [loop] with a fuel argument; [add_item]
    passes [S (length cells + max_cells)] iterations, and
    [InventoryAdd.v] proves that on a well-formed inventory every iteration
    but the last fills an empty cell or appends one, so that this fuel is
    never exhausted and more fuel changes nothing.  An empty cell whose
    stack size is zero makes the source loop forever; the model returns
    [None] for every fuel.

    ** Not modelled

    Extra attributes ([extra=allow]) are not part of the records: the editor
    takes them as a list of names and values.  Coercion of inputs (a string
    given for a number) is not modelled: arguments already have their types.
    [str.title] is modelled on ASCII, which the field names are.  Validation
    errors of nested models carry no path.  Two references to one cell or
    stat object inside one list are not modelled: the elements of a list are
    distinct objects. *)

Set Warnings "-rewrite-rw".
From Stdlib Require Export ssreflect.
From stdpp Require Export base tactics option list numbers strings.

Declare Scope aw_scope.
Delimit Scope aw_scope with aw.
Open Scope Z_scope.

(** ** Outcomes: a returned value or a raised exception *)

Inductive outcome (E A : Type) : Type :=
| Ok (a : A)
| Raise (e : E).
Arguments Ok {E A} a.
Arguments Raise {E A} e.

Definition is_ok {E A} (o : outcome E A) : bool :=
  match o with Ok _ => true | Raise _ => false end.

#[export] Instance outcome_ret {E} : MRet (outcome E) := λ A a, Ok a.
#[export] Instance outcome_bind {E} : MBind (outcome E) := λ A B f m,
  match m with Ok a => f a | Raise e => Raise e end.
#[export] Instance outcome_fmap {E} : FMap (outcome E) := λ A B f m,
  match m with Ok a => Ok (f a) | Raise e => Raise e end.

(** ** Methods: a call on a mutable object.

    [method S E A] is a call on an object of state [S] that returns an [A] or
    raises an [E]; the state after the call is returned in both cases, since a
    Python exception does not undo the mutations made before it. *)

Definition method (S E A : Type) : Type := S → outcome E A * S.

Definition method_ret {S E A} (a : A) : method S E A := λ s, (Ok a, s).
Definition method_bind {S E A B} (m : method S E A) (k : A → method S E B)
  : method S E B :=
  λ s, match m s with
       | (Ok a, s') => k a s'
       | (Raise e, s') => (Raise e, s')
       end.
Definition method_raise {S E A} (e : E) : method S E A := λ s, (Raise e, s).
Definition method_get {S E} : method S E S := λ s, (Ok s, s).
Definition method_put {S E} (s : S) : method S E unit := λ _, (Ok tt, s).
Definition method_lift {S E A} (o : outcome E A) : method S E A := λ s, (o, s).

Notation "x ←ₘ m ; k" := (method_bind m (λ x, k))
  (at level 20, m at level 100, k at level 200, only parsing) : aw_scope.
Notation "m ;;ₘ k" := (method_bind m (λ _, k))
  (at level 100, k at level 200, right associativity, only parsing) : aw_scope.

(** ** Loops with fuel.

    [loop body fuel s] runs [body] from [s] until it answers [inr r] (the
    loop is left with result [r]) and gives [None] when [fuel] iterations did
    not suffice. *)

Fixpoint loop {S R : Type} (body : S → S + R) (fuel : nat) (s : S) : option R :=
  match fuel with
  | O => None
  | Datatypes.S n =>
      match body s with
      | inl s' => loop body n s'
      | inr r => Some r
      end
  end.

(** ** Python lists *)

(** [len(l)] *)
Definition len {A} (l : list A) : Z := Z.of_nat (length l).

(** The slice [l[:n]]: the first [n] elements, or for a negative [n] all
    but the last [-n]. *)
Definition slice_to {A} (n : Z) (l : list A) : list A :=
  if bool_decide (0 ≤ n) then take (Z.to_nat n) l
  else take (length l - Z.to_nat (- n)) l.

(** ** Sums of integers over a list *)

Definition sumZ {A} (f : A → Z) (l : list A) : Z :=
  foldr (λ a acc, f a + acc) 0 l.
Arguments sumZ : simpl never.

(** ** Tactics and hint databases *)

Create HintDb aw discriminated.
Create Rewrite HintDb aw_rw.

(** [case_cond] splits on the conditions of the code: boolean tests built
    with [bool_decide], [decide], and matches on options. *)
Ltac case_cond :=
  repeat first
    [ progress simplify_eq/=
    | case_bool_decide
    | case_decide
    | case_match ].

(** [zsolve] closes the arithmetic side conditions left by [case_cond]. *)
Ltac zsolve := try done; try (simpl in *; lia).

(** [by_decide] proves a decidable closed proposition by evaluating its
    decision procedure. *)
Ltac by_decide := refine (bool_decide_unpack _ _); vm_compute; exact I.

Ltac method_unfold :=
  unfold method_bind, method_ret, method_raise, method_get, method_put,
    method_lift in *.

(** ** Lemmas on outcomes *)

Section outcome_lemmas.
Context {E A B : Type}.
Implicit Types (o : outcome E A) (f : A → outcome E B).

Lemma is_ok_Ok o : is_ok o = true ↔ ∃ a, o = Ok a.
Proof. destruct o; split; [eauto|done|done|by intros [??]]. Qed.

Lemma is_ok_Raise o : is_ok o = false ↔ ∃ e, o = Raise e.
Proof. destruct o; split; [done|by intros [??]|eauto|done]. Qed.

Lemma outcome_bind_Ok o f b :
  o ≫= f = Ok b ↔ ∃ a, o = Ok a ∧ f a = Ok b.
Proof.
  destruct o as [a|e]; rewrite /mbind /outcome_bind; split.
  - eauto.
  - by intros (a' & [= <-] & ?).
  - done.
  - by intros (a' & [=] & _).
Qed.

Lemma outcome_bind_Raise o f e :
  o ≫= f = Raise e ↔ o = Raise e ∨ ∃ a, o = Ok a ∧ f a = Raise e.
Proof.
  destruct o as [a|e']; rewrite /mbind /outcome_bind; split.
  - intros Hf. right. eauto.
  - by intros [[=]|(a' & [= <-] & ?)].
  - intros [= ->]. by left.
  - by intros [[= ->]|(a' & [=] & _)].
Qed.

End outcome_lemmas.

(** ** Lemmas on loops *)

Section loop_lemmas.
Context {S R : Type} (body : S → S + R).
Implicit Types (s : S) (r : R) (n m : nat).

Lemma loop_fuel_mono n m s r :
  loop body n s = Some r → (n ≤ m)%nat → loop body m s = Some r.
Proof.
  revert m s. induction n as [|n IH]; intros m s Hn Hle; [done|].
  destruct m as [|m]; [lia|]. simpl in *.
  destruct (body s); [|done]. apply IH; [done|lia].
Qed.

Lemma loop_fuel_agree n m s r r' :
  loop body n s = Some r → loop body m s = Some r' → r = r'.
Proof.
  intros Hn Hm. destruct (decide (n ≤ m)%nat).
  - pose proof (loop_fuel_mono n m s r Hn). naive_solver.
  - pose proof (loop_fuel_mono m n s r' Hm). naive_solver lia.
Qed.

(** The rule for total correctness: an invariant [I], a measure [μ] that
    every iteration decreases, and a postcondition [Q] that every exit
    establishes. *)
Lemma loop_total (I : S → Prop) (μ : S → nat) (Q : R → Prop) :
  (∀ s s', I s → body s = inl s' → I s' ∧ (μ s' < μ s)%nat) →
  (∀ s r, I s → body s = inr r → Q r) →
  ∀ n s, I s → (μ s < n)%nat → ∃ r, loop body n s = Some r ∧ Q r.
Proof.
  intros Hstep Hexit n. induction n as [|n IH]; intros s HI Hμ; [lia|].
  simpl. destruct (body s) as [s'|r] eqn:Hb.
  - destruct (Hstep s s' HI Hb) as [HI' Hlt]. apply IH; [done|lia].
  - exists r. eauto.
Qed.

(** The rule for partial correctness, for any fuel. *)
Lemma loop_partial (I : S → Prop) (Q : R → Prop) :
  (∀ s s', I s → body s = inl s' → I s') →
  (∀ s r, I s → body s = inr r → Q r) →
  ∀ n s r, I s → loop body n s = Some r → Q r.
Proof.
  intros Hstep Hexit n. induction n as [|n IH]; intros s r HI Hl; [done|].
  simpl in Hl. destruct (body s) as [s'|r'] eqn:Hb; simplify_eq; eauto.
Qed.

(** A loop whose body never exits and keeps an invariant runs out of any
    fuel: the modelled [while] does not terminate. *)
Lemma loop_diverges (I : S → Prop) :
  (∀ s, I s → ∃ s', body s = inl s' ∧ I s') →
  ∀ n s, I s → loop body n s = None.
Proof.
  intros Hstep n. induction n as [|n IH]; intros s HI; [done|].
  simpl. destruct (Hstep s HI) as (s' & -> & HI'). by apply IH.
Qed.

End loop_lemmas.

(** ** Lemmas on sums *)

Section slice_lemmas.
Context {A : Type}.
Implicit Types (l : list A) (n : Z).

Lemma len_nonneg l : 0 ≤ len l.
Proof. rewrite /len. lia. Qed.

Lemma len_app l1 l2 : len (l1 ++ l2) = len l1 + len l2.
Proof. rewrite /len length_app. lia. Qed.

Lemma slice_to_len n l : len (slice_to n l) = Z.min (len l) (Z.max 0 (if bool_decide (0 ≤ n) then n else len l + n)).
Proof. rewrite /slice_to /len. case_bool_decide; rewrite length_take; lia. Qed.

Lemma slice_to_prefix n l : slice_to n l `prefix_of` l.
Proof. rewrite /slice_to. case_bool_decide; apply prefix_take. Qed.

Lemma slice_to_all n l : len l ≤ n → slice_to n l = l.
Proof.
  rewrite /slice_to /len. intros. rewrite bool_decide_eq_true_2; [lia|].
  apply take_ge. lia.
Qed.

Lemma Forall_slice_to (P : A → Prop) n l : Forall P l → Forall P (slice_to n l).
Proof. intros. rewrite /slice_to. case_bool_decide; by apply Forall_take. Qed.

End slice_lemmas.

Section sumZ_lemmas.
Context {A : Type} (f : A → Z).
Implicit Types (l k : list A) (x y : A) (i : nat).

Lemma sumZ_nil : sumZ f [] = 0.
Proof. done. Qed.

Lemma sumZ_cons x l : sumZ f (x :: l) = f x + sumZ f l.
Proof. done. Qed.

Lemma sumZ_app l k : sumZ f (l ++ k) = sumZ f l + sumZ f k.
Proof.
  induction l as [|x l IH]; [by rewrite sumZ_nil|].
  rewrite -app_comm_cons !sumZ_cons IH. lia.
Qed.

Lemma sumZ_snoc l x : sumZ f (l ++ [x]) = sumZ f l + f x.
Proof. rewrite sumZ_app sumZ_cons sumZ_nil. lia. Qed.

Lemma sumZ_nonneg l : Forall (λ x, 0 ≤ f x) l → 0 ≤ sumZ f l.
Proof. induction 1; rewrite ?sumZ_cons; [done|lia]. Qed.

Lemma sumZ_zero l : Forall (λ x, f x = 0) l → sumZ f l = 0.
Proof. induction 1; rewrite ?sumZ_cons; [done|lia]. Qed.

Lemma sumZ_insert l i x y :
  l !! i = Some x → sumZ f (<[i:=y]> l) = sumZ f l - f x + f y.
Proof.
  revert i. induction l as [|z l IH]; intros [|i] Hi; simplify_eq/=.
  - rewrite !sumZ_cons. lia.
  - rewrite !sumZ_cons (IH i) //. lia.
Qed.

Lemma sumZ_ext (g : A → Z) l :
  Forall (λ x, f x = g x) l → sumZ f l = sumZ g l.
Proof. induction 1 as [|x l Hx _ IH]; [done|]. by rewrite !sumZ_cons Hx IH. Qed.

Lemma sumZ_le_elem l x :
  Forall (λ y, 0 ≤ f y) l → x ∈ l → f x ≤ sumZ f l.
Proof.
  induction 1 as [|y l Hy Hl IH]; [by intros ?%elem_of_nil|].
  rewrite sumZ_cons. pose proof (sumZ_nonneg l Hl).
  intros [->|Hin]%elem_of_cons; [lia|]. specialize (IH Hin). lia.
Qed.

Lemma sumZ_fmap {B} (g : B → A) (l : list B) : sumZ f (g <$> l) = sumZ (f ∘ g) l.
Proof. induction l as [|x l IH]; [done|]. by rewrite fmap_cons !sumZ_cons IH. Qed.

End sumZ_lemmas.

(** ** Boolean tests over a list *)

Lemma forallb_Forall {A} (f : A → bool) (l : list A) :
  forallb f l = true ↔ Forall (λ x, f x = true) l.
Proof.
  induction l as [|x l IH]; simpl; [by split|].
  rewrite andb_true_iff IH Forall_cons. tauto.
Qed.

#[export] Hint Rewrite @sumZ_nil @sumZ_cons @sumZ_app @sumZ_snoc : aw_rw.
#[export] Hint Resolve sumZ_nonneg : aw.
