(* ===== verification/Model.v ===== *)
(** * ComponentModel: the base class of every component

    The enumerations [FieldType] and [ComponentType], the exceptions the
    components raise, the shape of a dynamically typed Python value, and the
    classifier [_infer_value_type] that the editor uses for extra attributes
    (components.py, lines 24-41 and 148-169). *)

Set Warnings "-rewrite-rw".
From Stdlib Require Import Floats.
From stdpp Require Import sets.
From S2P Require Import Prelude.

(** ** Enumerations *)

(** [class FieldType(Enum)]: the kinds of form field the editor can render. *)
Inductive FieldType : Type :=
| NUMBER | TEXT | CHECKBOX | LIST | OBJECT | SELECT | TEXTAREA.

(** [FieldType.X.value] *)
Definition FieldType_value (t : FieldType) : string :=
  match t with
  | NUMBER => "number" | TEXT => "text" | CHECKBOX => "checkbox"
  | LIST => "list" | OBJECT => "object" | SELECT => "select"
  | TEXTAREA => "textarea"
  end.

(** [class ComponentType(Enum)] *)
Inductive ComponentType : Type :=
| STAT | INVENTORY | CUSTOM.

Definition ComponentType_value (t : ComponentType) : string :=
  match t with STAT => "stat" | INVENTORY => "inventory" | CUSTOM => "custom" end.

#[export] Instance FieldType_eq_dec : EqDecision FieldType.
Proof. solve_decision. Defined.
#[export] Instance ComponentType_eq_dec : EqDecision ComponentType.
Proof. solve_decision. Defined.

(** ** Exceptions

    A [ValidationError] carries one entry per failed field, as Pydantic
    collects them: the field and the kind of failure.  A [ValueError] raised
    inside a validator surfaces as the [value_error] entry of a
    [ValidationError]; one raised by a method is a [ValueError]. *)

Inductive error_type : Type :=
| missing
| greater_than_equal (ge : Z)
| value_error (msg : string).

Record error_details : Type := ErrorDetails {
  loc : string;
  type : error_type;
}.

Inductive exn : Type :=
| ValidationError (errors : list error_details)
| ValueError (msg : string).

#[export] Instance error_type_eq_dec : EqDecision error_type.
Proof. solve_decision. Defined.
#[export] Instance error_details_eq_dec : EqDecision error_details.
Proof. solve_decision. Defined.
#[export] Instance exn_eq_dec : EqDecision exn.
Proof. solve_decision. Defined.

(** The constraint [Field(ge=b)] on an integer field named [loc]: the errors
    it contributes for the value [v]. *)
Definition check_ge (loc : string) (b v : Z) : list error_details :=
  if bool_decide (b ≤ v) then [] else [ErrorDetails loc (greater_than_equal b)].

(** ** Python values, as far as the editor tells them apart *)

#[warnings="-register-all"]
Inductive pyvalue : Type :=
| PyNone
| PyBool (b : bool)
| PyInt (n : Z)
| PyFloat (x : float)
| PyStr (s : string)
| PyList (l : list pyvalue)
| PyDict (d : list (string * pyvalue))
| PyObject.

(** [ComponentModel._infer_value_type]: [bool] is tested before [int], of
    which it is a subclass. *)
Definition _infer_value_type (value : pyvalue) : FieldType :=
  match value with
  | PyBool _ => CHECKBOX
  | PyInt _ | PyFloat _ => NUMBER
  | PyStr _ => TEXT
  | PyList _ => LIST
  | PyDict _ => OBJECT
  | _ => TEXT
  end.

(** ** Lemmas *)

Lemma FieldType_value_inj : Inj (=) (=) FieldType_value.
Proof. intros [] [] ?; by simplify_eq. Qed.

Lemma ComponentType_value_inj : Inj (=) (=) ComponentType_value.
Proof. intros [] [] ?; by simplify_eq. Qed.

Lemma check_ge_nil loc b v : check_ge loc b v = [] ↔ b ≤ v.
Proof. rewrite /check_ge. case_bool_decide; naive_solver. Qed.

Lemma check_ge_ok loc b v : b ≤ v → check_ge loc b v = [].
Proof. apply check_ge_nil. Qed.

Lemma check_ge_fail loc b v :
  v < b → check_ge loc b v = [ErrorDetails loc (greater_than_equal b)].
Proof. intros. rewrite /check_ge bool_decide_eq_false_2 //. lia. Qed.

(** The classifier never answers [SELECT] or [TEXTAREA]: those kinds are only
    reachable through declared fields. *)
Lemma _infer_value_type_range value :
  _infer_value_type value ∈ [CHECKBOX; NUMBER; TEXT; LIST; OBJECT].
Proof. destruct value; set_solver. Qed.

#[export] Hint Rewrite check_ge_ok check_ge_fail using lia : aw_rw.
