(* ===== verification/Editor.v ===== *)
(** * ComponentModel: the editor configuration

    [get_editor_config] describes the fields of a component to the form
    editor (components.py, lines 58-219): for every declared field but
    [component_type] an entry with the kind of form field
    ([_infer_field_type], from the type annotation), a label made from the
    field name, the description, whether the field is required, and the
    bounds [_get_field_constraints] finds; then an entry for every extra
    attribute, its kind inferred from its value.

    The method reads Pydantic's [FieldInfo] objects.  A [FieldInfo] is
    modelled by the record of what the method reads of it; [Field] builds the
    [FieldInfo] Pydantic makes of a declaration [x: T = Field(...)].  The
    tables of the declared fields of the five classes are those of the
    source. *)

Set Warnings "-rewrite-rw".
From Stdlib Require Import Floats Ascii.
From stdpp Require Import gmap.
From S2P Require Import Prelude Model.

(** ** Type annotations *)

#[warnings="-register-all"]
Inductive annotation : Type :=
| A_int | A_float | A_str | A_bool | A_list | A_dict | A_NoneType
| A_List (arg : annotation)                (* [List[T]] *)
| A_Dict (key value : annotation)          (* [Dict[K, V]] *)
| A_Union (args : list annotation)         (* [Union[...]]; [Optional[T]] is [Union[T, None]] *)
| A_Tuple (args : list annotation)         (* [Tuple[...]]: a generic of another origin *)
| A_class (name : string).                 (* any other class: an enum, a model *)

(** [Optional[T]] *)
Definition A_Optional (a : annotation) : annotation := A_Union [a; A_NoneType].

Inductive origin : Type := O_list | O_dict | O_Union | O_tuple.

(** [typing.get_origin] *)
Definition get_origin (a : annotation) : option origin :=
  match a with
  | A_List _ => Some O_list
  | A_Dict _ _ => Some O_dict
  | A_Union _ => Some O_Union
  | A_Tuple _ => Some O_tuple
  | _ => None
  end.

(** [typing.get_args] *)
Definition get_args (a : annotation) : list annotation :=
  match a with
  | A_List x => [x]
  | A_Dict k v => [k; v]
  | A_Union args | A_Tuple args => args
  | _ => []
  end.

Definition is_NoneType (a : annotation) : bool :=
  match a with A_NoneType => true | _ => false end.

(** The three tests on the first member of a union that is not [None]; no
    answer for any other annotation. *)
Definition infer_inner (inner_annotation : annotation) : option FieldType :=
  match inner_annotation with
  | A_int | A_float => Some NUMBER
  | A_str => Some TEXT
  | A_bool => Some CHECKBOX
  | _ => None
  end.

(** [ComponentModel._infer_field_type] on the annotation of the field. *)
Definition _infer_field_type (annotation : annotation) : FieldType :=
  match annotation with
  | A_int | A_float => NUMBER
  | A_str => TEXT
  | A_bool => CHECKBOX
  | A_list => LIST
  | A_dict => OBJECT
  | _ =>
      match get_origin annotation with
      | Some O_list => LIST
      | Some O_dict => OBJECT
      | Some O_Union =>
          let non_none_args := filter (λ arg, is_NoneType arg = false) (get_args annotation) in
          match non_none_args with
          | inner_annotation :: _ => default TEXT (infer_inner inner_annotation)
          | [] => TEXT
          end
      | _ => TEXT
      end
  end.

(** ** Field information *)

(** An element of [FieldInfo.metadata]: a dict, or an object such as
    [annotated_types.Ge(ge=1)], of which only its not being a dict matters. *)
#[warnings="-register-all"]
Inductive meta_item : Type :=
| MetaDict (d : gmap string pyvalue)
| MetaObject (kind : string) (value : pyvalue).

(** What the method reads of a [FieldInfo].  [constraints] is [None] when
    the object has no such attribute. *)
Record FieldInfo : Type := mkFieldInfo {
  fi_annotation : annotation;
  fi_description : option string;
  fi_is_required : bool;
  fi_constraints : option (gmap string pyvalue);
  fi_metadata : option (list meta_item);
}.

(** The [FieldInfo] of a field declared [x: T = Field(default,
    description=..., ge=...)]: Pydantic keeps the bounds as objects in
    [metadata]; a [FieldInfo] has no attribute [constraints]. *)
Definition Field (annotation : annotation) (is_required : bool) (description : string)
    (bounds : list (string * pyvalue)) : FieldInfo :=
  mkFieldInfo annotation (Some description) is_required None
    (Some ((λ b, MetaObject b.1 b.2) <$> bounds)).

(** One [if key in d: constraints[target] = d[key]], with the flag the
    strict bounds also set. *)
Definition copy_bound (d : gmap string pyvalue) (key target : string)
    (flag : option string) (constraints : gmap string pyvalue) : gmap string pyvalue :=
  match d !! key with
  | Some v =>
      let constraints := <[target := v]> constraints in
      match flag with
      | Some f => <[f := PyBool true]> constraints
      | None => constraints
      end
  | None => constraints
  end.

(** The first part of [_get_field_constraints]: from the dict [constraints]. *)
Definition from_constraints (constraints_dict : gmap string pyvalue)
  : gmap string pyvalue :=
  copy_bound constraints_dict "max_length" "maxLength" None
    (copy_bound constraints_dict "min_length" "minLength" None
      (copy_bound constraints_dict "lt" "max" (Some "exclusiveMax")
        (copy_bound constraints_dict "le" "max" None
          (copy_bound constraints_dict "gt" "min" (Some "exclusiveMin")
            (copy_bound constraints_dict "ge" "min" None ∅))))).

(** The fallback: the dicts among the elements of [metadata], in order. *)
Definition from_metadata (metadata : list meta_item) : gmap string pyvalue :=
  foldl (λ constraints meta_item,
           match meta_item with
           | MetaDict d =>
               copy_bound d "lt" "max" (Some "exclusiveMax")
                 (copy_bound d "gt" "min" (Some "exclusiveMin")
                   (copy_bound d "le" "max" None
                     (copy_bound d "ge" "min" None constraints)))
           | MetaObject _ _ => constraints
           end) ∅ metadata.

(** [ComponentModel._get_field_constraints] *)
Definition _get_field_constraints (field_info : FieldInfo) : gmap string pyvalue :=
  let constraints :=
    match fi_constraints field_info with
    | Some constraints_dict =>
        if bool_decide (constraints_dict = ∅) then ∅ else from_constraints constraints_dict
    | None => ∅
    end in
  if bool_decide (constraints = ∅)
  then from_metadata (default [] (fi_metadata field_info))
  else constraints.

(** ** Labels *)

Definition is_upper (c : ascii) : bool :=
  let n := Ascii.N_of_ascii c in (65 <=? n)%N && (n <=? 90)%N.
Definition is_lower (c : ascii) : bool :=
  let n := Ascii.N_of_ascii c in (97 <=? n)%N && (n <=? 122)%N.
Definition to_upper (c : ascii) : ascii :=
  if is_lower c then Ascii.ascii_of_N (Ascii.N_of_ascii c - 32) else c.
Definition to_lower (c : ascii) : ascii :=
  if is_upper c then Ascii.ascii_of_N (Ascii.N_of_ascii c + 32) else c.

(** [str.title()] on ASCII: a letter after a letter is lowered, a letter
    after anything else is raised. *)
Fixpoint title_from (previous_is_cased : bool) (s : string) : string :=
  match s with
  | EmptyString => EmptyString
  | String c s =>
      String (if previous_is_cased then to_lower c else to_upper c)
             (title_from (is_lower c || is_upper c) s)
  end.

Definition title (s : string) : string := title_from false s.

(** [s.replace(old, new)] for strings of one character. *)
Fixpoint replace (old new : ascii) (s : string) : string :=
  match s with
  | EmptyString => EmptyString
  | String c s => String (if bool_decide (c = old) then new else c) (replace old new s)
  end.

(** [field_name.replace("_", " ").title()] *)
Definition label (field_name : string) : string :=
  title (replace "_"%char " "%char field_name).

(** ** The configuration *)

(** The dict of one field.  The keys [update] adds are those of the
    constraints, which are not among the four. *)
Record field_config : Type := mkFieldConfig {
  fc_type : FieldType;
  fc_label : string;
  fc_description : string;
  fc_required : bool;
  fc_constraints : gmap string pyvalue;
}.

(** [d[k] = v] on a dict that keeps the order of insertion. *)
Definition dict_set {A} (k : string) (v : A) (d : list (string * A)) : list (string * A) :=
  if bool_decide (k ∈ d.*1)
  then (λ kv, if bool_decide (kv.1 = k) then (k, v) else kv) <$> d
  else d ++ [(k, v)].

(** The entry of a declared field. *)
Definition declared_config (field_name : string) (field_info : FieldInfo) : field_config :=
  mkFieldConfig (_infer_field_type (fi_annotation field_info)) (label field_name)
    (default "" (fi_description field_info)) (fi_is_required field_info)
    (_get_field_constraints field_info).

(** The entry of an extra attribute. *)
Definition extra_config (field_name : string) (field_value : pyvalue) : field_config :=
  mkFieldConfig (_infer_value_type field_value) (label field_name)
    ("Dynamic attribute: " +:+ field_name) false ∅.

(** [ComponentModel.get_editor_config], given [type(self).model_fields] and
    [self.model_extra]. *)
Definition get_editor_config (model_fields : list (string * FieldInfo))
    (model_extra : list (string * pyvalue)) : list (string * field_config) :=
  let config :=
    foldl (λ config f,
             if bool_decide (f.1 = "component_type") then config
             else dict_set f.1 (declared_config f.1 f.2) config)
          [] model_fields in
  foldl (λ config f, dict_set f.1 (extra_config f.1 f.2) config) config model_extra.

(** ** The declared fields of the classes *)

Definition component_type_field : string * FieldInfo :=
  ("component_type", Field (A_class "ComponentType") false "Component category" []).

Definition ComponentModel_fields : list (string * FieldInfo) := [component_type_field].

Definition StatComponent_fields : list (string * FieldInfo) :=
  [component_type_field;
   ("name", Field A_str true "Unique identifier for the statistic" []);
   ("base_value", Field A_float false "Base value of the statistic" []);
   ("current_value", Field A_float false "Current modified value" []);
   ("min_value", Field (A_Optional A_float) false "Minimum allowed value" []);
   ("max_value", Field (A_Optional A_float) false "Maximum allowed value" []);
   ("description", Field A_str false "Description of what this statistic represents" [])].

Definition StatsComponent_fields : list (string * FieldInfo) :=
  [component_type_field;
   ("stats", Field (A_List (A_class "StatComponent")) false "List of statistics" []);
   ("max_stats", Field (A_Optional A_int) false
      "Maximum number of stats (None for unlimited)" [("ge", PyInt 1)])].

Definition InventoryCellComponent_fields : list (string * FieldInfo) :=
  [component_type_field;
   ("item_id", Field (A_Optional A_str) false "Unique identifier of the contained item" []);
   ("quantity", Field A_int false "Current quantity of items in stack" [("ge", PyInt 0)]);
   ("max_stack_size", Field A_int false "Maximum stack size" [("ge", PyInt 1)]);
   ("slot_type", Field (A_Optional A_str) false "Allowed item type for this slot" []);
   ("is_equipped", Field A_bool false "Whether this item is equipped" [])].

Definition InventoryComponent_fields : list (string * FieldInfo) :=
  [component_type_field;
   ("cells", Field (A_List (A_class "InventoryCellComponent")) false
      "List of inventory cells" []);
   ("max_cells", Field A_int false "Maximum number of cells in inventory" [("ge", PyInt 1)]);
   ("default_max_stack_size", Field A_int false "Default max stack size for new cells"
      [("ge", PyInt 1)])].

(** ** The kind of a field *)

Section kinds.
Implicit Types (a : annotation).

(** The annotations the union branch recognises. *)
Definition scalar a : bool :=
  match a with A_int | A_float | A_str | A_bool => true | _ => false end.

Lemma infer_inner_scalar a :
  infer_inner a = if scalar a then Some (_infer_field_type a) else None.
Proof. by destruct a. Qed.

(** No declared field is rendered as a select or a text area. *)
Lemma _infer_field_type_range a :
  _infer_field_type a ∈ [NUMBER; TEXT; CHECKBOX; LIST; OBJECT].
Proof.
  destruct a as [| | | | | | |?|??|args|?|?]; simpl; try set_solver.
  destruct (filter _ args) as [|[] ?]; simpl; set_solver.
Qed.

Lemma _infer_field_type_Optional a :
  _infer_field_type (A_Optional a) = if scalar a then _infer_field_type a else TEXT.
Proof. by destruct a. Qed.

(** C36. The kind of an optional field: [Optional[T]] is rendered as [T]
    is when [T] is [int], [float], [str] or [bool], and as text otherwise; so
    an optional list or dict, unlike a list or a dict, is rendered as text.
    For [T] not itself a union, the two kinds agree exactly when [T] is not
    rendered as a list or an object. *)
Theorem infer_field_type_optional a :
  get_origin a ≠ Some O_Union →
  _infer_field_type (A_Optional a) =
    (if scalar a then _infer_field_type a else TEXT) ∧
  (_infer_field_type (A_Optional a) = _infer_field_type a ↔
   _infer_field_type a ≠ LIST ∧ _infer_field_type a ≠ OBJECT).
Proof.
  intros Ha. split; [apply _infer_field_type_Optional|].
  destruct a; simpl in *; try congruence; intuition congruence.
Qed.

Lemma infer_field_type_optional_witness :
  _infer_field_type (A_Optional (A_List A_int)) =
    (if scalar (A_List A_int) then _infer_field_type (A_List A_int) else TEXT) ∧
  (_infer_field_type (A_Optional (A_List A_int)) = _infer_field_type (A_List A_int) ↔
   _infer_field_type (A_List A_int) ≠ LIST ∧ _infer_field_type (A_List A_int) ≠ OBJECT).
Proof. exact (infer_field_type_optional (A_List A_int) ltac:(done)). Defined.

(** The first member of a union decides. *)
Example infer_field_type_union_order :
  _infer_field_type (A_Union [A_str; A_int]) = TEXT ∧
  _infer_field_type (A_Union [A_int; A_str]) = NUMBER ∧
  _infer_field_type (A_Union [A_NoneType; A_bool]) = CHECKBOX.
Proof. done. Qed.

End kinds.

(** ** The bounds of a field *)

Section bounds.
Implicit Types (c d : gmap string pyvalue) (fi : FieldInfo).

(** What the first part finds, key by key: the strict bound wins over the
    inclusive one, and sets its flag. *)
Lemma from_constraints_min c :
  from_constraints c !! "min" = match c !! "gt" with Some v => Some v | None => c !! "ge" end.
Proof. rewrite /from_constraints /copy_bound. by repeat case_match; simplify_map_eq. Qed.

Lemma from_constraints_max c :
  from_constraints c !! "max" = match c !! "lt" with Some v => Some v | None => c !! "le" end.
Proof. rewrite /from_constraints /copy_bound. by repeat case_match; simplify_map_eq. Qed.

Lemma from_constraints_exclusive c :
  from_constraints c !! "exclusiveMin" = (λ _, PyBool true) <$> c !! "gt" ∧
  from_constraints c !! "exclusiveMax" = (λ _, PyBool true) <$> c !! "lt".
Proof. rewrite /from_constraints /copy_bound. by repeat case_match; simplify_map_eq. Qed.

Lemma from_constraints_length c :
  from_constraints c !! "minLength" = c !! "min_length" ∧
  from_constraints c !! "maxLength" = c !! "max_length".
Proof. rewrite /from_constraints /copy_bound. by repeat case_match; simplify_map_eq. Qed.

Lemma copy_bound_empty d key target flag c :
  copy_bound d key target flag c = ∅ → c = ∅ ∧ d !! key = None.
Proof.
  rewrite /copy_bound. destruct (d !! key); [|done].
  destruct flag; by intros ?%insert_non_empty.
Qed.

(** Objects in [metadata] are passed over. *)
Lemma from_metadata_objects (bounds : list (string * pyvalue)) :
  from_metadata ((λ b, MetaObject b.1 b.2) <$> bounds) = ∅.
Proof.
  rewrite /from_metadata. generalize (∅ : gmap string pyvalue).
  induction bounds as [|b bounds IH]; intros c; [done|]. apply IH.
Qed.

End bounds.

(** ** The configuration *)

Section config.
Context {A : Type}.
Implicit Types (d : list (string * A)) (k : string) (v : A).

Lemma dict_set_new k v d : k ∉ d.*1 → dict_set k v d = d ++ [(k, v)].
Proof. intros. by rewrite /dict_set bool_decide_eq_false_2. Qed.

Lemma dict_set_keys k v d :
  (dict_set k v d).*1 = if bool_decide (k ∈ d.*1) then d.*1 else d.*1 ++ [k].
Proof.
  rewrite /dict_set. case_bool_decide; [|by rewrite fmap_app].
  rewrite -list_fmap_compose. apply list_fmap_ext. intros i [k' v'] _. simpl.
  by case_bool_decide.
Qed.

(** Entries set one after the other under new keys are appended in order. *)
Lemma foldl_dict_set {B} (key : B → string) (val : B → A) (l : list B) d :
  NoDup (d.*1 ++ (key <$> l)) →
  foldl (λ config f, dict_set (key f) (val f) config) d l = d ++ ((λ f, (key f, val f)) <$> l).
Proof.
  revert d. induction l as [|f l IH]; intros d Hnd; [by rewrite app_nil_r|].
  rewrite /= dict_set_new.
  { apply NoDup_app in Hnd as (_ & Hd & _). intros Hin. apply (Hd _ Hin). by left. }
  rewrite IH; [by rewrite fmap_app /= -assoc|]. by rewrite -assoc.
Qed.

Lemma fst_filter (P : string → Prop) `{∀ k, Decision (P k)} d :
  (filter (λ f, P f.1) d).*1 = filter P d.*1.
Proof.
  induction d as [|f d IH]; [done|]. rewrite fmap_cons.
  destruct (decide (P f.1)).
  - by rewrite !filter_cons_True // fmap_cons IH.
  - by rewrite !filter_cons_False.
Qed.

End config.

Section editor.
Implicit Types (model_fields : list (string * FieldInfo))
  (model_extra : list (string * pyvalue)).

(** The declared fields that reach the editor. *)
Definition shown model_fields : list (string * FieldInfo) :=
  filter (λ f, f.1 ≠ "component_type") model_fields.

Lemma foldl_declared model_fields (config : list (string * field_config)) :
  foldl (λ config f,
           if bool_decide (f.1 = "component_type") then config
           else dict_set f.1 (declared_config f.1 f.2) config) config model_fields =
  foldl (λ config f, dict_set f.1 (declared_config f.1 f.2) config) config
        (shown model_fields).
Proof.
  revert config. induction model_fields as [|f l IH]; intros config; [done|].
  rewrite /shown /=. destruct (decide (f.1 = "component_type")) as [Heq|Hne].
  - rewrite bool_decide_eq_true_2 // filter_cons_False; [by intros Hne|]. apply IH.
  - by rewrite bool_decide_eq_false_2 // filter_cons_True //=.
Qed.

Lemma shown_NoDup model_fields model_extra :
  NoDup (model_fields.*1 ++ model_extra.*1) →
  NoDup ((shown model_fields).*1 ++ model_extra.*1).
Proof.
  intros Hnd. eapply sublist_NoDup; [done|].
  apply sublist_app; [|done]. apply fmap_sublist, sublist_filter.
Qed.

(** The configuration of a component whose field names and extra attribute
    names are distinct: an entry for every declared field but
    [component_type], in the order of declaration, then an entry for every
    extra attribute. *)
Lemma get_editor_config_eq model_fields model_extra :
  NoDup (model_fields.*1 ++ model_extra.*1) →
  get_editor_config model_fields model_extra =
  ((λ f, (f.1, declared_config f.1 f.2)) <$> shown model_fields) ++
  ((λ f, (f.1, extra_config f.1 f.2)) <$> model_extra).
Proof.
  intros Hnd%shown_NoDup. rewrite /get_editor_config foldl_declared.
  rewrite (foldl_dict_set fst (λ f, declared_config f.1 f.2)) /=.
  { by apply NoDup_app in Hnd as (? & _). }
  rewrite (foldl_dict_set fst (λ f, extra_config f.1 f.2)) //.
  by rewrite -list_fmap_compose.
Qed.

(** C35. The keys of the configuration: the declared fields in order
    without [component_type], then the extra attributes; [component_type] is
    never a key. *)
Theorem get_editor_config_keys model_fields model_extra :
  NoDup (model_fields.*1 ++ model_extra.*1) → "component_type" ∈ model_fields.*1 →
  (get_editor_config model_fields model_extra).*1 =
    filter (λ k, k ≠ "component_type") model_fields.*1 ++ model_extra.*1 ∧
  "component_type" ∉ (get_editor_config model_fields model_extra).*1.
Proof.
  intros Hnd Hct. rewrite get_editor_config_eq // fmap_app -!list_fmap_compose.
  rewrite -(fst_filter (λ k, k ≠ "component_type")). split; [done|].
  intros [(f & Heq & Hf)%list_elem_of_fmap|(f & Heq & Hf)%list_elem_of_fmap]%elem_of_app.
  - by apply list_elem_of_filter in Hf as [Hne _].
  - apply NoDup_app in Hnd as (_ & Hd & _). apply (Hd _ Hct).
    rewrite Heq /=. by apply list_elem_of_fmap_2.
Qed.

(** C34. No bound reaches the editor: a field declared with [Field]
    keeps its bounds as objects, which [_get_field_constraints] passes over,
    so the entry of every field of a component has no [min], [max] or
    length. *)
Theorem get_editor_config_no_bounds model_fields model_extra :
  NoDup (model_fields.*1 ++ model_extra.*1) →
  Forall (λ f, ∃ a r d b, f.2 = Field a r d b) model_fields →
  Forall (λ e, fc_constraints e.2 = ∅) (get_editor_config model_fields model_extra).
Proof.
  intros Hnd Hf. rewrite get_editor_config_eq //. apply Forall_app. split.
  - apply Forall_fmap, Forall_forall. intros [k fi] [_ Hin]%list_elem_of_filter.
    rewrite Forall_forall in Hf. destruct (Hf _ Hin) as (a & r & d & b & Heq).
    simpl in *. subst fi. by rewrite /= /_get_field_constraints /= from_metadata_objects.
  - by apply Forall_fmap, Forall_true.
Qed.

End editor.

(** ** The configuration of the components *)

Section examples.

Definition extras : list (string * pyvalue) :=
  [("bonus_damage", PyInt 3); ("is_cursed", PyBool true)].

Lemma get_editor_config_keys_witness :
  (get_editor_config InventoryCellComponent_fields extras).*1 =
    filter (λ k, k ≠ "component_type") InventoryCellComponent_fields.*1 ++ extras.*1 ∧
  "component_type" ∉ (get_editor_config InventoryCellComponent_fields extras).*1.
Proof.
  exact (get_editor_config_keys InventoryCellComponent_fields extras
           ltac:(by_decide) ltac:(by_decide)).
Defined.

Lemma get_editor_config_no_bounds_witness :
  Forall (λ e, fc_constraints e.2 = ∅)
    (get_editor_config InventoryCellComponent_fields extras).
Proof.
  exact (get_editor_config_no_bounds InventoryCellComponent_fields extras
           ltac:(by_decide)
           ltac:(repeat (constructor; [by eexists _, _, _, _|]); constructor)).
Defined.

(** The form of an inventory cell with two extra attributes: kinds, labels
    and requiredness; [quantity] and [max_stack_size] come without the
    [min] their declarations give. *)
Example cell_editor_config :
  (λ e, (e.1, fc_type e.2, fc_label e.2, fc_required e.2, map_to_list (fc_constraints e.2)))
    <$> get_editor_config InventoryCellComponent_fields extras =
  [("item_id", TEXT, "Item Id", false, []);
   ("quantity", NUMBER, "Quantity", false, []);
   ("max_stack_size", NUMBER, "Max Stack Size", false, []);
   ("slot_type", TEXT, "Slot Type", false, []);
   ("is_equipped", CHECKBOX, "Is Equipped", false, []);
   ("bonus_damage", NUMBER, "Bonus Damage", false, []);
   ("is_cursed", CHECKBOX, "Is Cursed", false, [])].
Proof. by vm_compute. Qed.

(** The kinds of the fields of the other components; [name] is the one
    required field. *)
Example stat_editor_config :
  (λ e, (e.1, fc_type e.2, fc_required e.2)) <$> get_editor_config StatComponent_fields [] =
  [("name", TEXT, true); ("base_value", NUMBER, false); ("current_value", NUMBER, false);
   ("min_value", NUMBER, false); ("max_value", NUMBER, false); ("description", TEXT, false)] ∧
  (λ e, (e.1, fc_type e.2)) <$> get_editor_config StatsComponent_fields [] =
  [("stats", LIST); ("max_stats", NUMBER)] ∧
  (λ e, (e.1, fc_type e.2)) <$> get_editor_config InventoryComponent_fields [] =
  [("cells", LIST); ("max_cells", NUMBER); ("default_max_stack_size", NUMBER)] ∧
  get_editor_config ComponentModel_fields [] = [].
Proof. by vm_compute. Qed.

(** What [_get_field_constraints] answers when the bounds are in a dict of
    constraints: the strict bounds win and set their flags. *)
Example get_field_constraints_dict :
  map_to_list (_get_field_constraints
    (mkFieldInfo A_int None false
       (Some {[ "ge" := PyInt 0; "gt" := PyInt 5; "lt" := PyInt 9 ]}) None)) =
  [("min", PyInt 5); ("max", PyInt 9); ("exclusiveMin", PyBool true);
   ("exclusiveMax", PyBool true)].
Proof. by vm_compute. Qed.

End examples.
