(* ===== verification/Numeric.v ===== *)
(** * Numeric: the interface of a stat's value type

    [StatComponent] declares its values as Python [float].  The component
    uses three things of that type: the default [0.0], [+] and the
    comparison [<] ([a > b] is [b < a]).  The class [Num] is that interface,
    with the non-strict comparison and a test [num_ok] ("is a number") that
    the statements of the bounds invariant need.  [NumLaws] are the order
    laws the invariant rests on.

    Two instances, both with the laws: [Z], and the IEEE binary64 floats of
    the kernel, which are Python's [float] bit for bit.  On floats [num_ok]
    is "not NaN"; the laws are proved from the specification of the kernel's
    comparisons ([FloatAxioms]) and fail for NaN. *)

Set Warnings "-rewrite-rw".
From Stdlib Require Import Floats.
From S2P Require Import Prelude.

Class Num (V : Type) : Type := {
  num_zero : V;
  num_add : V → V → V;
  num_ltb : V → V → bool;
  num_leb : V → V → bool;
  num_ok : V → bool;
}.

Class NumLaws (V : Type) `{Num V} : Prop := {
  num_ltb_leb x y : num_ok x → num_ok y → num_ltb x y = negb (num_leb y x);
  num_leb_refl x : num_ok x → num_leb x x;
  num_leb_trans x y z :
    num_ok x → num_ok y → num_ok z →
    num_leb x y → num_leb y z → num_leb x z;
}.

(** [x ≤ y] between numbers: both are numbers and the comparison holds. *)
Definition num_le `{Num V} (x y : V) : Prop :=
  num_ok x ∧ num_ok y ∧ num_leb x y.

#[export] Instance num_le_dec `{Num V} (x y : V) : Decision (num_le x y).
Proof. rewrite /num_le. apply _. Defined.

(** ** Integers *)

#[export] Instance Z_num : Num Z := {|
  num_zero := 0;
  num_add := Z.add;
  num_ltb := Z.ltb;
  num_leb := Z.leb;
  num_ok := λ _, true;
|}.

(** ** IEEE binary64: Python's [float] *)

#[export] Instance float_num : Num float := {|
  num_zero := 0%float;
  num_add := PrimFloat.add;
  num_ltb := PrimFloat.ltb;
  num_leb := PrimFloat.leb;
  num_ok := λ x, negb (PrimFloat.is_nan x);
|}.

(** ** Consequences of the laws *)

Section num_lemmas.
Context `{NumLaws V}.
Implicit Types x y z : V.

Lemma num_le_refl x : num_ok x → num_le x x.
Proof. intros. split_and!; [done..|by apply num_leb_refl]. Qed.

Lemma num_le_trans x y z : num_le x y → num_le y z → num_le x z.
Proof.
  intros (? & ? & ?) (? & ? & ?). split_and!; [done..|].
  by apply (num_leb_trans x y z).
Qed.

Lemma num_le_ok_l x y : num_le x y → num_ok x.
Proof. by intros (? & _). Qed.

Lemma num_le_ok_r x y : num_le x y → num_ok y.
Proof. by intros (_ & ? & _). Qed.

(** The two answers of a test [x < y] of the code, between numbers. *)
Lemma num_ltb_false x y : num_ok x → num_ok y → num_ltb x y = false → num_le y x.
Proof.
  intros Hx Hy. rewrite num_ltb_leb // negb_false_iff. intros ?%Is_true_true.
  by split_and!.
Qed.

Lemma num_ltb_true x y : num_ok x → num_ok y → num_ltb x y = true → ¬ num_le y x.
Proof.
  intros Hx Hy. rewrite num_ltb_leb // negb_true_iff.
  intros Hf (_ & _ & Hle). by rewrite Hf in Hle.
Qed.

Lemma num_le_ltb x y : num_le x y → num_ltb y x = false.
Proof.
  intros (? & ? & Hle). rewrite num_ltb_leb // negb_false_iff. by apply Is_true_true.
Qed.

End num_lemmas.

#[export] Instance Z_num_laws : NumLaws Z.
Proof.
  split; simpl.
  - intros x y _ _. destruct (Z.ltb_spec x y), (Z.leb_spec y x); (done || lia).
  - intros x _. apply Is_true_true, Z.leb_refl.
  - intros x y z _ _ _ ?%Is_true_true%Z.leb_le ?%Is_true_true%Z.leb_le.
    apply Is_true_true, Z.leb_le. lia.
Qed.

Lemma Z_num_le x y : num_le (V:=Z) x y ↔ x ≤ y.
Proof.
  rewrite /num_le /=. split.
  - by intros (_ & _ & ?%Is_true_true%Z.leb_le).
  - intros. split_and!; [done..|]. by apply Is_true_true, Z.leb_le.
Qed.

(** ** The order of binary64 numbers

    The kernel's comparisons are specified by [SFcompare] on the decoded
    float.  On numbers it is the lexicographic order of a key of three
    integers: the class (infinities outside, zeros in the middle), then the
    exponent, then the mantissa, the last two negated for negative numbers. *)

Definition float_key (f : spec_float) : Z * (Z * Z) :=
  match f with
  | S754_nan | S754_zero _ => (0, (0, 0))
  | S754_infinity true => (-2, (0, 0))
  | S754_infinity false => (2, (0, 0))
  | S754_finite true m e => (-1, (- e, Z.neg m))
  | S754_finite false m e => (1, (e, Z.pos m))
  end.

Definition lex (a b : Z * (Z * Z)) : comparison :=
  match a.1 ?= b.1 with
  | Eq => match a.2.1 ?= b.2.1 with Eq => a.2.2 ?= b.2.2 | c => c end
  | c => c
  end.

Lemma lex_refl a : lex a a = Eq.
Proof. by rewrite /lex !Z.compare_refl. Qed.

Lemma lex_antisym a b : lex b a = CompOpp (lex a b).
Proof.
  rewrite /lex (Z.compare_antisym a.1) (Z.compare_antisym a.2.1) (Z.compare_antisym a.2.2).
  by destruct (a.1 ?= b.1), (a.2.1 ?= b.2.1).
Qed.

Lemma lex_le a b :
  lex a b ≠ Gt ↔ a.1 < b.1 ∨ a.1 = b.1 ∧ (a.2.1 < b.2.1 ∨ a.2.1 = b.2.1 ∧ a.2.2 ≤ b.2.2).
Proof.
  rewrite /lex. destruct (Z.compare_spec a.1 b.1), (Z.compare_spec a.2.1 b.2.1);
    try (split; [intros _; lia|done]); try (split; [done|lia]).
  rewrite Z.compare_le_iff. lia.
Qed.

Lemma lex_trans a b c : lex a b ≠ Gt → lex b c ≠ Gt → lex a c ≠ Gt.
Proof. rewrite !lex_le. lia. Qed.

Lemma SFcompare_key x y :
  x ≠ S754_nan → y ≠ S754_nan → SFcompare x y = Some (lex (float_key x) (float_key y)).
Proof.
  destruct x as [?|[]| |[] mx ex], y as [?|[]| |[] my ey]; try done; intros _ _;
    rewrite /= /lex /= ?Z.compare_opp ?(Z.compare_antisym ex ey) -?Pos.compare_cont_spec;
    by destruct (ex ?= ey).
Qed.

Lemma float_ok_spec (x : float) : num_ok x → Prim2SF x ≠ S754_nan.
Proof. rewrite /= /is_nan FloatAxioms.eqb_spec. intros Hx Hn. by rewrite Hn in Hx. Qed.

Lemma float_ltb_key (x y : float) :
  num_ok x → num_ok y →
  num_ltb x y = bool_decide (lex (float_key (Prim2SF x)) (float_key (Prim2SF y)) = Lt).
Proof.
  intros Hx%float_ok_spec Hy%float_ok_spec. rewrite /= FloatAxioms.ltb_spec /SFltb SFcompare_key //.
  by destruct (lex _ _).
Qed.

Lemma float_leb_key (x y : float) :
  num_ok x → num_ok y →
  num_leb x y = bool_decide (lex (float_key (Prim2SF x)) (float_key (Prim2SF y)) ≠ Gt).
Proof.
  intros Hx%float_ok_spec Hy%float_ok_spec. rewrite /= FloatAxioms.leb_spec /SFleb SFcompare_key //.
  by destruct (lex _ _).
Qed.

(** Python's floats satisfy the order laws on numbers. *)
#[export] Instance float_num_laws : NumLaws float.
Proof.
  split.
  - intros x y Hx Hy. rewrite float_ltb_key // float_leb_key // lex_antisym.
    by destruct (lex _ _).
  - intros x Hx. by rewrite float_leb_key // lex_refl.
  - intros x y z Hx Hy Hz. rewrite !float_leb_key // !bool_decide_spec. apply lex_trans.
Qed.

(** NaN is the one float that differs from itself, and it is below and above
    nothing. *)
Lemma float_nan_spec (x : float) : PrimFloat.is_nan x = true → Prim2SF x = S754_nan.
Proof.
  rewrite /is_nan FloatAxioms.eqb_spec /SFeqb. intros Hx.
  destruct (Prim2SF x); [| |done|]; by rewrite SFcompare_key // lex_refl in Hx.
Qed.

Lemma float_nan_ltb (x y : float) :
  PrimFloat.is_nan x = true → num_ltb x y = false ∧ num_ltb y x = false.
Proof.
  intros Hx%float_nan_spec. rewrite /= !FloatAxioms.ltb_spec Hx /SFltb /=.
  by destruct (Prim2SF y).
Qed.

(** NaN is not a number, and every comparison with it is false: on floats
    the first law fails outside [num_ok]. *)
Lemma float_nan_unordered :
  num_ok (V:=float) nan = false ∧
  num_ltb nan 0%float = false ∧ num_leb 0%float nan = false.
Proof. by vm_compute. Qed.

#[export] Hint Resolve num_le_refl num_le_ok_l num_le_ok_r : aw.
