(* ===== verification/Stat.v ===== *)
(** * StatComponent: one bounded statistic

    Module [StatComponent] models [class StatComponent] (components.py, lines
    222-341): the record of its fields, the two field validators, the
    constructor, assignment to the two validated fields, and the methods
    [modify_value], [reset_to_base] and [set_base_value].

    The value type [V] is any instance of [Num].  The dict a validator reads
    ([validation_info.data]) is a [gmap] from field names to optional values:
    empty of bounds during construction, because [min_value] and [max_value]
    are declared after [base_value] and [current_value]; holding every other
    field during an assignment.

    The invariant [inv] (both values numbers within the bounds) is kept by
    every call on consistent bounds ([run_inv]).  Where it is not: bounds
    given inverted ([modify_value_inverted_bounds], for every such stat), a
    sum that is NaN ([modify_value_nan_escapes], for every float stat), and
    construction, which clamps nothing ([init_not_clamped]). *)

Set Warnings "-rewrite-rw".
From Stdlib Require Import Floats.
From stdpp Require Import gmap.
From S2P Require Import Prelude Model Numeric.

Module StatComponent.

Section defs.
Context `{Num V}.

(** The declared fields, in declaration order. *)
Record t : Type := mk {
  component_type : ComponentType;
  name : string;
  base_value : V;
  current_value : V;
  min_value : option V;
  max_value : option V;
  description : string;
}.

(** [validation_info.data], restricted to the fields of type [float] and
    [Optional[float]]: the only ones the validators read. *)
Definition data : Type := gmap string (option V).

(** [values.get(key)]: [None] for an absent key and for a key holding [None]. *)
Definition data_get (values : data) (key : string) : option V :=
  default None (values !! key).

(** [bound is not None and value < bound]: the bound, when the test holds. *)
Definition lt_bound (value : V) (bound : option V) : option V :=
  match bound with
  | Some lo => if num_ltb value lo then Some lo else None
  | None => None
  end.

(** [bound is not None and value > bound]: the bound, when the test holds. *)
Definition gt_bound (value : V) (bound : option V) : option V :=
  match bound with
  | Some hi => if num_ltb hi value then Some hi else None
  | None => None
  end.

(** [@field_validator("current_value")].  Two early returns, then the value. *)
Definition validate_current_value (current_value : V) (values : data) : V :=
  let min_val := data_get values "min_value" in
  let max_val := data_get values "max_value" in
  match lt_bound current_value min_val with
  | Some lo => lo
  | None =>
      match gt_bound current_value max_val with
      | Some hi => hi
      | None => current_value
      end
  end.

(** [@field_validator("base_value")]: the same body on the base value. *)
Definition validate_base_value (base_value : V) (values : data) : V :=
  let min_val := data_get values "min_value" in
  let max_val := data_get values "max_value" in
  match lt_bound base_value min_val with
  | Some lo => lo
  | None =>
      match gt_bound base_value max_val with
      | Some hi => hi
      | None => base_value
      end
  end.

(** The fields of an instance as a validator sees them. *)
Definition fields (self : t) : data :=
  {[ "base_value" := Some (base_value self);
     "current_value" := Some (current_value self);
     "min_value" := min_value self;
     "max_value" := max_value self ]}.

(** [self.current_value = value] under [validate_assignment=True]: the
    validator runs with every other field in [data]. *)
Definition setattr_current_value (self : t) (value : V) : t :=
  let value := validate_current_value value (delete "current_value" (fields self)) in
  mk (component_type self) (name self) (base_value self) value
     (min_value self) (max_value self) (description self).

(** [self.base_value = value] under [validate_assignment=True]. *)
Definition setattr_base_value (self : t) (value : V) : t :=
  let value := validate_base_value value (delete "base_value" (fields self)) in
  mk (component_type self) (name self) value (current_value self)
     (min_value self) (max_value self) (description self).

(** The constructor applied to keyword arguments.  [__init__] copies
    [base_value] into a missing [current_value]; Pydantic then validates the fields in declaration order.
    When [base_value] is validated, [data] holds [component_type] and [name];
    when [current_value] is, it also holds [base_value].  Neither bound is in
    [data] yet.  A missing [name] is the only failure. *)
Definition __init__ (name : option string) (base_value current_value : option V)
    (min_value max_value : option V) (description : option string)
  : outcome exn t :=
  let current_value :=
    match current_value, base_value with
    | None, Some b => Some b
    | _, _ => current_value
    end in
  match name with
  | None => Raise (ValidationError [ErrorDetails "name" missing])
  | Some name =>
      let base :=
        match base_value with
        | Some b => validate_base_value b ∅
        | None => num_zero
        end in
      let current :=
        match current_value with
        | Some c => validate_current_value c {[ "base_value" := Some base ]}
        | None => num_zero
        end in
      Ok (mk STAT name base current min_value max_value (default "" description))
  end.

(** [modify_value(modifier)]: add, clamp with two successive tests, assign
    (which validates once more), return the stored value. *)
Definition modify_value (self : t) (modifier : V) : V * t :=
  let new_value := num_add (current_value self) modifier in
  let new_value := default new_value (lt_bound new_value (min_value self)) in
  let new_value := default new_value (gt_bound new_value (max_value self)) in
  let self := setattr_current_value self new_value in
  (current_value self, self).

(** [reset_to_base()]: an assignment, hence validated. *)
Definition reset_to_base (self : t) : t :=
  setattr_current_value self (base_value self).

(** [set_base_value(new_value)]: clamp, assign both fields, return the base. *)
Definition set_base_value (self : t) (new_value : V) : V * t :=
  let new_value := default new_value (lt_bound new_value (min_value self)) in
  let new_value := default new_value (gt_bound new_value (max_value self)) in
  let self := setattr_base_value self new_value in
  let self := setattr_current_value self new_value in
  (base_value self, self).

(** ** The bounds invariant *)

(** [value] is a number within the optional bounds. *)
Definition within (min max : option V) (value : V) : Prop :=
  num_ok value ∧
  match min with Some lo => num_le lo value | None => True end ∧
  match max with Some hi => num_le value hi | None => True end.

(** The bounds are numbers, and the lower one is not above the upper one.
    Nothing in the class checks this. *)
Definition bounds_wf (min max : option V) : Prop :=
  match min, max with
  | Some lo, Some hi => num_le lo hi
  | Some lo, None => num_ok lo
  | None, Some hi => num_ok hi
  | None, None => True
  end.

(** The invariant of §3 of the specification: both values within the bounds. *)
Definition inv (self : t) : Prop :=
  within (min_value self) (max_value self) (base_value self) ∧
  within (min_value self) (max_value self) (current_value self).

(** The clamp of the validators: the lower bound wins when both tests hold. *)
Definition clamp (min max : option V) (value : V) : V :=
  match lt_bound value min with
  | Some lo => lo
  | None => default value (gt_bound value max)
  end.

(** The clamp of [modify_value] and [set_base_value]: the second test is made
    on the result of the first, so the upper bound wins. *)
Definition clamp_seq (min max : option V) (value : V) : V :=
  let value := default value (lt_bound value min) in
  default value (gt_bound value max).

(** ** Sequences of calls on one stat *)

Inductive op : Type :=
| Modify (modifier : V)
| ResetToBase
| SetBase (new_value : V)
| AssignCurrent (value : V)
| AssignBase (value : V).

Definition step (self : t) (o : op) : t :=
  match o with
  | Modify m => (modify_value self m).2
  | ResetToBase => reset_to_base self
  | SetBase v => (set_base_value self v).2
  | AssignCurrent v => setattr_current_value self v
  | AssignBase v => setattr_base_value self v
  end.

Definition run (self : t) (ops : list op) : t := foldl step self ops.

(** The numbers a call handles are numbers: its argument, and for
    [modify_value] the sum it computes. *)
Definition op_ok (self : t) (o : op) : Prop :=
  match o with
  | Modify m => num_ok (num_add (current_value self) m)
  | ResetToBase => True
  | SetBase v | AssignCurrent v | AssignBase v => num_ok v
  end.

Fixpoint run_ok (self : t) (ops : list op) : Prop :=
  match ops with
  | [] => True
  | o :: ops => op_ok self o ∧ run_ok (step self o) ops
  end.

#[export] Instance within_dec min max value : Decision (within min max value).
Proof. rewrite /within. destruct min, max; apply _. Defined.
#[export] Instance bounds_wf_dec min max : Decision (bounds_wf min max).
Proof. rewrite /bounds_wf. destruct min, max; apply _. Defined.
#[export] Instance inv_dec self : Decision (inv self).
Proof. rewrite /inv. apply _. Defined.

End defs.

Arguments t V : clear implicits.
Arguments data V : clear implicits.

(** ** What the validators see *)

Section data_lemmas.
Context `{Num V}.
Implicit Types (self : t V) (v : V).

Lemma data_get_empty key : data_get (V:=V) ∅ key = None.
Proof. by rewrite /data_get lookup_empty. Qed.

Lemma data_get_init_base b key :
  key ≠ "base_value" → data_get (V:=V) {[ "base_value" := Some b ]} key = None.
Proof. intros. by rewrite /data_get lookup_singleton_ne. Qed.

Lemma fields_min_current self :
  data_get (delete "current_value" (fields self)) "min_value" = min_value self.
Proof. by rewrite /data_get /fields; simplify_map_eq. Qed.

Lemma fields_max_current self :
  data_get (delete "current_value" (fields self)) "max_value" = max_value self.
Proof. by rewrite /data_get /fields; simplify_map_eq. Qed.

Lemma fields_min_base self :
  data_get (delete "base_value" (fields self)) "min_value" = min_value self.
Proof. by rewrite /data_get /fields; simplify_map_eq. Qed.

Lemma fields_max_base self :
  data_get (delete "base_value" (fields self)) "max_value" = max_value self.
Proof. by rewrite /data_get /fields; simplify_map_eq. Qed.

(** A validator is the clamp by the bounds it finds in [data]. *)
Lemma validate_current_value_clamp v (values : data V) :
  validate_current_value v values =
  clamp (data_get values "min_value") (data_get values "max_value") v.
Proof. rewrite /validate_current_value /clamp. by repeat case_match. Qed.

Lemma validate_base_value_clamp v (values : data V) :
  validate_base_value v values =
  clamp (data_get values "min_value") (data_get values "max_value") v.
Proof. rewrite /validate_base_value /clamp. by repeat case_match. Qed.

Lemma setattr_current_value_eq self v :
  setattr_current_value self v =
  mk (component_type self) (name self) (base_value self)
     (clamp (min_value self) (max_value self) v)
     (min_value self) (max_value self) (description self).
Proof.
  by rewrite /setattr_current_value validate_current_value_clamp
    fields_min_current fields_max_current.
Qed.

Lemma setattr_base_value_eq self v :
  setattr_base_value self v =
  mk (component_type self) (name self)
     (clamp (min_value self) (max_value self) v) (current_value self)
     (min_value self) (max_value self) (description self).
Proof.
  by rewrite /setattr_base_value validate_base_value_clamp
    fields_min_base fields_max_base.
Qed.

End data_lemmas.

(** ** The clamp, under the order laws *)

Section clamp_lemmas.
Context `{NumLaws V}.
Implicit Types (self : t V) (v lo hi : V) (min max : option V).

Lemma bounds_wf_ok_min lo max : bounds_wf (Some lo) max → num_ok lo.
Proof. destruct max; [apply num_le_ok_l|done]. Qed.

Lemma bounds_wf_ok_max min hi : bounds_wf min (Some hi) → num_ok hi.
Proof. destruct min; [apply num_le_ok_r|done]. Qed.

(** The answers of the two tests, between numbers. *)
Lemma lt_bound_Some v min lo :
  lt_bound v min = Some lo → min = Some lo ∧ num_ltb v lo = true.
Proof. rewrite /lt_bound. by repeat case_match; intros; simplify_eq. Qed.

Lemma lt_bound_None v min lo :
  lt_bound v min = None → min = Some lo → num_ltb v lo = false.
Proof. rewrite /lt_bound. by repeat case_match; intros; simplify_eq. Qed.

Lemma gt_bound_Some v max hi :
  gt_bound v max = Some hi → max = Some hi ∧ num_ltb hi v = true.
Proof. rewrite /gt_bound. by repeat case_match; intros; simplify_eq. Qed.

Lemma gt_bound_None v max hi :
  gt_bound v max = None → max = Some hi → num_ltb hi v = false.
Proof. rewrite /gt_bound. by repeat case_match; intros; simplify_eq. Qed.

Lemma lt_bound_within min max v : within min max v → lt_bound v min = None.
Proof.
  intros (_ & Hlo & _). destruct min as [lo|]; [|done].
  by rewrite /lt_bound (num_le_ltb lo v).
Qed.

Lemma gt_bound_within min max v : within min max v → gt_bound v max = None.
Proof.
  intros (_ & _ & Hhi). destruct max as [hi|]; [|done].
  by rewrite /gt_bound (num_le_ltb v hi).
Qed.

Lemma within_min lo max : bounds_wf (Some lo) max → within (Some lo) max lo.
Proof.
  intros Hwf. pose proof (bounds_wf_ok_min _ _ Hwf).
  split_and!; [done|by apply num_le_refl|by destruct max].
Qed.

Lemma within_max min hi : bounds_wf min (Some hi) → within min (Some hi) hi.
Proof.
  intros Hwf. pose proof (bounds_wf_ok_max _ _ Hwf).
  split_and!; [done|by destruct min|by apply num_le_refl].
Qed.

(** The validators' clamp lands within well-formed bounds. *)
Lemma clamp_within min max v :
  bounds_wf min max → num_ok v → within min max (clamp min max v).
Proof.
  intros Hwf Hv. rewrite /clamp.
  destruct (lt_bound v min) as [lo|] eqn:Hlt.
  { apply lt_bound_Some in Hlt as [-> _]. by apply within_min. }
  destruct (gt_bound v max) as [hi|] eqn:Hgt; simpl.
  { apply gt_bound_Some in Hgt as [-> _]. by apply within_max. }
  split_and!; [done|..].
  - destruct min as [lo|]; [|done].
    apply num_ltb_false; eauto using bounds_wf_ok_min, lt_bound_None.
  - destruct max as [hi|]; [|done].
    apply num_ltb_false; eauto using bounds_wf_ok_max, gt_bound_None.
Qed.

(** A value within the bounds passes unchanged. *)
Lemma clamp_id min max v : within min max v → clamp min max v = v.
Proof.
  intros Hv. by rewrite /clamp (lt_bound_within min max) // (gt_bound_within min max).
Qed.

Lemma clamp_idemp min max v :
  bounds_wf min max → num_ok v → clamp min max (clamp min max v) = clamp min max v.
Proof. intros. by apply clamp_id, clamp_within. Qed.

(** On well-formed bounds the two clamps of the source agree. *)
Lemma clamp_seq_clamp min max v :
  bounds_wf min max → num_ok v → clamp_seq min max v = clamp min max v.
Proof.
  intros Hwf Hv. rewrite /clamp_seq /clamp.
  destruct (lt_bound v min) as [lo|] eqn:Hlt; [|done]. simpl.
  apply lt_bound_Some in Hlt as [-> _].
  by rewrite (gt_bound_within (Some lo) max lo); [apply within_min|].
Qed.

(** Inverted bounds, the maximum strictly below the minimum: nothing is
    within them, the clamp of the methods answers the maximum, and the clamp
    of the validators turns the maximum into the minimum. *)
Lemma within_inverted lo hi v : num_ltb hi lo = true → ¬ within (Some lo) (Some hi) v.
Proof.
  intros Hlt (_ & Hlo & Hhi).
  pose proof (num_le_ltb lo hi (num_le_trans _ _ _ Hlo Hhi)). congruence.
Qed.

Lemma clamp_seq_inverted lo hi v :
  num_ok lo → num_ok hi → num_ok v → num_ltb hi lo = true →
  clamp_seq (Some lo) (Some hi) v = hi.
Proof.
  intros Hlo Hhi Hv Hlt. rewrite /clamp_seq /=.
  destruct (num_ltb v lo) eqn:Hvlo; simpl; [by rewrite Hlt|].
  destruct (num_ltb hi v) eqn:Hhv; [done|].
  apply num_ltb_false in Hvlo, Hhv; [|done..].
  pose proof (num_le_ltb lo hi (num_le_trans _ _ _ Hvlo Hhv)). congruence.
Qed.

Lemma clamp_inverted lo hi : num_ltb hi lo = true → clamp (Some lo) (Some hi) hi = lo.
Proof. intros Hlt. by rewrite /clamp /= Hlt. Qed.

End clamp_lemmas.

(** ** The methods *)

Section method_theorems.
Context `{NumLaws V}.
Implicit Types (self : t V) (v m : V).

(** An assignment to [current_value] stores the clamp of the value and
    touches nothing else. *)
Lemma setattr_current_value_inv self v :
  bounds_wf (min_value self) (max_value self) →
  within (min_value self) (max_value self) (base_value self) →
  num_ok v →
  inv (setattr_current_value self v).
Proof.
  intros Hwf Hb Hv. rewrite setattr_current_value_eq. split; [done|].
  by apply clamp_within.
Qed.

(** The methods, with the assignments they make written out.  These hold
    for any bounds. *)
Lemma modify_value_eq self m :
  modify_value self m =
  let c := clamp (min_value self) (max_value self)
             (clamp_seq (min_value self) (max_value self)
                (num_add (current_value self) m)) in
  (c, mk (component_type self) (name self) (base_value self) c
         (min_value self) (max_value self) (description self)).
Proof. by rewrite /modify_value -/(clamp_seq _ _ _) setattr_current_value_eq. Qed.

Lemma set_base_value_eq self v :
  set_base_value self v =
  let c := clamp_seq (min_value self) (max_value self) v in
  let b := clamp (min_value self) (max_value self) c in
  (b, mk (component_type self) (name self) b b
         (min_value self) (max_value self) (description self)).
Proof.
  by rewrite /set_base_value -/(clamp_seq _ _ _) setattr_current_value_eq
    setattr_base_value_eq.
Qed.

Lemma setattr_base_value_within self v :
  bounds_wf (min_value self) (max_value self) → num_ok v →
  within (min_value self) (max_value self) (base_value (setattr_base_value self v)).
Proof. intros. rewrite setattr_base_value_eq /=. by apply clamp_within. Qed.

(** C7. [modify_value] returns the stored current value, which is the clamp
    of [current_value + modifier] by the bounds; the base value and the bounds
    are untouched, and the stat satisfies the bounds invariant afterwards.
    The bounds must be consistent, the base within them, and the sum a
    number. *)
Theorem modify_value_inv self m :
  bounds_wf (min_value self) (max_value self) →
  within (min_value self) (max_value self) (base_value self) →
  num_ok (num_add (current_value self) m) →
  (modify_value self m).1 = current_value (modify_value self m).2 ∧
  (modify_value self m).1 =
    clamp (min_value self) (max_value self) (num_add (current_value self) m) ∧
  base_value (modify_value self m).2 = base_value self ∧
  inv (modify_value self m).2.
Proof.
  intros Hwf Hb Hok. rewrite modify_value_eq /= clamp_seq_clamp // clamp_idemp //.
  split_and!; [done..|]. split; [done|]. by apply clamp_within.
Qed.

(** C19. [set_base_value] stores the clamp of its argument in both fields and
    returns it; the invariant holds afterwards whatever the stat was before,
    provided the bounds are consistent and the argument is a number. *)
Theorem set_base_value_inv self v :
  bounds_wf (min_value self) (max_value self) → num_ok v →
  (set_base_value self v).1 = clamp (min_value self) (max_value self) v ∧
  base_value (set_base_value self v).2 = (set_base_value self v).1 ∧
  current_value (set_base_value self v).2 = (set_base_value self v).1 ∧
  inv (set_base_value self v).2.
Proof.
  intros Hwf Hok. rewrite set_base_value_eq /= clamp_seq_clamp // clamp_idemp //.
  split_and!; [done..|]. split; by apply clamp_within.
Qed.

(** [reset_to_base] is idempotent: a second call changes nothing. *)
Theorem reset_to_base_idemp self :
  reset_to_base (reset_to_base self) = reset_to_base self.
Proof. by rewrite /reset_to_base !setattr_current_value_eq. Qed.

(** When the base value is within the bounds, [reset_to_base] makes the
    current value equal to it, and the invariant holds. *)
Theorem reset_to_base_current self :
  within (min_value self) (max_value self) (base_value self) →
  current_value (reset_to_base self) = base_value self ∧ inv (reset_to_base self).
Proof.
  intros Hb. rewrite /reset_to_base setattr_current_value_eq /= clamp_id //.
Qed.

(** The constructor, given a name and a base value, stores what it was
    given. *)
Lemma init_eq n b c min max d :
  __init__ (Some n) (Some b) c min max d =
  Ok (mk STAT n b (default b c) min max (default "" d)).
Proof.
  rewrite /__init__. destruct c; simpl;
    rewrite validate_base_value_clamp validate_current_value_clamp
      !data_get_empty !data_get_init_base //.
Qed.

(** C21. Construction does not clamp: the validators run before the bounds
    are in [data], so the instance holds the base and current values it was
    given, whatever the bounds are; it satisfies the invariant exactly when
    the values given were already within the bounds. *)
Theorem init_not_clamped n b c min max d self :
  __init__ (Some n) (Some b) c min max d = Ok self →
  base_value self = b ∧ current_value self = default b c ∧
  min_value self = min ∧ max_value self = max ∧
  (inv self ↔ within min max b ∧ within min max (default b c)).
Proof. rewrite init_eq. by intros [= <-]. Qed.

Lemma step_bounds self o :
  min_value (step self o) = min_value self ∧
  max_value (step self o) = max_value self ∧
  name (step self o) = name self.
Proof.
  destruct o; rewrite /step /reset_to_base ?modify_value_eq ?set_base_value_eq
    ?setattr_current_value_eq ?setattr_base_value_eq //.
Qed.

Lemma step_inv self o :
  bounds_wf (min_value self) (max_value self) →
  inv self → op_ok self o → inv (step self o).
Proof.
  intros Hwf [Hb Hc] Hok. destruct o; simpl in Hok; rewrite /step.
  - rewrite modify_value_eq /= clamp_seq_clamp // clamp_idemp //.
    split; [done|by apply clamp_within].
  - rewrite /reset_to_base setattr_current_value_eq /= clamp_id //.
  - rewrite set_base_value_eq /= clamp_seq_clamp // clamp_idemp //.
    split; by apply clamp_within.
  - by apply setattr_current_value_inv.
  - rewrite setattr_base_value_eq. split; [by apply clamp_within|done].
Qed.

(** C13. Whatever sequence of [modify_value], [reset_to_base],
    [set_base_value] and assignments is applied to a stat that satisfies the
    invariant, with consistent bounds and numbers as inputs, the stat
    satisfies the invariant afterwards, under the same name and bounds. *)
Theorem run_inv ops self :
  bounds_wf (min_value self) (max_value self) →
  inv self → run_ok self ops →
  inv (run self ops) ∧
  min_value (run self ops) = min_value self ∧
  max_value (run self ops) = max_value self ∧
  name (run self ops) = name self.
Proof.
  revert self. induction ops as [|o ops IH]; intros self Hwf Hinv Hok; [done|].
  destruct Hok as [Ho Hops]. destruct (step_bounds self o) as (Hmin & Hmax & Hn).
  rewrite /run /= -/(run _ _). rewrite -Hmin -Hmax -Hn.
  apply IH; [by rewrite Hmin Hmax|by apply step_inv|done].
Qed.

(** C37. Nothing checks that the minimum is below the maximum.  On a
    stat whose maximum is strictly below its minimum, both numbers, the two
    clamps of [modify_value] disagree: the two tests of the method give the
    maximum, the validator of the assignment turns it into the minimum.
    Whatever the modifier, [modify_value] stores and returns the minimum,
    which is outside the bounds, and the stat is outside its invariant. *)
Theorem modify_value_inverted_bounds self m lo hi :
  min_value self = Some lo → max_value self = Some hi →
  num_ok lo → num_ok hi → num_ltb hi lo = true →
  num_ok (num_add (current_value self) m) →
  clamp_seq (Some lo) (Some hi) (num_add (current_value self) m) = hi ∧
  (modify_value self m).1 = lo ∧
  current_value (modify_value self m).2 = lo ∧
  ¬ within (Some lo) (Some hi) lo ∧
  ¬ inv (modify_value self m).2.
Proof.
  intros Hmin Hmax Hlo Hhi Hlt Hv.
  rewrite modify_value_eq Hmin Hmax /= clamp_seq_inverted // clamp_inverted //.
  split_and!; [done..|by apply within_inverted|].
  intros [_ Hc]. by apply (within_inverted lo hi lo).
Qed.

End method_theorems.

(** ** Instances: integers *)

Section examples.

Definition health : t Z := mk STAT "health" 10 10 (Some 0) (Some 100) "".

(** Scenario 4 of the specification. *)
Lemma modify_value_inv_witness :
  (modify_value health (-50)).1 = current_value (modify_value health (-50)).2 ∧
  (modify_value health (-50)).1 = clamp (Some 0) (Some 100) (10 + -50) ∧
  base_value (modify_value health (-50)).2 = 10 ∧
  inv (modify_value health (-50)).2.
Proof.
  exact (modify_value_inv health (-50)
           ltac:(by vm_compute) ltac:(by vm_compute) ltac:(by vm_compute)).
Defined.

Lemma set_base_value_inv_witness :
  (set_base_value health 150).1 = clamp (Some 0) (Some 100) 150 ∧
  base_value (set_base_value health 150).2 = (set_base_value health 150).1 ∧
  current_value (set_base_value health 150).2 = (set_base_value health 150).1 ∧
  inv (set_base_value health 150).2.
Proof.
  exact (set_base_value_inv health 150 ltac:(by vm_compute) ltac:(by vm_compute)).
Defined.

Lemma reset_to_base_current_witness :
  current_value (reset_to_base (modify_value health 5).2) = 10 ∧
  inv (reset_to_base (modify_value health 5).2).
Proof.
  exact (reset_to_base_current (modify_value health 5).2 ltac:(by vm_compute)).
Defined.

Lemma run_inv_witness :
  let ops := [Modify (-50); SetBase 250; AssignCurrent (-3); ResetToBase] in
  inv (run health ops) ∧
  min_value (run health ops) = Some 0 ∧ max_value (run health ops) = Some 100 ∧
  name (run health ops) = "health".
Proof.
  exact (run_inv [Modify (-50); SetBase 250; AssignCurrent (-3); ResetToBase]
           health ltac:(by vm_compute) ltac:(by vm_compute) ltac:(by vm_compute)).
Defined.

(** A stat built with a base above its maximum keeps it. *)
Lemma init_not_clamped_witness :
  let self := mk STAT "mana" 150 150 (Some 0) (Some 100) "" in
  base_value self = 150 ∧ current_value self = default 150 None ∧
  min_value self = Some 0 ∧ max_value self = Some 100 ∧
  (inv self ↔ within (Some 0) (Some 100) 150 ∧
                within (Some 0) (Some 100) (default 150 None)).
Proof.
  exact (init_not_clamped "mana" 150 None (Some 0) (Some 100) None _
           ltac:(by vm_compute)).
Defined.

(** Such a stat violates the invariant from its construction, and
    [reset_to_base] then leaves the current value different from the base. *)
Theorem init_above_max_breaks_inv :
  ∃ self : t Z,
    __init__ (Some "mana") (Some 150) None (Some 0) (Some 100) None = Ok self ∧
    ¬ inv self ∧
    current_value (reset_to_base self) = 100 ∧ base_value (reset_to_base self) = 150.
Proof.
  eexists. split; [by vm_compute|]. split; [|by vm_compute].
  intros [(_ & _ & (_ & _ & Hle)) _]. by vm_compute in Hle.
Qed.

(** Bounds 10 and 0: the method's clamp of 5 is 0, the value stored is 10. *)
Lemma modify_value_inverted_bounds_witness :
  let self : t Z := mk STAT "x" 5 5 (Some 10) (Some 0) "" in
  clamp_seq (Some 10) (Some 0) (num_add (current_value self) 0) = 0 ∧
  (modify_value self 0).1 = 10 ∧
  current_value (modify_value self 0).2 = 10 ∧
  ¬ within (Some 10) (Some 0) 10 ∧
  ¬ inv (modify_value self 0).2.
Proof.
  exact (modify_value_inverted_bounds (mk STAT "x" 5 5 (Some 10) (Some 0) "") 0 10 0
           eq_refl eq_refl I I eq_refl I).
Defined.

End examples.

(** ** Instances: binary64 floats, as in the source *)

Section float_examples.

Definition hp : t float := mk STAT "hp" 10%float 10%float (Some 0%float) (Some 100%float) "".

(** On numbers the float instance behaves as the integer one (Scenario 4). *)
Lemma modify_value_float :
  modify_value hp (-50)%float =
  (0%float, mk STAT "hp" 10%float 0%float (Some 0%float) (Some 100%float) "").
Proof. by vm_compute. Qed.

(** The theorems of the invariant apply to floats as they stand, the order
    laws being [float_num_laws]: here the step of Scenario 4. *)
Lemma step_inv_float : inv (step hp (Modify (-50)%float)).
Proof. apply step_inv; by vm_compute. Qed.

(** A NaN passes every test of the two clamps. *)
Lemma clamp_nan min max (v : float) :
  PrimFloat.is_nan v = true → clamp min max v = v ∧ clamp_seq min max v = v.
Proof.
  intros Hv. pose proof (λ y, proj1 (float_nan_ltb v y Hv)) as Hl.
  pose proof (λ y, proj2 (float_nan_ltb v y Hv)) as Hr.
  simpl in Hl, Hr. rewrite /clamp /clamp_seq /lt_bound /gt_bound.
  destruct min as [lo|], max as [hi|]; by rewrite /= ?Hl /= ?Hr.
Qed.

(** C38. NaN escapes the bounds.  On floats, whenever the sum of the
    current value and the modifier is NaN (a NaN modifier, or infinity plus
    minus infinity), every comparison of [modify_value] and of the validator
    is false: whatever the bounds, the NaN is stored and returned, the base is
    untouched, and the stat is outside its invariant. *)
Theorem modify_value_nan_escapes (self : t float) (m : float) :
  PrimFloat.is_nan (num_add (current_value self) m) = true →
  (modify_value self m).1 = num_add (current_value self) m ∧
  current_value (modify_value self m).2 = num_add (current_value self) m ∧
  base_value (modify_value self m).2 = base_value self ∧
  ¬ inv (modify_value self m).2.
Proof.
  intros Hv. destruct (clamp_nan (min_value self) (max_value self) _ Hv) as [Hc Hs].
  rewrite modify_value_eq /= Hs Hc. split_and!; [done..|].
  intros [_ [Hok _]]. simpl in Hok. by rewrite Hv in Hok.
Qed.

(** Without any NaN input: a stat at infinity, modified by minus infinity. *)
Lemma modify_value_nan_escapes_witness :
  let self : t float := mk STAT "x" infinity infinity (Some 0%float) None "" in
  (modify_value self neg_infinity).1 = num_add (current_value self) neg_infinity ∧
  current_value (modify_value self neg_infinity).2 = num_add (current_value self) neg_infinity ∧
  base_value (modify_value self neg_infinity).2 = base_value self ∧
  ¬ inv (modify_value self neg_infinity).2.
Proof.
  exact (modify_value_nan_escapes (mk STAT "x" infinity infinity (Some 0%float) None "")
           neg_infinity eq_refl).
Defined.

(** With a NaN modifier, on the stat of Scenario 4. *)
Example modify_value_nan :
  PrimFloat.is_nan (modify_value hp nan).1 = true ∧
  PrimFloat.is_nan (current_value (modify_value hp nan).2) = true.
Proof. by vm_compute. Qed.

End float_examples.

End StatComponent.
