(* ===== verification/Stats.v ===== *)
(** * StatsComponent: a collection of statistics

    Module [StatsComponent] models [class StatsComponent] (components.py,
    lines 344-554): the record, the truncating after-validator, construction,
    and every method.

    [stats] is the Python list, in order.  [get_stat] answers a reference to
    the stat object inside the list; the methods that mutate the stat they
    looked up ([modify_stat], [set_stat_base_value], [set_stat_current_value],
    [reset_stat_to_base]) therefore replace the stat at the index where the
    search found it.  [add_stat] is a [method]: it raises [ValueError] on a
    name already present and on a full collection.

    The collection is meant to be keyed by name.  [to_map] is that view, a
    [gmap] from names to stats; the second half of the file proves that on a
    collection with distinct names the methods are lookup, insertion,
    deletion and update of that map.  The constructor does not make the names
    distinct: [init_duplicate_names] shows, for every list holding a name
    twice, what [get_stat] and [remove_stat] then do. *)

Set Warnings "-rewrite-rw".
From stdpp Require Import gmap pretty.
From S2P Require Import Prelude Model Numeric Stat.

Module StatsComponent.

Section defs.
Context `{Num V}.

Local Abbreviation stat := (StatComponent.t V).

(** The declared fields, in declaration order. *)
Record t : Type := mk {
  component_type : ComponentType;
  stats : list stat;
  max_stats : option Z;
}.

Definition set_stats (v : list stat) (self : t) : t :=
  mk (component_type self) v (max_stats self).

(** [@model_validator(mode="after")]: keeps the first [max_stats] stats.  The
    assignment it makes runs the validator once more, on a list that is
    short enough. *)
Definition validate_stats_count (self : t) : t :=
  match max_stats self with
  | Some m =>
      if bool_decide (len (stats self) > m)
      then set_stats (slice_to m (stats self)) self
      else self
  | None => self
  end.

(** The constructor applied to keyword arguments: the [ge=1] constraint of
    [max_stats], then the after-validator.  Stats given as instances are not
    revalidated. *)
Definition __init__ (stats : option (list stat)) (max_stats : option Z)
  : outcome exn t :=
  match from_option (check_ge "max_stats" 1) [] max_stats with
  | (_ :: _) as errors => Raise (ValidationError errors)
  | [] => Ok (validate_stats_count (mk STAT (default [] stats) max_stats))
  end.

(** The loop of [get_stat] and of [remove_stat]: the first stat of that name,
    with its index. *)
Definition find_stat (name : string) (l : list stat) : option (nat * stat) :=
  list_find (λ s, StatComponent.name s = name) l.

(** [get_stat(name)] *)
Definition get_stat (self : t) (name : string) : option stat :=
  snd <$> find_stat name (stats self).

(** [has_stat(name)] *)
Definition has_stat (self : t) (name : string) : bool :=
  match get_stat self name with Some _ => true | None => false end.

(** [remove_stat(name)] *)
Definition remove_stat (self : t) (name : string) : bool * t :=
  match find_stat name (stats self) with
  | Some (i, _) => (true, set_stats (delete i (stats self)) self)
  | None => (false, self)
  end.

Definition exists_message (name : string) : string :=
  "Stat with name '" +:+ name +:+
  "' already exists. Use replace_if_exists=True to replace it.".

Definition full_message (max_stats : Z) : string :=
  "Cannot add stat: maximum number of stats (" +:+ pretty max_stats +:+ ") reached".

(** [add_stat(name, base_value, current_value, min_value, max_value,
    description, replace_if_exists)]: the stat created, and the collection
    after the call. *)
Definition add_stat (name : string) (base_value : V)
    (current_value min_value max_value : option V) (description : string)
    (replace_if_exists : bool) : method t exn stat := λ self,
  let existing : outcome exn unit * t :=
    match get_stat self name with
    | Some _ =>
        if replace_if_exists then (Ok tt, (remove_stat self name).2)
        else (Raise (ValueError (exists_message name)), self)
    | None => (Ok tt, self)
    end in
  match existing with
  | (Raise e, self) => (Raise e, self)
  | (Ok _, self) =>
      let full :=
        match max_stats self with
        | Some m =>
            if bool_decide (m ≤ len (stats self))
            then Some (ValueError (full_message m)) else None
        | None => None
        end in
      match full with
      | Some e => (Raise e, self)
      | None =>
          match StatComponent.__init__ (Some name) (Some base_value) current_value
                  min_value max_value (Some description) with
          | Ok new_stat => (Ok new_stat, set_stats (stats self ++ [new_stat]) self)
          | Raise e => (Raise e, self)
          end
      end
  end.

(** The methods that look a stat up and call one of its methods: [f] is the
    method, answering its result and the stat after the call. *)
Definition on_stat {R} (f : stat → R * stat) (self : t) (name : string)
  : option R * t :=
  match find_stat name (stats self) with
  | None => (None, self)
  | Some (i, s) =>
      let '(r, s') := f s in
      (Some r, set_stats (<[i := s']> (stats self)) self)
  end.

(** [modify_stat(name, modifier)] *)
Definition modify_stat (self : t) (name : string) (modifier : V) : option V * t :=
  on_stat (λ s, StatComponent.modify_value s modifier) self name.

(** [set_stat_base_value(name, new_value)] *)
Definition set_stat_base_value (self : t) (name : string) (new_value : V)
  : option V * t :=
  on_stat (λ s, StatComponent.set_base_value s new_value) self name.

(** [set_stat_current_value(name, new_value)]: a validated assignment, then
    a read of the field. *)
Definition set_stat_current_value (self : t) (name : string) (new_value : V)
  : option V * t :=
  on_stat (λ s, let s' := StatComponent.setattr_current_value s new_value in
                (StatComponent.current_value s', s')) self name.

(** [reset_stat_to_base(name)] *)
Definition reset_stat_to_base (self : t) (name : string) : bool * t :=
  let '(r, self') := on_stat (λ s, (tt, StatComponent.reset_to_base s)) self name in
  (match r with Some _ => true | None => false end, self').

(** [reset_all_to_base()] *)
Definition reset_all_to_base (self : t) : t :=
  set_stats (StatComponent.reset_to_base <$> stats self) self.

(** [get_stat_names()] *)
Definition get_stat_names (self : t) : list string :=
  StatComponent.name <$> stats self.

(** [get_all_stats()]: a copy of the list. *)
Definition get_all_stats (self : t) : list stat := stats self.

(** [clear_all_stats()] *)
Definition clear_all_stats (self : t) : Z * t :=
  (len (stats self), set_stats [] self).

(** ** The collection invariant and its view as a map *)

(** The names are distinct, and the collection is within its capacity. *)
Definition wf (self : t) : Prop :=
  NoDup (get_stat_names self) ∧
  match max_stats self with
  | Some m => 1 ≤ m ∧ len (stats self) ≤ m
  | None => True
  end.

#[export] Instance wf_dec self : Decision (wf self).
Proof. rewrite /wf. destruct (max_stats self); apply _. Defined.

(** The collection as a map from names to stats. *)
Definition to_map (l : list stat) : gmap string stat :=
  list_to_map ((λ s, (StatComponent.name s, s)) <$> l).

(** ** Sequences of calls on one collection *)

Inductive op : Type :=
| AddStat (name : string) (base_value : V) (current_value min_value max_value : option V)
    (description : string) (replace_if_exists : bool)
| RemoveStat (name : string)
| ModifyStat (name : string) (modifier : V)
| SetStatBaseValue (name : string) (new_value : V)
| SetStatCurrentValue (name : string) (new_value : V)
| ResetStatToBase (name : string)
| ResetAllToBase
| ClearAllStats.

Definition step (self : t) (o : op) : t :=
  match o with
  | AddStat n b c lo hi d r => (add_stat n b c lo hi d r self).2
  | RemoveStat n => (remove_stat self n).2
  | ModifyStat n m => (modify_stat self n m).2
  | SetStatBaseValue n v => (set_stat_base_value self n v).2
  | SetStatCurrentValue n v => (set_stat_current_value self n v).2
  | ResetStatToBase n => (reset_stat_to_base self n).2
  | ResetAllToBase => reset_all_to_base self
  | ClearAllStats => (clear_all_stats self).2
  end.

Definition run (self : t) (ops : list op) : t := foldl step self ops.

End defs.

Arguments t V : clear implicits.
Arguments op V : clear implicits.

(** ** The list of stats as a map from names *)

Section lookup.
Context `{Num V}.
Local Abbreviation stat := (StatComponent.t V).
Local Abbreviation name := StatComponent.name.
Implicit Types (l : list stat) (s : stat) (n : string) (i : nat).

(** The stats of another name: what a removal leaves. *)
Definition others n l : list stat := filter (λ s, name s ≠ n) l.

Lemma find_stat_cons n s l :
  find_stat n (s :: l) =
  match decide (name s = n) with
  | left _ => Some (0%nat, s)
  | right _ => prod_map S id <$> find_stat n l
  end.
Proof. done. Qed.

Lemma find_stat_Some n l i s :
  find_stat n l = Some (i, s) →
  l !! i = Some s ∧ name s = n ∧ ∀ j y, l !! j = Some y → (j < i)%nat → name y ≠ n.
Proof. by intros ?%list_find_Some. Qed.

(** The first stat of a name, when the list is cut at it. *)
Lemma find_stat_middle n l1 s l2 :
  n ∉ name <$> l1 → name s = n → find_stat n (l1 ++ s :: l2) = Some (length l1, s).
Proof.
  intros Hn Hs. induction l1 as [|x l1 IH].
  - by rewrite app_nil_l find_stat_cons decide_True.
  - rewrite fmap_cons in Hn. apply not_elem_of_cons in Hn as [Hx Hn].
    by rewrite -app_comm_cons find_stat_cons decide_False // IH.
Qed.

Lemma find_stat_None n l : find_stat n l = None ↔ n ∉ name <$> l.
Proof.
  rewrite /find_stat list_find_None Forall_forall list_elem_of_fmap. split.
  - intros Hall (s & -> & Hs). by apply (Hall s).
  - intros Hn s Hs Heq. apply Hn. by exists s.
Qed.

Lemma to_map_cons s l : to_map (s :: l) = <[name s := s]> (to_map l).
Proof. done. Qed.

(** The search of [get_stat] is the lookup of the map. *)
Lemma to_map_lookup l n : to_map l !! n = snd <$> find_stat n l.
Proof.
  induction l as [|s l IH]; [done|]. rewrite to_map_cons find_stat_cons.
  case_decide as Hn.
  - by rewrite Hn lookup_insert_eq.
  - rewrite lookup_insert_ne // IH. by destruct (find_stat n l) as [[??]|].
Qed.

Lemma to_map_None l n : n ∉ name <$> l → to_map l !! n = None.
Proof. intros Hn%find_stat_None. by rewrite to_map_lookup Hn. Qed.

Lemma to_map_others n l : to_map (others n l) = delete n (to_map l).
Proof.
  rewrite /others. induction l as [|s l IH]; [by rewrite delete_empty|].
  rewrite to_map_cons. destruct (decide (name s = n)) as [<-|Hn].
  - rewrite filter_cons_False; [by intros Hne; apply Hne|]. by rewrite IH delete_insert_eq.
  - rewrite filter_cons_True // to_map_cons IH delete_insert_ne //.
Qed.

Lemma to_map_snoc l s :
  name s ∉ name <$> l → to_map (l ++ [s]) = <[name s := s]> (to_map l).
Proof.
  intros Hn. rewrite /to_map fmap_app /=. apply list_to_map_snoc.
  by rewrite -list_fmap_compose.
Qed.

Lemma to_map_insert l i s s' :
  NoDup (name <$> l) → l !! i = Some s → name s' = name s →
  to_map (<[i := s']> l) = <[name s := s']> (to_map l).
Proof.
  revert i. induction l as [|s0 l IH]; intros i Hnd Hi Hn; [done|].
  apply NoDup_cons in Hnd as [Hs0 Hnd]. destruct i as [|i]; simplify_eq/=.
  - by rewrite !to_map_cons Hn insert_insert_eq.
  - rewrite !to_map_cons (IH i) // insert_insert_ne //.
    intros Heq. apply Hs0. rewrite Heq. by eapply list_elem_of_fmap_2, list_elem_of_lookup_2.
Qed.

(** On distinct names deleting the first stat of a name leaves the stats of
    the other names. *)
Lemma others_id n l : n ∉ name <$> l → others n l = l.
Proof.
  rewrite /others. induction l as [|s l IH]; [done|].
  rewrite fmap_cons not_elem_of_cons. intros [? ?].
  rewrite filter_cons_True; [done|]. by rewrite IH.
Qed.

Lemma delete_others n l i s :
  NoDup (name <$> l) → find_stat n l = Some (i, s) → delete i l = others n l.
Proof.
  revert i. induction l as [|s0 l IH]; intros i Hnd Hf; [done|].
  apply NoDup_cons in Hnd as [Hs0 Hnd]. rewrite find_stat_cons in Hf.
  rewrite /others. case_decide as Hn; simplify_eq/=.
  - rewrite filter_cons_False; [by intros Hne; apply Hne|].
    by rewrite -/(others _ _) others_id.
  - destruct (find_stat n l) as [[j s1]|] eqn:Hj; simplify_eq/=.
    rewrite filter_cons_True // -/(others _ _). f_equal. by eapply IH.
Qed.

Lemma names_others n l : name <$> others n l = filter (λ x, x ≠ n) (name <$> l).
Proof.
  rewrite /others. induction l as [|s l IH]; [done|]. rewrite fmap_cons.
  destruct (decide (name s = n)).
  - rewrite !filter_cons_False ?IH //; intros Hne; by apply Hne.
  - rewrite !filter_cons_True // fmap_cons IH //.
Qed.

Lemma NoDup_others n l : NoDup (name <$> l) → NoDup (name <$> others n l).
Proof. rewrite names_others. apply NoDup_filter. Qed.

Lemma not_elem_of_others n l : n ∉ name <$> others n l.
Proof. rewrite names_others list_elem_of_filter. by intros [Hne _]. Qed.

Lemma len_others n l : len (others n l) ≤ len l.
Proof. rewrite /len /others. pose proof (length_filter (λ s, name s ≠ n) l). lia. Qed.

Lemma len_others_lt n l : n ∈ name <$> l → len (others n l) < len l.
Proof.
  intros (s & -> & Hs)%list_elem_of_fmap. rewrite /len /others.
  pose proof (length_filter_lt (λ s', name s' ≠ name s) l s Hs) as Hlt.
  apply Nat2Z.inj_lt, Hlt. by intros Hne.
Qed.

Lemma names_insert l i s s' :
  l !! i = Some s → name s' = name s → name <$> <[i := s']> l = name <$> l.
Proof.
  intros Hi Hn. rewrite list_fmap_insert Hn list_insert_id // list_lookup_fmap Hi //.
Qed.

End lookup.

(** ** The methods *)

Section methods.
Context `{Num V}.
Local Abbreviation stat := (StatComponent.t V).
Local Abbreviation name := StatComponent.name.
Implicit Types (self : t V) (l : list stat) (s : stat) (n : string) (i : nat).

Lemma get_stat_to_map self n : get_stat self n = to_map (stats self) !! n.
Proof. by rewrite to_map_lookup. Qed.

Lemma get_stat_None self n : get_stat self n = None ↔ n ∉ get_stat_names self.
Proof.
  rewrite /get_stat -find_stat_None. by destruct (find_stat n (stats self)) as [[??]|].
Qed.

Lemma has_stat_false self n : has_stat self n = false ↔ n ∉ get_stat_names self.
Proof. rewrite /has_stat -get_stat_None. by destruct (get_stat self n). Qed.

Lemma has_stat_true self n : has_stat self n = true ↔ n ∈ get_stat_names self.
Proof.
  pose proof (has_stat_false self n) as Hf. destruct (has_stat self n).
  - split; [intros _|done].
    destruct (decide (n ∈ get_stat_names self)) as [|Hn]; [done|]. by apply Hf in Hn.
  - split; [done|]. intros Hn. by destruct (proj1 Hf eq_refl).
Qed.

Lemma wf_cap self m :
  wf self → max_stats self = Some m → 1 ≤ m ∧ len (stats self) ≤ m.
Proof. intros [_ Hcap] Hm. by rewrite Hm in Hcap. Qed.

(** Replacing the list by one that is not longer and has distinct names
    keeps the invariant. *)
Lemma wf_set_stats self l :
  wf self → NoDup (name <$> l) → len l ≤ len (stats self) → wf (set_stats l self).
Proof.
  intros Hwf Hnd Hlen. split; [done|]. simpl.
  destruct (max_stats self) as [m|] eqn:Hm; [|done].
  destruct (wf_cap self m Hwf Hm). lia.
Qed.

(** [remove_stat], on distinct names: the stats of the other names stay. *)
Lemma remove_stat_eq self n :
  NoDup (get_stat_names self) →
  remove_stat self n = (has_stat self n, set_stats (others n (stats self)) self).
Proof.
  intros Hnd. rewrite /remove_stat /has_stat /get_stat.
  destruct (find_stat n (stats self)) as [[i s]|] eqn:Hf; simpl.
  - by rewrite (delete_others n _ i s).
  - rewrite others_id; [by apply find_stat_None|]. by destruct self.
Qed.

(** The stat [add_stat] creates. *)
Definition new_stat n (b : V) (c lo hi : option V) (d : string) : stat :=
  StatComponent.mk STAT n b (default b c) lo hi d.

(** [add_stat] when it returns: the name is new or is replaced, and there
    is room. *)
Lemma add_stat_eq self n b c lo hi d r :
  wf self → (has_stat self n = true → r = true) →
  (has_stat self n = false → ∀ m, max_stats self = Some m → len (stats self) < m) →
  add_stat n b c lo hi d r self =
  (Ok (new_stat n b c lo hi d),
   set_stats (others n (stats self) ++ [new_stat n b c lo hi d]) self).
Proof.
  intros Hwf Hr Hroom. rewrite /add_stat StatComponent.init_eq /=.
  pose proof (remove_stat_eq self n (proj1 Hwf)) as Hrem.
  pose proof (has_stat_true self n) as Htrue.
  pose proof (has_stat_false self n) as Hfalse.
  rewrite /has_stat in Hr Hroom Hrem Htrue Hfalse.
  destruct (get_stat self n) as [s|] eqn:Hg.
  - rewrite Hr // Hrem /=. pose proof (len_others_lt n _ (proj1 Htrue eq_refl)).
    destruct (max_stats self) as [m|] eqn:Hm; [|done].
    destruct (wf_cap self m Hwf Hm). rewrite bool_decide_eq_false_2; [lia|done].
  - rewrite others_id; [by apply Hfalse|].
    destruct (max_stats self) as [m|] eqn:Hm; [|done].
    rewrite bool_decide_eq_false_2; [|done]. specialize (Hroom eq_refl m eq_refl). lia.
Qed.

(** [add_stat] when it raises: the collection is as it was. *)
Lemma add_stat_exists self n b c lo hi d :
  has_stat self n = true →
  add_stat n b c lo hi d false self = (Raise (ValueError (exists_message n)), self).
Proof. rewrite /add_stat /has_stat. by destruct (get_stat self n). Qed.

Lemma add_stat_full self n b c lo hi d r m :
  has_stat self n = false → max_stats self = Some m → m ≤ len (stats self) →
  add_stat n b c lo hi d r self = (Raise (ValueError (full_message m)), self).
Proof.
  rewrite /add_stat /has_stat. destruct (get_stat self n); [done|].
  intros _ -> ?. by rewrite bool_decide_eq_true_2.
Qed.

(** The three ways a call of [add_stat] can go. *)
Inductive add_stat_case self n (r : bool) : Type :=
| AddExists : has_stat self n = true → r = false → add_stat_case self n r
| AddFull m :
    has_stat self n = false → max_stats self = Some m → m ≤ len (stats self) →
    add_stat_case self n r
| AddOk :
    (has_stat self n = true → r = true) →
    (has_stat self n = false → ∀ m, max_stats self = Some m → len (stats self) < m) →
    add_stat_case self n r.

Lemma add_stat_cases self n r : add_stat_case self n r.
Proof.
  destruct (has_stat self n) eqn:Hh.
  - destruct r; [apply AddOk; congruence|by apply AddExists].
  - destruct (max_stats self) as [m|] eqn:Hm; [|apply AddOk; congruence].
    destruct (decide (m ≤ len (stats self))); [by eapply AddFull|].
    apply AddOk; [congruence|]. intros _ m' Hm'.
    assert (m' = m) as -> by congruence. lia.
Qed.

Lemma wf_add self n s :
  wf self → name s = n →
  (has_stat self n = false → ∀ m, max_stats self = Some m → len (stats self) < m) →
  wf (set_stats (others n (stats self) ++ [s]) self).
Proof.
  intros Hwf Hn Hroom. split.
  - rewrite /get_stat_names /= fmap_app /= Hn. apply NoDup_app. split_and!.
    + apply NoDup_others, Hwf.
    + intros x Hx ->%list_elem_of_singleton. by apply not_elem_of_others in Hx.
    + apply NoDup_singleton.
  - simpl. destruct (max_stats self) as [m|] eqn:Hm; [|done].
    destruct (wf_cap self m Hwf Hm). split; [lia|].
    rewrite len_app. change (len [s]) with 1.
    pose proof (len_others n (stats self)). destruct (has_stat self n) eqn:Hh.
    + apply has_stat_true in Hh. pose proof (len_others_lt n _ Hh). lia.
    + specialize (Hroom eq_refl m eq_refl). lia.
Qed.

Lemma add_stat_wf self n b c lo hi d r :
  wf self → wf (add_stat n b c lo hi d r self).2.
Proof.
  intros Hwf. destruct (add_stat_cases self n r) as [Hh ->|m Hh Hm Hlen|Hr Hroom].
  - by rewrite add_stat_exists.
  - by rewrite (add_stat_full _ _ _ _ _ _ _ _ m).
  - rewrite add_stat_eq //. by apply wf_add.
Qed.

Lemma on_stat_None {R} (f : stat → R * stat) self n :
  get_stat self n = None → on_stat f self n = (None, self).
Proof.
  rewrite /get_stat /on_stat. by destruct (find_stat n (stats self)) as [[??]|].
Qed.

(** A method called on the stat of a name changes that stat, in place. *)
Lemma on_stat_Some {R} (f : stat → R * stat) self n s :
  NoDup (get_stat_names self) → (name (f s).2 = name s) →
  get_stat self n = Some s →
  ∃ self', on_stat f self n = (Some (f s).1, self') ∧
    to_map (stats self') = <[n := (f s).2]> (to_map (stats self)) ∧
    get_stat_names self' = get_stat_names self ∧
    length (stats self') = length (stats self) ∧
    max_stats self' = max_stats self.
Proof.
  intros Hnd Hname. rewrite /get_stat /on_stat.
  destruct (find_stat n (stats self)) as [[i s0]|] eqn:Hf; [|done].
  intros [= ->]. apply find_stat_Some in Hf as (Hi & <- & _).
  destruct (f s) as [r s'] eqn:Hfs. simpl in *. eexists. split; [done|]. simpl.
  split_and!; [by apply to_map_insert|by apply (names_insert _ _ s)|
               by rewrite length_insert|done].
Qed.

Lemma on_stat_wf {R} (f : stat → R * stat) self n :
  (∀ s, name (f s).2 = name s) → wf self → wf (on_stat f self n).2.
Proof.
  intros Hname Hwf. destruct (get_stat self n) as [s|] eqn:Hg.
  - destruct (on_stat_Some f self n s) as (self' & -> & _ & Hn & Hl & Hm);
      [apply Hwf|done..|].
    destruct Hwf as [Hnd Hcap]. split; [by rewrite Hn|]. by rewrite Hm /len Hl.
  - by rewrite on_stat_None.
Qed.

(** The methods of a stat keep its name. *)
Lemma stat_step_name s (o : StatComponent.op) : name (StatComponent.step s o) = name s.
Proof. apply StatComponent.step_bounds. Qed.

Lemma stats_step_wf self (o : op V) : wf self → wf (step self o).
Proof.
  intros Hwf. destruct o as [n b c lo hi d r|n|n m|n v|n v|n| |]; simpl.
  - by apply add_stat_wf.
  - rewrite remove_stat_eq; [apply Hwf|]. apply wf_set_stats;
      [done|apply NoDup_others, Hwf|apply len_others].
  - apply on_stat_wf; [|done]. intros s. apply (stat_step_name s (StatComponent.Modify m)).
  - apply on_stat_wf; [|done]. intros s. apply (stat_step_name s (StatComponent.SetBase v)).
  - apply on_stat_wf; [|done].
    intros s. apply (stat_step_name s (StatComponent.AssignCurrent v)).
  - rewrite /reset_stat_to_base.
    pose proof (on_stat_wf (λ s, (tt, StatComponent.reset_to_base s)) self n) as Hon.
    destruct (on_stat _ self n) as [r self']. apply Hon; [|done].
    intros s. apply (stat_step_name s StatComponent.ResetToBase).
  - destruct Hwf as [Hnd Hcap]. split; [|by rewrite /len /= length_fmap].
    rewrite /get_stat_names /= -list_fmap_compose.
    erewrite list_fmap_ext; [done|]. intros i s _.
    apply (stat_step_name s StatComponent.ResetToBase).
  - apply wf_set_stats; [done|constructor|apply len_nonneg].
Qed.

End methods.

(** ** The properties of the collection *)

Section theorems.
Context `{Num V}.
Local Abbreviation stat := (StatComponent.t V).
Local Abbreviation name := StatComponent.name.
Implicit Types (self : t V) (l : list stat) (s : stat) (n : string).

(** Construction from stats that fit: nothing is dropped. *)
Lemma init_fits l m :
  match m with Some k => 1 ≤ k ∧ len l ≤ k | None => True end →
  __init__ (Some l) m = Ok (mk STAT l m).
Proof.
  destruct m as [k|]; [|done]. intros [? ?].
  rewrite /__init__ /= check_ge_ok // /validate_stats_count /= bool_decide_eq_false_2 //.
Qed.

Lemma step_max_stats self (o : op V) : max_stats (step self o) = max_stats self.
Proof.
  destruct o as [n b c lo hi d r|n|n m|n v|n v|n| |]; simpl; try done.
  - rewrite /add_stat /remove_stat. repeat case_match; simplify_eq/=; done.
  - rewrite /remove_stat. by repeat case_match.
  - rewrite /modify_stat /on_stat. by repeat case_match.
  - rewrite /set_stat_base_value /on_stat. by repeat case_match.
  - rewrite /set_stat_current_value /on_stat. by repeat case_match.
  - rewrite /reset_stat_to_base /on_stat. by repeat case_match; simplify_eq/=.
Qed.

(** C15. The collection is a map from names to stats: [get_stat] is the
    lookup of a name in [to_map], [has_stat] is membership in the list of
    names, and the stat found has the name asked. *)
Theorem get_stat_lookup self n :
  get_stat self n = to_map (stats self) !! n ∧
  (has_stat self n = true ↔ n ∈ get_stat_names self) ∧
  (∀ s, get_stat self n = Some s → name s = n).
Proof.
  split_and!; [apply get_stat_to_map|apply has_stat_true|].
  intros s. rewrite /get_stat. destruct (find_stat n (stats self)) as [[i s0]|] eqn:Hf; [|done].
  intros [= ->]. by apply find_stat_Some in Hf as (_ & ? & _).
Qed.

(** C8. [add_stat] when the name is new or replaced and there is room:
    it returns the stat it built from its arguments, unclamped; that stat is
    now the stat of its name, the other names keep their stats, the new name
    is last in the order of the names, and the invariant is kept. *)
Theorem add_stat_spec self n b c lo hi d r :
  wf self → (has_stat self n = true → r = true) →
  (has_stat self n = false → ∀ m, max_stats self = Some m → len (stats self) < m) →
  ∃ self',
    add_stat n b c lo hi d r self =
      (Ok (StatComponent.mk STAT n b (default b c) lo hi d), self') ∧
    to_map (stats self') =
      <[n := StatComponent.mk STAT n b (default b c) lo hi d]> (to_map (stats self)) ∧
    get_stat_names self' = filter (λ x, x ≠ n) (get_stat_names self) ++ [n] ∧
    max_stats self' = max_stats self ∧
    wf self'.
Proof.
  intros Hwf Hr Hroom. eexists. split; [by apply add_stat_eq|]. simpl.
  split_and!; [| |done|by apply wf_add].
  - rewrite to_map_snoc; [apply not_elem_of_others|]. simpl.
    by rewrite to_map_others insert_delete_eq.
  - by rewrite /get_stat_names /= fmap_app names_others.
Qed.

(** C9. [add_stat] raises in exactly two cases, both with [ValueError]
    and both leaving the collection as it was: the name exists and
    replacement was not asked, or the name is new and the collection is at its
    capacity. *)
Theorem add_stat_raises self n b c lo hi d r :
  wf self →
  match (add_stat n b c lo hi d r self).1 with
  | Ok _ =>
      (has_stat self n = true → r = true) ∧
      (has_stat self n = false → ∀ m, max_stats self = Some m → len (stats self) < m)
  | Raise e =>
      (add_stat n b c lo hi d r self).2 = self ∧
      (e = ValueError (exists_message n) ∧ has_stat self n = true ∧ r = false ∨
       ∃ m, e = ValueError (full_message m) ∧ has_stat self n = false ∧
            max_stats self = Some m ∧ m ≤ len (stats self))
  end.
Proof.
  intros Hwf. destruct (add_stat_cases self n r) as [Hh ->|m Hh Hm Hlen|Hr Hroom].
  - rewrite add_stat_exists //. split; [done|]. by left.
  - rewrite (add_stat_full _ _ _ _ _ _ _ _ m) //. split; [done|]. right. by exists m.
  - by rewrite add_stat_eq.
Qed.

(** C16. [remove_stat] on a well-formed collection answers whether the
    name was there; afterwards the name is gone, the other names keep their
    stats and their order, and the invariant is kept. *)
Theorem remove_stat_spec self n :
  wf self →
  (remove_stat self n).1 = has_stat self n ∧
  to_map (stats (remove_stat self n).2) = delete n (to_map (stats self)) ∧
  has_stat (remove_stat self n).2 n = false ∧
  get_stat_names (remove_stat self n).2 = filter (λ x, x ≠ n) (get_stat_names self) ∧
  wf (remove_stat self n).2.
Proof.
  intros Hwf. rewrite remove_stat_eq; [apply Hwf|]. simpl.
  split_and!; [done|apply to_map_others| |apply names_others|].
  - apply has_stat_false, not_elem_of_others.
  - apply wf_set_stats; [done|apply NoDup_others, Hwf|apply len_others].
Qed.

(** C17. [modify_stat] delegates to the stat of the name: it answers
    [None] and changes nothing when there is none; otherwise it answers what
    [modify_value] returns on that stat and stores the stat [modify_value]
    leaves, in place. *)
Theorem modify_stat_spec self n m :
  wf self →
  match get_stat self n with
  | None => modify_stat self n m = (None, self)
  | Some s =>
      (modify_stat self n m).1 = Some (StatComponent.modify_value s m).1 ∧
      to_map (stats (modify_stat self n m).2) =
        <[n := (StatComponent.modify_value s m).2]> (to_map (stats self)) ∧
      get_stat_names (modify_stat self n m).2 = get_stat_names self
  end.
Proof.
  intros [Hnd _]. destruct (get_stat self n) as [s|] eqn:Hg; [|by apply on_stat_None].
  destruct (on_stat_Some (λ s, StatComponent.modify_value s m) self n s)
    as (self' & Heq & ? & ? & _); [done| |done|].
  - apply (stat_step_name s (StatComponent.Modify m)).
  - by rewrite /modify_stat Heq.
Qed.

(** C14. Whatever sequence of method calls is made on a well-formed
    collection, calls of [add_stat] that raise included, the names stay
    distinct and the collection within its capacity. *)
Theorem stats_run_wf ops self :
  wf self → wf (run self ops) ∧ max_stats (run self ops) = max_stats self.
Proof.
  revert self. induction ops as [|o ops IH]; intros self Hwf; [done|].
  rewrite /run /= -/(run _ _). destruct (IH (step self o)) as [? ->];
    [by apply stats_step_wf|]. by rewrite step_max_stats.
Qed.

(** C31. Construction: a [max_stats] below one is rejected; otherwise the
    instance holds the first [max_stats] of the stats given, silently
    dropping the rest, and all of them when there is no capacity. *)
Theorem stats_init_spec l m :
  match __init__ (Some l) m with
  | Ok self =>
      max_stats self = m ∧ stats self `prefix_of` l ∧
      match m with
      | Some k => 1 ≤ k ∧ len (stats self) = Z.min (len l) k
      | None => stats self = l
      end
  | Raise e =>
      ∃ k, m = Some k ∧ k < 1 ∧
           e = ValidationError [ErrorDetails "max_stats" (greater_than_equal 1)]
  end.
Proof.
  rewrite /__init__. destruct m as [k|]; simpl; [|done].
  rewrite /check_ge. case_bool_decide; simpl; [|exists k; split_and!; [done|lia|done]].
  rewrite /validate_stats_count /=. case_bool_decide; simpl.
  - split_and!; [done|apply slice_to_prefix|lia|].
    rewrite slice_to_len bool_decide_eq_true_2; lia.
  - split_and!; [done..|lia|lia].
Qed.

(** C32. Nothing makes the names distinct at construction.  Whatever
    list holds a name twice, the constructor accepts it when it fits the
    capacity; the instance is outside the invariant; [get_stat] answers the
    first stat of the name, and [remove_stat] deletes that one only: it
    answers [True], and the name is still there, bound to the second stat. *)
Theorem init_duplicate_names l1 l2 l3 s s' m :
  name s' = name s → name s ∉ name <$> l1 → name s ∉ name <$> l2 →
  match m with Some k => 1 ≤ k ∧ len (l1 ++ s :: l2 ++ s' :: l3) ≤ k | None => True end →
  ∃ self,
    __init__ (Some (l1 ++ s :: l2 ++ s' :: l3)) m = Ok self ∧
    ¬ wf self ∧
    get_stat self (name s) = Some s ∧
    (remove_stat self (name s)).1 = true ∧
    stats (remove_stat self (name s)).2 = l1 ++ l2 ++ s' :: l3 ∧
    get_stat (remove_stat self (name s)).2 (name s) = Some s'.
Proof.
  intros Hs' H1 H2 Hm. eexists. split; [by apply init_fits|].
  rewrite /remove_stat /get_stat /= find_stat_middle //= delete_middle.
  rewrite (assoc_L (++) l1 l2) find_stat_middle //; [rewrite fmap_app; set_solver|].
  split_and!; [|done..]. intros [Hnd _]. revert Hnd.
  rewrite /get_stat_names /= fmap_app fmap_cons fmap_app fmap_cons Hs'.
  intros (_ & _ & Hnd%NoDup_cons_1_1)%NoDup_app. set_solver.
Qed.

End theorems.

(** ** The properties at concrete collections *)

Section examples.

Definition strength : StatComponent.t Z :=
  StatComponent.mk STAT "str" 10 10 (Some 0) (Some 20) "".
Definition dexterity : StatComponent.t Z :=
  StatComponent.mk STAT "dex" 5 5 None None "".

(** Two stats, in a collection of at most two. *)
Definition party : t Z := mk STAT [strength; dexterity] (Some 2).

Lemma add_stat_spec_witness :
  ∃ self',
    add_stat "str" 15 None (Some 0) (Some 12) "" true party =
      (Ok (StatComponent.mk STAT "str" 15 (default 15 None) (Some 0) (Some 12) ""), self') ∧
    to_map (stats self') =
      <["str" := StatComponent.mk STAT "str" 15 (default 15 None) (Some 0) (Some 12) ""]>
        (to_map (stats party)) ∧
    get_stat_names self' = filter (λ x, x ≠ "str") (get_stat_names party) ++ ["str"] ∧
    max_stats self' = max_stats party ∧
    wf self'.
Proof.
  exact (add_stat_spec party "str" 15 None (Some 0) (Some 12) "" true
           ltac:(by_decide) ltac:(done) ltac:(by vm_compute)).
Defined.

Lemma add_stat_raises_witness :
  match (add_stat "int" 1 None None None "" false party).1 with
  | Ok _ =>
      (has_stat party "int" = true → false = true) ∧
      (has_stat party "int" = false →
       ∀ m, max_stats party = Some m → len (stats party) < m)
  | Raise e =>
      (add_stat "int" 1 None None None "" false party).2 = party ∧
      (e = ValueError (exists_message "int") ∧ has_stat party "int" = true ∧ false = false ∨
       ∃ m, e = ValueError (full_message m) ∧ has_stat party "int" = false ∧
            max_stats party = Some m ∧ m ≤ len (stats party))
  end.
Proof. exact (add_stat_raises party "int" 1 None None None "" false ltac:(by_decide)). Defined.

Lemma remove_stat_spec_witness :
  (remove_stat party "str").1 = has_stat party "str" ∧
  to_map (stats (remove_stat party "str").2) = delete "str" (to_map (stats party)) ∧
  has_stat (remove_stat party "str").2 "str" = false ∧
  get_stat_names (remove_stat party "str").2 =
    filter (λ x, x ≠ "str") (get_stat_names party) ∧
  wf (remove_stat party "str").2.
Proof. exact (remove_stat_spec party "str" ltac:(by_decide)). Defined.

Lemma modify_stat_spec_witness :
  match get_stat party "str" with
  | None => modify_stat party "str" 100 = (None, party)
  | Some s =>
      (modify_stat party "str" 100).1 = Some (StatComponent.modify_value s 100).1 ∧
      to_map (stats (modify_stat party "str" 100).2) =
        <["str" := (StatComponent.modify_value s 100).2]> (to_map (stats party)) ∧
      get_stat_names (modify_stat party "str" 100).2 = get_stat_names party
  end.
Proof. exact (modify_stat_spec party "str" 100 ltac:(by_decide)). Defined.

Lemma stats_run_wf_witness :
  let ops := [AddStat "int" 1 None None None "" false; RemoveStat "dex";
              AddStat "int" 1 None None None "" false; ModifyStat "str" 100;
              AddStat "str" 3 None None None "" true; ResetAllToBase] in
  wf (run party ops) ∧ max_stats (run party ops) = max_stats party.
Proof.
  exact (stats_run_wf [AddStat "int" 1 None None None "" false; RemoveStat "dex";
                       AddStat "int" 1 None None None "" false; ModifyStat "str" 100;
                       AddStat "str" 3 None None None "" true; ResetAllToBase]
           party ltac:(by_decide)).
Defined.

(** Scenario 3 of the specification: a third stat is refused by a
    collection of two, which keeps its two stats. *)
Example scenario_3 :
  let empty : t Z := mk STAT [] (Some 2) in
  let s1 := (add_stat "str" 10 None None None "" false empty).2 in
  let s2 := (add_stat "dex" 5 None None None "" false s1).2 in
  let r3 := add_stat "int" 1 None None None "" false s2 in
  r3.1 = Raise (ValueError "Cannot add stat: maximum number of stats (2) reached") ∧
  r3.2 = s2 ∧ len (stats r3.2) = 2 ∧ get_stat_names r3.2 = ["str"; "dex"].
Proof. by vm_compute. Qed.

(** Two stats named hp, in a collection without capacity. *)
Lemma init_duplicate_names_witness :
  let hp1 : StatComponent.t Z := StatComponent.mk STAT "hp" 10 10 None None "" in
  let hp2 : StatComponent.t Z := StatComponent.mk STAT "hp" 99 99 None None "" in
  ∃ self,
    __init__ (Some ([] ++ hp1 :: [] ++ hp2 :: [])) None = Ok self ∧
    ¬ wf self ∧
    get_stat self "hp" = Some hp1 ∧
    (remove_stat self "hp").1 = true ∧
    stats (remove_stat self "hp").2 = [] ++ [] ++ hp2 :: [] ∧
    get_stat (remove_stat self "hp").2 "hp" = Some hp2.
Proof.
  exact (init_duplicate_names [] [] []
           (StatComponent.mk STAT "hp" 10 10 None None "")
           (StatComponent.mk STAT "hp" 99 99 None None "") None
           eq_refl ltac:(by_decide) ltac:(by_decide) I).
Defined.

End examples.

End StatsComponent.
