(* ===== verification/Cell.v ===== *)
(** * InventoryCellComponent: one inventory cell

    Module [InventoryCellComponent] models [class InventoryCellComponent]
    (components.py, lines 557-699): the record of its fields, the field
    validator of [quantity], the after-validator that ties [item_id] to
    [quantity], construction, validated assignment of [quantity], [item_id]
    and [max_stack_size], and the methods [is_empty], [is_full],
    [add_items], [remove_items] and [clear_slot].

    [add_items] and [remove_items] update the instance through
    [model_copy(update=...)] and [__dict__.update], which validate nothing:
    they are plain functions.  [clear_slot] assigns, so it goes through the
    validators and is a [method]. *)

Set Warnings "-rewrite-rw".
From stdpp Require Import gmap.
From S2P Require Import Prelude Model.

Module InventoryCellComponent.

(** The declared fields, in declaration order. *)
Record t : Type := mk {
  component_type : ComponentType;
  item_id : option string;
  quantity : Z;
  max_stack_size : Z;
  slot_type : option string;
  is_equipped : bool;
}.

#[export] Instance t_eq_dec : EqDecision t.
Proof. solve_decision. Defined.

Definition set_item_id (v : option string) (self : t) : t :=
  mk (component_type self) v (quantity self) (max_stack_size self)
     (slot_type self) (is_equipped self).
Definition set_quantity (v : Z) (self : t) : t :=
  mk (component_type self) (item_id self) v (max_stack_size self)
     (slot_type self) (is_equipped self).
Definition set_max_stack_size (v : Z) (self : t) : t :=
  mk (component_type self) (item_id self) (quantity self) v
     (slot_type self) (is_equipped self).

(** [validation_info.data], restricted to the integer fields. *)
Definition data : Type := gmap string Z.

(** [@field_validator("quantity")]: the stack size is read from [data], with
    [1] when it is not there. *)
Definition validate_quantity (quantity : Z) (values : data) : Z :=
  let max_stack := default 1 (values !! "max_stack_size") in
  if bool_decide (quantity > max_stack) then max_stack else quantity.

(** [@model_validator(mode="after")].  The assignment [self.item_id = None]
    it makes runs the validator once more on the updated instance, where it
    takes neither branch ([validate_item_id_and_quantity_nested] below). *)
Definition validate_item_id_and_quantity (self : t) : outcome exn t :=
  if bool_decide (quantity self > 0) then
    match item_id self with
    | None =>
        Raise (ValidationError
          [ErrorDetails "" (value_error "Cannot have quantity > 0 without an item_id")])
    | Some _ => Ok self
    end
  else
    match item_id self with
    | Some _ => Ok (set_item_id None self)
    | None => Ok self
    end.

(** The integer fields of an instance as a validator sees them. *)
Definition fields (self : t) : data :=
  {[ "quantity" := quantity self; "max_stack_size" := max_stack_size self ]}.

(** The constructor applied to keyword arguments.  Field constraints first
    ([ge=0] on [quantity], [ge=1] on [max_stack_size]), their failures
    collected; [validate_quantity] runs when [quantity] is validated, before
    [max_stack_size] is in [data]; then the after-validator. *)
Definition __init__ (item_id : option string) (quantity max_stack_size : option Z)
    (slot_type : option string) (is_equipped : option bool) : outcome exn t :=
  let errors :=
    from_option (check_ge "quantity" 0) [] quantity ++
    from_option (check_ge "max_stack_size" 1) [] max_stack_size in
  match errors with
  | _ :: _ => Raise (ValidationError errors)
  | [] =>
      let quantity := from_option (λ q, validate_quantity q ∅) 0 quantity in
      validate_item_id_and_quantity
        (mk INVENTORY item_id quantity (default 1 max_stack_size) slot_type
            (default false is_equipped))
  end.

(** [self.quantity = value] under [validate_assignment=True]: constraint,
    field validator with the other fields in [data], store, after-validator.
    The value is stored before the after-validator runs, so an exception
    raised there leaves it in place. *)
Definition setattr_quantity (value : Z) : method t exn unit := λ self,
  match check_ge "quantity" 0 value with
  | (_ :: _) as errors => (Raise (ValidationError errors), self)
  | [] =>
      let value := validate_quantity value (delete "quantity" (fields self)) in
      let self := set_quantity value self in
      match validate_item_id_and_quantity self with
      | Ok self' => (Ok tt, self')
      | Raise e => (Raise e, self)
      end
  end.

(** [self.item_id = value] under [validate_assignment=True]. *)
Definition setattr_item_id (value : option string) : method t exn unit := λ self,
  let self := set_item_id value self in
  match validate_item_id_and_quantity self with
  | Ok self' => (Ok tt, self')
  | Raise e => (Raise e, self)
  end.

(** [self.max_stack_size = value] under [validate_assignment=True]: the
    field has a constraint and no validator; the quantity is not validated
    again. *)
Definition setattr_max_stack_size (value : Z) : method t exn unit := λ self,
  match check_ge "max_stack_size" 1 value with
  | (_ :: _) as errors => (Raise (ValidationError errors), self)
  | [] =>
      let self := set_max_stack_size value self in
      match validate_item_id_and_quantity self with
      | Ok self' => (Ok tt, self')
      | Raise e => (Raise e, self)
      end
  end.

(** [is_empty()] *)
Definition is_empty (self : t) : bool :=
  bool_decide (quantity self = 0) || bool_decide (item_id self = None).

(** [is_full()] *)
Definition is_full (self : t) : bool :=
  bool_decide (max_stack_size self ≤ quantity self).

(** [add_items(item_id, add_quantity)]: the amount added and the cell after. *)
Definition add_items (self : t) (item_id' : string) (add_quantity : Z) : Z * t :=
  if bool_decide (add_quantity ≤ 0) then (0, self)
  else if negb (is_empty self) && bool_decide (item_id self ≠ Some item_id')
  then (0, self)
  else
    let available_space := max_stack_size self - quantity self in
    let actual_add := Z.min add_quantity available_space in
    (actual_add,
     set_quantity (quantity self + actual_add) (set_item_id (Some item_id') self)).

(** [remove_items(remove_quantity)]: the amount removed and the cell after. *)
Definition remove_items (self : t) (remove_quantity : Z) : Z * t :=
  if bool_decide (remove_quantity ≤ 0) || is_empty self then (0, self)
  else
    let actual_remove := Z.min remove_quantity (quantity self) in
    let new_quantity := quantity self - actual_remove in
    let updated := set_quantity new_quantity self in
    let updated :=
      if bool_decide (new_quantity = 0) then set_item_id None updated
      else updated in
    (actual_remove, updated).

(** [clear_slot()]: two validated assignments; returns the prior quantity. *)
Definition clear_slot : method t exn Z :=
  (self ←ₘ method_get;
   let previous_quantity := quantity self in
   setattr_quantity 0 ;;ₘ
   setattr_item_id None ;;ₘ
   method_ret previous_quantity)%aw.

(** ** The cell invariant (§3 of the specification) *)

Definition wf (self : t) : Prop :=
  1 ≤ max_stack_size self ∧
  0 ≤ quantity self ≤ max_stack_size self ∧
  (quantity self = 0 ↔ item_id self = None).

#[export] Instance wf_dec self : Decision (wf self).
Proof. rewrite /wf. apply _. Defined.

(** What a cell can still take of an item: all of an empty cell, the rest of
    a cell of that item, nothing of a cell of another item. *)
Definition room (item : string) (self : t) : Z :=
  if is_empty self then max_stack_size self
  else if bool_decide (item_id self = Some item)
  then max_stack_size self - quantity self
  else 0.

(** What a cell holds of an item. *)
Definition held (item : string) (self : t) : Z :=
  if negb (is_empty self) && bool_decide (item_id self = Some item)
  then quantity self else 0.

(** ** Sequences of calls on one cell *)

Inductive op : Type :=
| AddItems (item_id : string) (add_quantity : Z)
| RemoveItems (remove_quantity : Z)
| ClearSlot.

Definition step (self : t) (o : op) : t :=
  match o with
  | AddItems i n => (add_items self i n).2
  | RemoveItems n => (remove_items self n).2
  | ClearSlot => (clear_slot self).2
  end.

Definition run (self : t) (ops : list op) : t := foldl step self ops.

(** ** Automation for the cell's case analyses *)

Ltac cell_unfold :=
  unfold wf, add_items, remove_items, is_full, room, held in *;
  unfold is_empty, set_quantity, set_item_id in *; simpl in *.

Ltac cell_cases :=
  repeat first
    [ case_bool_decide
    | match goal with
      | |- context [item_id ?c] => is_var c; destruct c; simpl in *
      end ];
  simplify_eq/=.

Ltac cell_solve :=
  intros; cell_unfold; cell_cases;
  try solve [ done | lia | f_equal; lia | intuition (done || lia || congruence) ].

(** ** Queries *)

Section queries.
Implicit Types (self : t) (item : string).

Lemma is_empty_wf self : wf self → is_empty self = bool_decide (quantity self = 0).
Proof.
  intros (_ & _ & Hiff). rewrite /is_empty.
  do 2 case_bool_decide; intuition.
Qed.

Lemma is_empty_item_id self : wf self → is_empty self = true ↔ item_id self = None.
Proof.
  intros (_ & _ & Hiff). rewrite /is_empty orb_true_iff !bool_decide_eq_true.
  intuition.
Qed.

Lemma room_nonneg item self : wf self → 0 ≤ room item self.
Proof. destruct self. cell_solve. Qed.

Lemma room_le item self : wf self → room item self ≤ max_stack_size self.
Proof. destruct self. cell_solve. Qed.

Lemma held_nonneg item self : wf self → 0 ≤ held item self.
Proof. destruct self. cell_solve. Qed.

Lemma held_le item self : wf self → held item self ≤ quantity self.
Proof. destruct self. cell_solve. Qed.

Lemma held_empty item self : is_empty self = true → held item self = 0.
Proof. rewrite /held. by intros ->. Qed.

Lemma room_empty item self : is_empty self = true → room item self = max_stack_size self.
Proof. rewrite /room. by intros ->. Qed.

(** A cell of another item neither holds nor takes anything of [item]. *)
Lemma held_other item self :
  item_id self ≠ Some item → held item self = 0.
Proof. destruct self. cell_solve. Qed.

Lemma is_full_room item self :
  wf self → is_full self = true → room item self = 0.
Proof. destruct self. cell_solve. Qed.

End queries.

(** ** [add_items] and [remove_items] on a well-formed cell *)

Section operations.
Implicit Types (self : t) (item other : string) (n : Z).

Lemma add_items_nonpos self item n : n ≤ 0 → add_items self item n = (0, self).
Proof. intros. by rewrite /add_items bool_decide_eq_true_2. Qed.

Lemma add_items_fst self item n :
  wf self → 0 < n → (add_items self item n).1 = Z.min n (room item self).
Proof. destruct self. cell_solve. Qed.

Lemma add_items_quantity self item n :
  quantity (add_items self item n).2 = quantity self + (add_items self item n).1.
Proof. destruct self. cell_solve. Qed.

Lemma add_items_max_stack_size self item n :
  max_stack_size (add_items self item n).2 = max_stack_size self.
Proof. destruct self. cell_solve. Qed.

Lemma add_items_wf self item n : wf self → wf (add_items self item n).2.
Proof. destruct self. cell_solve. Qed.

Lemma add_items_item_id self item n :
  wf self → 0 < (add_items self item n).1 → item_id (add_items self item n).2 = Some item.
Proof. destruct self. cell_solve. Qed.

(** Nothing added, nothing changed. *)
Lemma add_items_zero self item n :
  wf self → (add_items self item n).1 = 0 → (add_items self item n).2 = self.
Proof. destruct self. cell_solve. Qed.

Lemma add_items_held self item n :
  wf self →
  held item (add_items self item n).2 = held item self + (add_items self item n).1.
Proof. destruct self. cell_solve. Qed.

Lemma add_items_held_other self item other n :
  wf self → other ≠ item →
  held other (add_items self item n).2 = held other self.
Proof. destruct self. cell_solve. Qed.

Lemma add_items_room self item n :
  wf self →
  room item (add_items self item n).2 = room item self - (add_items self item n).1.
Proof. destruct self. cell_solve. Qed.

Lemma remove_items_nonpos self n : n ≤ 0 → remove_items self n = (0, self).
Proof. intros. by rewrite /remove_items bool_decide_eq_true_2. Qed.

Lemma remove_items_fst self n :
  wf self → 0 < n → (remove_items self n).1 = Z.min n (quantity self).
Proof. destruct self. cell_solve. Qed.

Lemma remove_items_quantity self n :
  quantity (remove_items self n).2 = quantity self - (remove_items self n).1.
Proof. destruct self. cell_solve. Qed.

Lemma remove_items_max_stack_size self n :
  max_stack_size (remove_items self n).2 = max_stack_size self.
Proof. destruct self. cell_solve. Qed.

Lemma remove_items_wf self n : wf self → wf (remove_items self n).2.
Proof. destruct self. cell_solve. Qed.

Lemma remove_items_held self item n :
  wf self → item_id self = Some item →
  held item (remove_items self n).2 = held item self - (remove_items self n).1.
Proof. destruct self. cell_solve. Qed.

Lemma remove_items_held_other self item n :
  wf self → item_id self ≠ Some item →
  held item (remove_items self n).2 = held item self.
Proof. destruct self. cell_solve. Qed.

End operations.

(** ** Validators, construction and assignment *)

Section validation.
Implicit Types (self : t) (item : string) (q m n : Z).

Lemma validate_quantity_init q : validate_quantity q ∅ = Z.min q 1.
Proof. rewrite /validate_quantity lookup_empty /=. case_bool_decide; lia. Qed.

Lemma validate_quantity_assign self q :
  validate_quantity q (delete "quantity" (fields self)) = Z.min q (max_stack_size self).
Proof.
  rewrite /validate_quantity /fields. simplify_map_eq. case_bool_decide; lia.
Qed.

(** The run of the after-validator that its own assignment triggers returns
    its argument. *)
Lemma validate_item_id_and_quantity_nested self self' :
  validate_item_id_and_quantity self = Ok self' →
  validate_item_id_and_quantity self' = Ok self'.
Proof.
  destruct self as [? [i|] ? ? ? ?]; rewrite /validate_item_id_and_quantity /=;
    case_bool_decide; intros; simplify_eq/=; case_bool_decide; done || lia.
Qed.

Lemma validate_item_id_and_quantity_Ok self self' :
  validate_item_id_and_quantity self = Ok self' →
  quantity self' = quantity self ∧ max_stack_size self' = max_stack_size self ∧
  (0 < quantity self' → item_id self' = item_id self ∧ is_Some (item_id self)) ∧
  (quantity self' ≤ 0 → item_id self' = None).
Proof.
  destruct self as [? [i|] ? ? ? ?]; rewrite /validate_item_id_and_quantity /=;
    case_bool_decide; intros; simplify_eq/=; split_and!; (done || lia || eauto).
Qed.

Lemma setattr_quantity_eq q self :
  0 ≤ q →
  setattr_quantity q self =
  let self1 := set_quantity (Z.min q (max_stack_size self)) self in
  match validate_item_id_and_quantity self1 with
  | Ok self' => (Ok tt, self')
  | Raise e => (Raise e, self1)
  end.
Proof.
  intros. rewrite /setattr_quantity. cbv beta. by rewrite check_ge_ok // validate_quantity_assign.
Qed.

Lemma setattr_quantity_negative q self :
  q < 0 →
  setattr_quantity q self =
  (Raise (ValidationError [ErrorDetails "quantity" (greater_than_equal 0)]), self).
Proof. intros. rewrite /setattr_quantity. cbv beta. by rewrite check_ge_fail. Qed.

Lemma clear_slot_eq self :
  0 ≤ max_stack_size self →
  clear_slot self =
  (Ok (quantity self),
   mk (component_type self) None 0 (max_stack_size self) (slot_type self)
      (is_equipped self)).
Proof.
  intros Hm. rewrite /clear_slot. method_unfold.
  rewrite setattr_quantity_eq // Z.min_l //.
  destruct self as [? [i|] ? ? ? ?]; by simpl.
Qed.

(** The cell [add_item] creates: [InventoryCellComponent(max_stack_size=s)]. *)
Lemma init_empty_cell s :
  1 ≤ s → __init__ None None (Some s) None None = Ok (mk INVENTORY None 0 s None false).
Proof.
  intros. rewrite /__init__ /from_option /= check_ge_ok //.
Qed.

Lemma init_empty_cell_raise s :
  s < 1 →
  __init__ None None (Some s) None None =
  Raise (ValidationError [ErrorDetails "max_stack_size" (greater_than_equal 1)]).
Proof. intros. by rewrite /__init__ /from_option /= check_ge_fail. Qed.

Lemma clear_slot_wf self : wf self → wf (clear_slot self).2.
Proof.
  intros Hwf. rewrite clear_slot_eq; [destruct Hwf; lia|]. destruct self. cell_solve.
Qed.

End validation.

(** ** The properties of a cell *)

Section theorems.
Implicit Types (self : t) (item : string) (q m n : Z).

(** C5. [add_items] on a well-formed cell, for a positive amount: the amount
    returned is the smaller of the request and the room the cell has for the
    item; the quantity grows by it; the stack size is kept; the cell stays
    well-formed; and when something was added the cell holds that item. *)
Theorem add_items_spec self item n :
  wf self → 0 < n →
  (add_items self item n).1 = Z.min n (room item self) ∧
  quantity (add_items self item n).2 = quantity self + (add_items self item n).1 ∧
  max_stack_size (add_items self item n).2 = max_stack_size self ∧
  wf (add_items self item n).2 ∧
  (0 < (add_items self item n).1 → item_id (add_items self item n).2 = Some item).
Proof.
  intros. split_and!;
    auto using add_items_fst, add_items_quantity, add_items_max_stack_size,
      add_items_wf, add_items_item_id.
Qed.

(** C20. [remove_items] on a well-formed cell, for a positive amount: the
    amount returned is the smaller of the request and the quantity held; the
    quantity shrinks by it; the cell stays well-formed, and it loses its
    [item_id] exactly when nothing is left. *)
Theorem remove_items_spec self n :
  wf self → 0 < n →
  (remove_items self n).1 = Z.min n (quantity self) ∧
  quantity (remove_items self n).2 = quantity self - (remove_items self n).1 ∧
  wf (remove_items self n).2 ∧
  (item_id (remove_items self n).2 = None ↔ quantity self ≤ n).
Proof.
  intros Hwf Hn. split_and!;
    auto using remove_items_fst, remove_items_quantity, remove_items_wf.
  pose proof (remove_items_wf self n Hwf) as (_ & _ & <-).
  rewrite remove_items_quantity remove_items_fst //. lia.
Qed.

Lemma step_wf self o : wf self → wf (step self o).
Proof. destruct o; simpl; auto using add_items_wf, remove_items_wf, clear_slot_wf. Qed.

Lemma step_max_stack_size self o :
  wf self → max_stack_size (step self o) = max_stack_size self.
Proof.
  intros Hwf. destruct o; simpl;
    rewrite ?add_items_max_stack_size ?remove_items_max_stack_size //.
  rewrite clear_slot_eq; [destruct Hwf; lia|done].
Qed.

(** C12. Whatever sequence of [add_items], [remove_items] and [clear_slot]
    is applied to a well-formed cell, with any arguments, the cell stays
    well-formed: [0 <= quantity <= max_stack_size], and [quantity == 0]
    exactly when [item_id is None]. *)
Theorem run_wf ops self :
  wf self → wf (run self ops) ∧ max_stack_size (run self ops) = max_stack_size self.
Proof.
  revert self. induction ops as [|o ops IH]; intros self Hwf; [done|].
  rewrite /run /= -/(run _ _) -(step_max_stack_size self o) //.
  by apply IH, step_wf.
Qed.

(** C22. Construction: the outcome of the constructor, on every branch.  It
    fails on a negative quantity or a stack size below one (both reported),
    and on a positive quantity without an item.  Otherwise the cell is built
    with the quantity cut down to [1] whatever stack size is given, because
    [validate_quantity] runs before [max_stack_size] is validated. *)
Theorem init_spec (id : option string) q m st eq :
  __init__ id (Some q) (Some m) st eq =
  if bool_decide (0 ≤ q ∧ 1 ≤ m) then
    if bool_decide (0 < q) then
      match id with
      | Some i => Ok (mk INVENTORY (Some i) 1 m st (default false eq))
      | None => Raise (ValidationError
          [ErrorDetails "" (value_error "Cannot have quantity > 0 without an item_id")])
      end
    else Ok (mk INVENTORY None 0 m st (default false eq))
  else Raise (ValidationError (check_ge "quantity" 0 q ++ check_ge "max_stack_size" 1 m)).
Proof.
  rewrite /__init__ /from_option. case_bool_decide as Hc.
  - destruct Hc. rewrite !check_ge_ok //= validate_quantity_init.
    rewrite /validate_item_id_and_quantity /=. case_bool_decide.
    + rewrite bool_decide_eq_true_2; [lia|]. rewrite Z.min_r; [lia|]. by destruct id.
    + rewrite bool_decide_eq_false_2; [lia|]. rewrite Z.min_l; [lia|].
      replace q with 0 by lia. by destruct id.
  - destruct (check_ge "quantity" 0 q ++ _) eqn:E; [|done].
    apply app_eq_nil in E as [?%check_ge_nil ?%check_ge_nil]. tauto.
Qed.

(** Every cell the constructor builds is well-formed, and holds at most
    one item. *)
Theorem init_wf (id : option string) (q m : option Z) st eq self :
  __init__ id q m st eq = Ok self → wf self ∧ quantity self ≤ 1.
Proof.
  rewrite /__init__. destruct q as [q|], m as [m|]; simpl;
    rewrite /check_ge ?validate_quantity_init;
    repeat case_bool_decide; simpl; try done;
    intros (Hq & Hm & Hpos & Hzero)%validate_item_id_and_quantity_Ok;
    simpl in *; rewrite /wf;
    (split; [split_and!; [lia..|] | lia]);
    (split; [intros Hz; apply Hzero; lia|]);
    intros Hnone; destruct (decide (0 < quantity self)) as [Hp|]; try lia;
    destruct (Hpos Hp) as [E [? ?]]; congruence.
Qed.

(** C39. An assignment that the after-validator rejects is not undone: a
    positive quantity assigned to an empty cell raises, and the cell is left
    with that quantity and no item, outside the invariant. *)
Theorem setattr_quantity_raise_keeps_value self q :
  wf self → item_id self = None → 0 < q →
  is_ok (setattr_quantity q self).1 = false ∧
  quantity (setattr_quantity q self).2 = Z.min q (max_stack_size self) ∧
  ¬ wf (setattr_quantity q self).2.
Proof.
  intros (Hm & Hq & Hiff) Hnone Hpos.
  rewrite setattr_quantity_eq; [lia|].
  rewrite /validate_item_id_and_quantity /= Hnone bool_decide_eq_true_2; [lia|].
  simpl. split_and!; [done..|]. intros (_ & _ & [_ Hz]). simpl in *.
  specialize (Hz Hnone). lia.
Qed.

(** C40. Lowering [max_stack_size] below the quantity of a cell is
    accepted and leaves the quantity above the stack size; [add_items] of the
    item it holds then takes items away, down to the stack size, and answers
    a negative amount. *)
Theorem setattr_max_stack_size_shrinks self v item q :
  wf self → 1 ≤ v < quantity self → item_id self = Some item → 0 < q →
  setattr_max_stack_size v self = (Ok tt, set_max_stack_size v self) ∧
  ¬ wf (set_max_stack_size v self) ∧
  (add_items (set_max_stack_size v self) item q).1 = v - quantity self ∧
  quantity (add_items (set_max_stack_size v self) item q).2 = v.
Proof.
  intros (Hm & Hq & Hiff) Hv Hid Hpos.
  rewrite /setattr_max_stack_size /check_ge bool_decide_eq_true_2; [lia|].
  rewrite /validate_item_id_and_quantity /= Hid bool_decide_eq_true_2; [lia|].
  assert (add_items (set_max_stack_size v self) item q =
          (v - quantity self, set_quantity v (set_max_stack_size v self))) as ->.
  { rewrite /add_items /is_empty /= Hid bool_decide_eq_false_2; [lia|].
    rewrite (bool_decide_eq_false_2 (quantity self = 0)); [lia|].
    rewrite /= (bool_decide_eq_false_2 (Some item ≠ Some item)); [by intros []|].
    rewrite /set_quantity /set_item_id /= Hid. do 2 f_equal; lia. }
  split_and!; [done| |done..]. intros (_ & ? & _). simpl in *. lia.
Qed.

End theorems.

(** ** Instances *)

Section examples.

Definition empty5 : t := mk INVENTORY None 0 5 None false.
Definition potion3 : t := mk INVENTORY (Some "potion") 3 5 None false.

(** Scenario 1 of the specification: into a cell of stack size 5, three
    potions, then five more of which two fit. *)
Example scenario_1 :
  add_items empty5 "potion" 3 = (3, potion3) ∧
  (add_items potion3 "potion" 5).1 = 2 ∧
  quantity (add_items potion3 "potion" 5).2 = 5 ∧
  is_full (add_items potion3 "potion" 5).2 = true.
Proof. by vm_compute. Qed.

Lemma add_items_spec_witness :
  (add_items potion3 "potion" 5).1 = Z.min 5 (room "potion" potion3) ∧
  quantity (add_items potion3 "potion" 5).2 =
    quantity potion3 + (add_items potion3 "potion" 5).1 ∧
  max_stack_size (add_items potion3 "potion" 5).2 = max_stack_size potion3 ∧
  wf (add_items potion3 "potion" 5).2 ∧
  (0 < (add_items potion3 "potion" 5).1 →
   item_id (add_items potion3 "potion" 5).2 = Some "potion").
Proof.
  exact (add_items_spec potion3 "potion" 5 ltac:(by vm_compute) ltac:(lia)).
Defined.

Lemma remove_items_spec_witness :
  (remove_items potion3 7).1 = Z.min 7 (quantity potion3) ∧
  quantity (remove_items potion3 7).2 = quantity potion3 - (remove_items potion3 7).1 ∧
  wf (remove_items potion3 7).2 ∧
  (item_id (remove_items potion3 7).2 = None ↔ quantity potion3 ≤ 7).
Proof. exact (remove_items_spec potion3 7 ltac:(by vm_compute) ltac:(lia)). Defined.

Lemma run_wf_witness :
  let ops := [AddItems "potion" 9; AddItems "sword" 1; RemoveItems 2;
              ClearSlot; AddItems "sword" (-4); RemoveItems 1] in
  wf (run empty5 ops) ∧ max_stack_size (run empty5 ops) = max_stack_size empty5.
Proof.
  exact (run_wf [AddItems "potion" 9; AddItems "sword" 1; RemoveItems 2;
                 ClearSlot; AddItems "sword" (-4); RemoveItems 1]
           empty5 ltac:(by vm_compute)).
Defined.

(** Asked for three potions in a cell of five, the constructor builds a cell
    of one potion. *)
Lemma init_wf_witness :
  let self := mk INVENTORY (Some "potion") 1 5 None false in
  wf self ∧ quantity self ≤ 1.
Proof.
  exact (init_wf (Some "potion") (Some 3) (Some 5) None None _ ltac:(by vm_compute)).
Defined.

Lemma setattr_quantity_raise_keeps_value_witness :
  is_ok (setattr_quantity 3 empty5).1 = false ∧
  quantity (setattr_quantity 3 empty5).2 = Z.min 3 (max_stack_size empty5) ∧
  ¬ wf (setattr_quantity 3 empty5).2.
Proof.
  exact (setattr_quantity_raise_keeps_value empty5 3
           ltac:(by vm_compute) ltac:(done) ltac:(lia)).
Defined.

Lemma setattr_max_stack_size_shrinks_witness :
  setattr_max_stack_size 2 potion3 = (Ok tt, set_max_stack_size 2 potion3) ∧
  ¬ wf (set_max_stack_size 2 potion3) ∧
  (add_items (set_max_stack_size 2 potion3) "potion" 1).1 = 2 - quantity potion3 ∧
  quantity (add_items (set_max_stack_size 2 potion3) "potion" 1).2 = 2.
Proof.
  exact (setattr_max_stack_size_shrinks potion3 2 "potion" 1
           ltac:(by vm_compute) ltac:(by vm_compute) ltac:(done) ltac:(lia)).
Defined.

End examples.

End InventoryCellComponent.
