(* ===== verification/Inventory.v ===== *)
(** * InventoryComponent: an inventory of cells

    Module [InventoryComponent] models [class InventoryComponent]
    (components.py, lines 702-874): the record, the truncating
    after-validator, construction, and every method.

    The list [cells] holds the cells in order; a cell mutated in place by a
    loop of the source is replaced at its position in the list.  The three
    [for] loops that return from inside the loop are structural recursions
    that also answer whether the loop returned; the [while] loop of
    [add_item] is [Prelude.loop] over its body, with fuel. *)

Set Warnings "-rewrite-rw".
From S2P Require Import Prelude Model Cell.

Module InventoryComponent.

Abbreviation cell := InventoryCellComponent.t.
Abbreviation is_empty := InventoryCellComponent.is_empty.
Abbreviation add_items := InventoryCellComponent.add_items.
Abbreviation remove_items := InventoryCellComponent.remove_items.
Abbreviation clear_slot := InventoryCellComponent.clear_slot.
Abbreviation item_id := InventoryCellComponent.item_id.
Abbreviation quantity := InventoryCellComponent.quantity.

(** The declared fields, in declaration order. *)
Record t : Type := mk {
  component_type : ComponentType;
  cells : list cell;
  max_cells : Z;
  default_max_stack_size : Z;
}.

Definition set_cells (v : list cell) (self : t) : t :=
  mk (component_type self) v (max_cells self) (default_max_stack_size self).

(** [@model_validator(mode="after")]: keeps the first [max_cells] cells. *)
Definition validate_cells_count (self : t) : t :=
  if bool_decide (len (cells self) > max_cells self)
  then set_cells (slice_to (max_cells self) (cells self)) self
  else self.

(** The constructor applied to keyword arguments: the two [ge=1] constraints,
    then the after-validator.  Cells given as instances are not revalidated. *)
Definition __init__ (cells : option (list cell))
    (max_cells default_max_stack_size : option Z) : outcome exn t :=
  let errors :=
    from_option (check_ge "max_cells" 1) [] max_cells ++
    from_option (check_ge "default_max_stack_size" 1) [] default_max_stack_size in
  match errors with
  | _ :: _ => Raise (ValidationError errors)
  | [] =>
      Ok (validate_cells_count
            (mk INVENTORY (default [] cells) (default 10 max_cells)
                (default 1 default_max_stack_size)))
  end.

(** [not cell.is_empty() and cell.item_id == item_id]: the test of the three
    loops over the cells of an item. *)
Definition holds (item : string) (c : cell) : bool :=
  negb (is_empty c) && bool_decide (item_id c = Some item).

(** The first loop of [add_item]: add to the cells that hold the item, in
    order.  Answers the cells, the remaining quantity, and whether the loop
    returned ([remaining_quantity <= 0] after an addition). *)
Fixpoint add_item_fill (item : string) (cells : list cell) (remaining_quantity : Z)
  : list cell * Z * bool :=
  match cells with
  | [] => ([], remaining_quantity, false)
  | c :: rest =>
      if holds item c then
        let '(added, c') := add_items c item remaining_quantity in
        let remaining_quantity := remaining_quantity - added in
        if bool_decide (remaining_quantity ≤ 0)
        then (c' :: rest, remaining_quantity, true)
        else
          let '(rest', r, returned) := add_item_fill item rest remaining_quantity in
          (c' :: rest', r, returned)
      else
        let '(rest', r, returned) := add_item_fill item rest remaining_quantity in
        (c :: rest', r, returned)
  end.

(** The inner loop of the [while]: the first empty cell, with its index. *)
Definition find_empty_cell (cells : list cell) : option (nat * cell) :=
  list_find (λ c, is_empty c = true) cells.

(** One iteration of [while remaining_quantity > 0] on the state
    [(cells, remaining_quantity)]: [inl] to go round again, [inr] when the
    loop is left, by its condition, by [break], or by the exception of the
    cell constructor. *)
Definition add_item_overflow (item : string) (max_stack_size : option Z)
    (max_cells default_max_stack_size : Z) (st : list cell * Z)
  : list cell * Z + outcome exn Z * list cell :=
  let '(cells, remaining_quantity) := st in
  if bool_decide (remaining_quantity > 0) then
    match find_empty_cell cells with
    | Some (i, empty_cell) =>
        let '(added, c') := add_items empty_cell item remaining_quantity in
        inl (<[i := c']> cells, remaining_quantity - added)
    | None =>
        if bool_decide (len cells < max_cells) then
          let stack_size := default default_max_stack_size max_stack_size in
          match InventoryCellComponent.__init__ None None (Some stack_size) None None with
          | Ok new_cell =>
              let '(added, c') := add_items new_cell item remaining_quantity in
              inl (cells ++ [c'], remaining_quantity - added)
          | Raise e => inr (Raise e, cells)
          end
        else inr (Ok remaining_quantity, cells)
    end
  else inr (Ok remaining_quantity, cells).

(** [add_item(item_id, quantity, max_stack_size)] with the fuel of its
    [while] loop explicit: [None] when the fuel runs out. *)
Definition add_item_fuel (fuel : nat) (self : t) (item : string) (quantity : Z)
    (max_stack_size : option Z) : option (outcome exn Z * t) :=
  if bool_decide (quantity ≤ 0) then Some (Ok 0, self)
  else
    let '(cells1, remaining_quantity, returned) :=
      add_item_fill item (cells self) quantity in
    if returned then Some (Ok quantity, set_cells cells1 self)
    else
      '(result, cells2) ←
        loop (add_item_overflow item max_stack_size (max_cells self)
                (default_max_stack_size self))
             fuel (cells1, remaining_quantity);
      Some (match result with
            | Ok remaining_quantity => Ok (quantity - remaining_quantity)
            | Raise e => Raise e
            end, set_cells cells2 self).

(** Iterations the [while] loop is given: one for each cell that is or can
    be there, and the one that leaves the loop. *)
Definition add_item_bound (self : t) : nat :=
  S (length (cells self) + Z.to_nat (max_cells self)).

(** [add_item(item_id, quantity=1, max_stack_size=None)] *)
Definition add_item (self : t) (item : string) (quantity : Z)
    (max_stack_size : option Z) : option (outcome exn Z * t) :=
  add_item_fuel (add_item_bound self) self item quantity max_stack_size.

(** The loop of [remove_item]: remove from the cells that hold the item, in
    order; answers whether the loop returned. *)
Fixpoint remove_item_loop (item : string) (cells : list cell) (remaining_to_remove : Z)
  : list cell * Z * bool :=
  match cells with
  | [] => ([], remaining_to_remove, false)
  | c :: rest =>
      if holds item c then
        let '(removed, c') := remove_items c remaining_to_remove in
        let remaining_to_remove := remaining_to_remove - removed in
        if bool_decide (remaining_to_remove ≤ 0)
        then (c' :: rest, remaining_to_remove, true)
        else
          let '(rest', r, returned) := remove_item_loop item rest remaining_to_remove in
          (c' :: rest', r, returned)
      else
        let '(rest', r, returned) := remove_item_loop item rest remaining_to_remove in
        (c :: rest', r, returned)
  end.

(** [remove_item(item_id, quantity=1)] *)
Definition remove_item (self : t) (item : string) (quantity : Z) : Z * t :=
  if bool_decide (quantity ≤ 0) then (0, self)
  else
    let '(cells', remaining_to_remove, returned) :=
      remove_item_loop item (cells self) quantity in
    (if returned then quantity else quantity - remaining_to_remove,
     set_cells cells' self).

(** The loop of [has_item], from the running total [total_quantity]. *)
Fixpoint has_item_loop (item : string) (cells : list cell)
    (total_quantity quantity' : Z) : bool :=
  match cells with
  | [] => false
  | c :: rest =>
      if holds item c then
        let total_quantity := total_quantity + quantity c in
        if bool_decide (quantity' ≤ total_quantity) then true
        else has_item_loop item rest total_quantity quantity'
      else has_item_loop item rest total_quantity quantity'
  end.

(** [has_item(item_id, quantity=1)] *)
Definition has_item (self : t) (item : string) (quantity : Z) : bool :=
  if bool_decide (quantity ≤ 0) then true
  else has_item_loop item (cells self) 0 quantity.

(** [get_item_count(item_id)] *)
Definition get_item_count (self : t) (item : string) : Z :=
  foldl (λ total c, if holds item c then total + quantity c else total)
        0 (cells self).

(** [get_empty_cells_count()] *)
Definition get_empty_cells_count (self : t) : Z :=
  foldl (λ n c, if is_empty c then n + 1 else n) 0 (cells self).

(** [is_full()] *)
Definition is_full (self : t) : bool :=
  if bool_decide (len (cells self) < max_cells self) then false
  else forallb InventoryCellComponent.is_full (cells self).

(** The loop of [clear_all]: [clear_slot] on each cell in order; an exception
    leaves the cells before it cleared. *)
Fixpoint clear_all_loop (cells : list cell) : outcome exn unit * list cell :=
  match cells with
  | [] => (Ok tt, [])
  | c :: rest =>
      match clear_slot c with
      | (Ok _, c') =>
          let '(result, rest') := clear_all_loop rest in (result, c' :: rest')
      | (Raise e, c') => (Raise e, c' :: rest)
      end
  end.

(** [clear_all()] *)
Definition clear_all : method t exn unit := λ self,
  let '(result, cells') := clear_all_loop (cells self) in
  (result, set_cells cells' self).

(** ** The inventory invariant *)

Definition wf (self : t) : Prop :=
  Forall InventoryCellComponent.wf (cells self) ∧
  len (cells self) ≤ max_cells self ∧
  1 ≤ default_max_stack_size self.

#[export] Instance wf_dec self : Decision (wf self).
Proof. rewrite /wf. apply _. Defined.

(** ** What the inventory promises: counts and room *)

(** How many of an item the cells hold. *)
Definition count (item : string) (l : list cell) : Z :=
  sumZ (InventoryCellComponent.held item) l.

(** How many of an item the cells can still take. *)
Definition free (item : string) (l : list cell) : Z :=
  sumZ (InventoryCellComponent.room item) l.

(** How many of an item the inventory can still take, new cells of stack
    size [stack_size] included. *)
Definition capacity (item : string) (stack_size : Z) (self : t) : Z :=
  free item (cells self) + (max_cells self - len (cells self)) * stack_size.

End InventoryComponent.
