(* ===== verification/InventorySpec.v ===== *)
(** * InventoryComponent: counts, queries, removal and construction

    What the inventory holds of an item is [count]: the sum over its cells
    of what each holds.  This file relates the queries of the source to it
    ([get_item_count], the short-circuiting [has_item],
    [get_empty_cells_count], [is_full]), proves [remove_item] and
    [clear_all] against it, and says what construction with its truncating
    validator builds. *)

Set Warnings "-rewrite-rw".
From S2P Require Import Prelude Model Cell Inventory.

Module Cell := InventoryCellComponent.
Import InventoryComponent.

(** The number of empty cells. *)
Definition n_empty (l : list cell) : Z :=
  sumZ (λ c, if is_empty c then 1 else 0) l.

(** ** Inventories the properties are run on *)

(** Three cells at most, stacks of five; a cell of two potions and a cell
    holding a sword. *)
Definition satchel : t :=
  mk INVENTORY [Cell.mk INVENTORY (Some "potion") 2 5 None false;
                Cell.mk INVENTORY (Some "sword") 1 1 None false] 3 5.

Definition empty2 : t := mk INVENTORY [] 2 5.

(** ** Counting *)

Section counting.
Implicit Types (self : t) (item other : string) (l : list cell) (c : cell).

Lemma held_holds item c :
  Cell.held item c = if holds item c then quantity c else 0.
Proof. done. Qed.

Lemma holds_not_empty item c : holds item c = true → is_empty c = false.
Proof. rewrite /holds. by intros [?%negb_true_iff _]%andb_true_iff. Qed.

Lemma holds_item_id item c : holds item c = true → item_id c = Some item.
Proof. rewrite /holds. by intros [_ ?%bool_decide_eq_true]%andb_true_iff. Qed.

Lemma holds_other item other c :
  other ≠ item → holds item c = true → holds other c = false.
Proof.
  intros Hne Hi%holds_item_id. rewrite /holds Hi.
  rewrite (bool_decide_eq_false_2 (Some item = Some other)); [congruence|].
  apply andb_false_r.
Qed.

Lemma count_nil item : count item [] = 0.
Proof. done. Qed.

Lemma count_cons item c l : count item (c :: l) = Cell.held item c + count item l.
Proof. done. Qed.

Lemma count_app item l1 l2 : count item (l1 ++ l2) = count item l1 + count item l2.
Proof. apply sumZ_app. Qed.

Lemma count_nonneg item l : Forall Cell.wf l → 0 ≤ count item l.
Proof.
  intros Hwf. apply sumZ_nonneg. eapply Forall_impl; [done|].
  intros c ?. by apply Cell.held_nonneg.
Qed.

Lemma n_empty_nonneg l : 0 ≤ n_empty l.
Proof. apply sumZ_nonneg, Forall_forall. intros c _. by destruct (is_empty c). Qed.

Lemma n_empty_le l : n_empty l ≤ len l.
Proof.
  rewrite /n_empty /len. induction l as [|c l IH]; [done|].
  rewrite sumZ_cons /=. destruct (is_empty c); lia.
Qed.

(** The accumulating loops of the source compute the sums. *)
Lemma foldl_count item l total :
  foldl (λ total c, if holds item c then total + quantity c else total) total l
  = total + count item l.
Proof.
  revert total. induction l as [|c l IH]; intros total; simpl.
  - rewrite count_nil. lia.
  - rewrite IH count_cons held_holds. destruct (holds item c); lia.
Qed.

Lemma get_item_count_count self item :
  get_item_count self item = count item (cells self).
Proof. by rewrite /get_item_count foldl_count. Qed.

Lemma foldl_n_empty l n :
  foldl (λ n c, if is_empty c then n + 1 else n) n l = n + n_empty l.
Proof.
  revert n. induction l as [|c l IH]; intros n; simpl.
  - rewrite /n_empty sumZ_nil. lia.
  - rewrite IH /n_empty sumZ_cons. destruct (is_empty c); lia.
Qed.

Lemma get_empty_cells_count_n_empty self :
  get_empty_cells_count self = n_empty (cells self).
Proof. by rewrite /get_empty_cells_count foldl_n_empty. Qed.

(** The loop of [has_item], entered below the threshold, answers whether the
    total reaches it. *)
Lemma has_item_loop_spec item l total q :
  Forall Cell.wf l → total < q →
  has_item_loop item l total q = bool_decide (q ≤ total + count item l).
Proof.
  intros Hwf. revert total. induction Hwf as [|c l Hc Hl IH]; intros total Hlt.
  - rewrite /= count_nil bool_decide_eq_false_2; [lia|done].
  - pose proof (count_nonneg item l Hl). rewrite /= count_cons held_holds.
    destruct (holds item c); [|by rewrite IH].
    case_bool_decide; [|rewrite IH; [lia|apply bool_decide_ext; lia]].
    rewrite bool_decide_eq_true_2; [lia|done].
Qed.

End counting.

(** ** The queries *)

Section queries.
Implicit Types (self : t) (item : string).

(** C26. [has_item], which stops at the first cell where the running total
    reaches the quantity asked, agrees on a well-formed inventory with the
    full count of [get_item_count]: it answers true exactly when the quantity
    is not positive or the inventory holds at least that many. *)
Theorem has_item_get_item_count self item q :
  wf self →
  has_item self item q = bool_decide (q ≤ 0 ∨ q ≤ get_item_count self item).
Proof.
  intros (Hwf & _). rewrite /has_item get_item_count_count.
  case_bool_decide as Hq.
  - rewrite bool_decide_eq_true_2; [by left|done].
  - rewrite has_item_loop_spec //; [lia|]. apply bool_decide_ext. lia.
Qed.

(** [get_item_count] and [get_empty_cells_count] are within their ranges. *)
Lemma get_item_count_nonneg self item : wf self → 0 ≤ get_item_count self item.
Proof. intros (? & _). rewrite get_item_count_count. by apply count_nonneg. Qed.

Lemma get_empty_cells_count_range self :
  0 ≤ get_empty_cells_count self ≤ len (cells self).
Proof.
  rewrite get_empty_cells_count_n_empty. split; [apply n_empty_nonneg|apply n_empty_le].
Qed.

(** C29. [is_full] answers true exactly when the inventory has all its
    [max_cells] cells and every one of them is full; an inventory with fewer
    cells is never full. *)
Theorem is_full_spec self :
  wf self →
  is_full self = true ↔
  len (cells self) = max_cells self ∧
  Forall (λ c, Cell.is_full c = true) (cells self).
Proof.
  intros (_ & Hlen & _). rewrite /is_full. case_bool_decide.
  - split; [done|]. intros [? _]. lia.
  - rewrite forallb_Forall. split; [|tauto].
    intros ?. split; [lia|done].
Qed.

Lemma has_item_get_item_count_witness :
  has_item satchel "potion" 2 = bool_decide (2 ≤ 0 ∨ 2 ≤ get_item_count satchel "potion").
Proof. exact (has_item_get_item_count satchel "potion" 2 ltac:(by_decide)). Defined.

Lemma is_full_spec_witness :
  is_full satchel = true ↔
  len (cells satchel) = max_cells satchel ∧ Forall (λ c, Cell.is_full c = true) (cells satchel).
Proof. exact (is_full_spec satchel ltac:(by_decide)). Defined.

End queries.

(** ** Removal *)

Section removal.
Implicit Types (self : t) (item other : string) (l : list cell) (c : cell).

(** What the loop of [remove_item] answers when entered with a positive
    amount [r] on well-formed cells. *)
Record remove_post item l r (res : list cell * Z * bool) : Prop := RemovePost {
  remove_wf : Forall Cell.wf res.1.1;
  remove_length : length res.1.1 = length l;
  remove_remaining : res.1.2 = Z.max 0 (r - count item l);
  remove_returned : res.2 = bool_decide (r ≤ count item l);
  remove_count : count item res.1.1 = count item l - (r - res.1.2);
  remove_other other : other ≠ item → count other res.1.1 = count other l;
}.

Lemma remove_item_loop_skip item c l r l' r' ret :
  holds item c = false → Cell.wf c →
  remove_post item l r (l', r', ret) →
  remove_post item (c :: l) r (c :: l', r', ret).
Proof.
  intros Hh Hc [? Hlen Hr Hret Hcount Hother]. simpl in *.
  assert (Cell.held item c = 0) as Hz by by rewrite held_holds Hh.
  split; simpl; rewrite ?count_cons ?Hz ?Z.add_0_l //.
  - by constructor.
  - by rewrite Hlen.
  - intros other ?. by rewrite !count_cons Hother.
Qed.

Lemma remove_item_loop_spec item l r :
  Forall Cell.wf l → 0 < r → remove_post item l r (remove_item_loop item l r).
Proof.
  intros Hwf. revert r. induction Hwf as [|c l Hc Hl IH]; intros r Hr.
  { split; simpl; rewrite ?count_nil //; try lia.
    by rewrite bool_decide_eq_false_2; [lia|]. }
  simpl. destruct (holds item c) eqn:Hh; last first.
  { specialize (IH r Hr). destruct (remove_item_loop item l r) as [[l' r'] ret].
    by apply remove_item_loop_skip. }
  pose proof (holds_item_id _ _ Hh) as Hid.
  pose proof (count_nonneg item l Hl) as Hnn.
  assert (Cell.held item c = quantity c) as Hheld by by rewrite held_holds Hh.
  destruct (remove_items c r) as [removed c'] eqn:Hrem.
  pose proof (Cell.remove_items_fst c r Hc Hr) as Hfst.
  pose proof (Cell.remove_items_wf c r Hc) as Hwf'.
  pose proof (Cell.remove_items_held c item r Hc Hid) as Hheld'.
  assert (∀ other, other ≠ item → Cell.held other c' = Cell.held other c) as Hoth.
  { intros other ?. pose proof (Cell.remove_items_held_other c other r Hc) as Ho.
    rewrite Hrem in Ho. apply Ho. congruence. }
  rewrite Hrem /= in Hfst Hwf' Hheld'. destruct Hc as (_ & Hq & _).
  case_bool_decide as Hdone.
  - split; simpl; rewrite ?count_cons ?Hheld ?Hheld'; try lia.
    + by constructor.
    + by rewrite bool_decide_eq_true_2; [lia|].
    + intros other ?. by rewrite !count_cons Hoth.
  - specialize (IH (r - removed) ltac:(lia)).
    destruct (remove_item_loop item l (r - removed)) as [[l' r'] ret].
    destruct IH as [? Hlen Hr' Hret Hcount Hother]. simpl in *.
    split; simpl; rewrite ?count_cons ?Hheld ?Hheld' ?Hcount; try lia.
    + by constructor.
    + rewrite Hret. apply bool_decide_ext. lia.
    + intros other ?. by rewrite !count_cons Hoth // Hother.
Qed.

(** What is asked beyond the stock is not removed, and says so in the
    returned amount; a request that is not positive removes nothing. *)
Lemma remove_item_nonpos self item q : q ≤ 0 → remove_item self item q = (0, self).
Proof. intros. by rewrite /remove_item bool_decide_eq_true_2. Qed.

(** [remove_item] in terms of the counts of the cells. *)
Lemma remove_item_post self item q :
  wf self → 0 < q →
  (remove_item self item q).1 = Z.min q (count item (cells self)) ∧
  remove_post item (cells self) q
    (cells (remove_item self item q).2, q - (remove_item self item q).1,
     bool_decide (q ≤ count item (cells self))) ∧
  max_cells (remove_item self item q).2 = max_cells self ∧
  default_max_stack_size (remove_item self item q).2 = default_max_stack_size self.
Proof.
  intros (Hwf & Hlen & Hd) Hq. rewrite /remove_item bool_decide_eq_false_2; [lia|].
  pose proof (remove_item_loop_spec item (cells self) q Hwf Hq) as Hpost.
  pose proof (count_nonneg item (cells self) Hwf).
  destruct (remove_item_loop item (cells self) q) as [[l' r'] ret].
  pose proof Hpost as [_ _ Hr Hret _ _]. simpl in *.
  assert ((if ret then q else q - r') = Z.min q (count item (cells self))) as ->.
  { rewrite Hret. case_bool_decide; lia. }
  split_and!; [done| |done..].
  replace (q - Z.min q (count item (cells self))) with r' by lia. by rewrite -Hret.
Qed.

Lemma remove_item_wf self item q :
  wf self →
  wf (remove_item self item q).2 ∧
  max_cells (remove_item self item q).2 = max_cells self.
Proof.
  intros Hwf. destruct (decide (0 < q)) as [Hq|Hq]; [|by rewrite remove_item_nonpos; [lia|]].
  destruct (remove_item_post self item q Hwf Hq) as (_ & [Hwf' Hlen' _ _ _ _] & Hmax & Hd).
  destruct Hwf as (_ & ? & ?). simpl in *.
  split; [|done]. split_and!; [done|rewrite /len Hlen' Hmax //|by rewrite Hd].
Qed.

(** C6. [remove_item] on a well-formed inventory, for a positive amount:
    it returns the smaller of the amount and what the inventory holds of the
    item; the count of the item drops by what is returned, the counts of the
    other items are unchanged, no cell is added or dropped, and the inventory
    stays well-formed. *)
Theorem remove_item_spec self item q :
  wf self → 0 < q →
  (remove_item self item q).1 = Z.min q (get_item_count self item) ∧
  get_item_count (remove_item self item q).2 item =
    get_item_count self item - (remove_item self item q).1 ∧
  (∀ other, other ≠ item →
     get_item_count (remove_item self item q).2 other = get_item_count self other) ∧
  length (cells (remove_item self item q).2) = length (cells self) ∧
  wf (remove_item self item q).2.
Proof.
  intros Hwf Hq. destruct (remove_item_post self item q Hwf Hq)
    as (Hr & [Hwf' Hlen' _ _ Hcount Hother] & Hmax & Hd). simpl in *.
  rewrite !get_item_count_count. split_and!; [done|lia| |done|by apply remove_item_wf].
  intros other ?. rewrite !get_item_count_count. by apply Hother.
Qed.

Lemma remove_item_spec_witness :
  (remove_item satchel "potion" 3).1 = Z.min 3 (get_item_count satchel "potion") ∧
  get_item_count (remove_item satchel "potion" 3).2 "potion" =
    get_item_count satchel "potion" - (remove_item satchel "potion" 3).1 ∧
  (∀ other, other ≠ "potion" →
     get_item_count (remove_item satchel "potion" 3).2 other = get_item_count satchel other) ∧
  length (cells (remove_item satchel "potion" 3).2) = length (cells satchel) ∧
  wf (remove_item satchel "potion" 3).2.
Proof. exact (remove_item_spec satchel "potion" 3 ltac:(by_decide) ltac:(lia)). Defined.

(** Scenario 5 of the specification: removing the one sword of a cell
    leaves the cell empty. *)
Example scenario_5 :
  let self := mk INVENTORY [Cell.mk INVENTORY (Some "sword") 1 1 None false] 10 1 in
  remove_item self "sword" 1 =
    (1, mk INVENTORY [Cell.mk INVENTORY None 0 1 None false] 10 1).
Proof. by vm_compute. Qed.

End removal.

(** ** Clearing *)

Section clearing.
Implicit Types (self : t) (item : string) (l : list cell) (c : cell).

(** A cleared cell: no item, quantity zero, the other fields kept. *)
Definition cleared (c : cell) : cell :=
  Cell.mk (Cell.component_type c) None 0 (Cell.max_stack_size c)
    (Cell.slot_type c) (Cell.is_equipped c).

Lemma cleared_wf c : Cell.wf c → Cell.wf (cleared c).
Proof. intros (? & ? & ?). rewrite /Cell.wf /=. split_and!; (done || lia). Qed.

Lemma cleared_held item c : Cell.held item (cleared c) = 0.
Proof. done. Qed.

Lemma n_empty_cleared l : n_empty (cleared <$> l) = len l.
Proof.
  rewrite /n_empty /len. induction l as [|c l IH]; [done|].
  rewrite fmap_cons sumZ_cons IH /=. lia.
Qed.

Lemma clear_all_loop_spec l :
  Forall Cell.wf l → clear_all_loop l = (Ok tt, cleared <$> l).
Proof.
  induction 1 as [|c l Hc _ IH]; [done|].
  rewrite /= Cell.clear_slot_eq; [destruct Hc; lia|]. by rewrite IH.
Qed.

Lemma count_cleared item l : count item (cleared <$> l) = 0.
Proof. apply sumZ_zero. by apply Forall_fmap, Forall_true. Qed.

Lemma clear_all_eq self :
  wf self → clear_all self = (Ok tt, set_cells (cleared <$> cells self) self).
Proof. intros (Hwf & _). by rewrite /clear_all clear_all_loop_spec. Qed.

Lemma cleared_all_wf self : wf self → wf (set_cells (cleared <$> cells self) self).
Proof.
  intros (Hwf & Hlen & Hd). split_and!; [|by rewrite /len /= length_fmap|done].
  apply Forall_fmap. eapply Forall_impl; [done|]. apply cleared_wf.
Qed.

(** C28. [clear_all] on a well-formed inventory never raises; it empties
    every cell in place: the cells stay allocated, each with its stack size,
    the inventory holds nothing of any item, and it stays well-formed. *)
Theorem clear_all_spec self :
  wf self →
  clear_all self = (Ok tt, set_cells (cleared <$> cells self) self) ∧
  (∀ item, get_item_count (clear_all self).2 item = 0) ∧
  get_empty_cells_count (clear_all self).2 = len (cells self) ∧
  wf (clear_all self).2.
Proof.
  intros Hwf. rewrite clear_all_eq //=. split_and!; [done|..].
  - intros item. by rewrite get_item_count_count /= count_cleared.
  - by rewrite get_empty_cells_count_n_empty /= n_empty_cleared.
  - by apply cleared_all_wf.
Qed.

Lemma clear_all_spec_witness :
  clear_all satchel = (Ok tt, set_cells (cleared <$> cells satchel) satchel) ∧
  (∀ item, get_item_count (clear_all satchel).2 item = 0) ∧
  get_empty_cells_count (clear_all satchel).2 = len (cells satchel) ∧
  wf (clear_all satchel).2.
Proof. exact (clear_all_spec satchel ltac:(by_decide)). Defined.

End clearing.

(** ** Construction *)

Section construction.
Implicit Types (self : t) (l : list cell).

Lemma validate_cells_count_len self :
  1 ≤ max_cells self → len (cells (validate_cells_count self)) ≤ max_cells self.
Proof.
  intros ?. rewrite /validate_cells_count. case_bool_decide; simpl; [|lia].
  rewrite slice_to_len bool_decide_eq_true_2; lia.
Qed.

Lemma validate_cells_count_prefix self :
  cells (validate_cells_count self) `prefix_of` cells self.
Proof.
  rewrite /validate_cells_count. case_bool_decide; [apply slice_to_prefix|done].
Qed.

Lemma validate_cells_count_wf self :
  1 ≤ max_cells self → 1 ≤ default_max_stack_size self →
  Forall Cell.wf (cells self) → wf (validate_cells_count self).
Proof.
  intros Hm Hd Hwf. pose proof (validate_cells_count_len self Hm) as Hlen.
  rewrite /validate_cells_count in Hlen |- *. case_bool_decide; simpl in *.
  - split_and!; [by apply Forall_slice_to|done..].
  - by split_and!.
Qed.

Lemma init_ok l mc ds :
  1 ≤ default 10 mc → 1 ≤ default 1 ds →
  __init__ (Some l) mc ds =
  Ok (validate_cells_count (mk INVENTORY l (default 10 mc) (default 1 ds))).
Proof.
  intros. rewrite /__init__ /check_ge.
  destruct mc, ds; simpl in *; by rewrite ?bool_decide_eq_true_2.
Qed.

Lemma init_raise l mc ds :
  default 10 mc < 1 ∨ default 1 ds < 1 →
  ∃ e errors, __init__ (Some l) mc ds = Raise (ValidationError (e :: errors)).
Proof.
  intros Hlt. rewrite /__init__ /check_ge.
  destruct mc, ds; simpl in *; repeat case_bool_decide; simpl; eauto; lia.
Qed.

(** C30. Construction: a [max_cells] or a [default_max_stack_size] below
    one is rejected with a [ValidationError]; otherwise the instance holds
    the first [max_cells] of the cells given, silently dropping the rest, and
    is well-formed when the cells given are. *)
Theorem inventory_init_spec l mc ds :
  match __init__ (Some l) mc ds with
  | Ok self =>
      1 ≤ default 10 mc ∧ 1 ≤ default 1 ds ∧
      max_cells self = default 10 mc ∧ default_max_stack_size self = default 1 ds ∧
      cells self `prefix_of` l ∧
      len (cells self) = Z.min (len l) (max_cells self) ∧
      (Forall Cell.wf l → wf self)
  | Raise e =>
      (default 10 mc < 1 ∨ default 1 ds < 1) ∧ ∃ errors, e = ValidationError errors
  end.
Proof.
  destruct (decide (1 ≤ default 10 mc ∧ 1 ≤ default 1 ds)) as [[Hm Hd]|Hlt].
  - rewrite init_ok //. set (self := mk _ _ _ _).
    pose proof (validate_cells_count_prefix self) as Hp.
    pose proof (validate_cells_count_wf self Hm Hd) as Hwf.
    rewrite /validate_cells_count in Hp Hwf |- *. case_bool_decide as Hlen; simpl in *.
    + split_and!; try done. rewrite slice_to_len bool_decide_eq_true_2; lia.
    + split_and!; try done. lia.
  - destruct (init_raise l mc ds) as (e & errors & ->); [lia|]. split; [lia|eauto].
Qed.

End construction.
