(* ===== verification/InventoryAdd.v ===== *)
(** * InventoryComponent.add_item: the allocation algorithm

    [add_item] fills the cells that hold the item, in order, then the empty
    cells, in order, then appends new cells while [max_cells] allows.  This
    file proves what it returns (the smaller of the request and the capacity
    of the inventory for the item), what it does to the counts, that its
    [while] loop terminates within the fuel [add_item] gives it, how it
    fails when the stack size asked for new cells is not positive, and that
    outside the invariant the loop may never end.

    The two passes are proved against one relation, [adds d l l']: the cells
    [l'] hold [d] more of the item than [l], nothing else changed, and the
    room left shrank by [d]. *)

Set Warnings "-rewrite-rw".
From S2P Require Import Prelude Model Cell Inventory InventorySpec.

Import InventoryComponent.

Section adds.
Context (item : string) (s : Z).
Implicit Types (l : list cell) (c : cell) (d n r : Z) (i : nat).

(** The room of the cells for the item, less what as many new cells of stack
    size [s] would give: appending an empty cell of that size leaves it
    unchanged. *)
Definition slack (l : list cell) : Z := free item l - len l * s.

(** The room left in a cell that holds the item. *)
Definition mroom (c : cell) : Z :=
  if holds item c then Cell.max_stack_size c - quantity c else 0.

Record adds (d : Z) (l l' : list cell) : Prop := Adds {
  adds_wf : Forall Cell.wf l';
  adds_count : count item l' = count item l + d;
  adds_other other : other ≠ item → count other l' = count other l;
  adds_slack : slack l' = slack l - d;
}.

Lemma free_cons c l : free item (c :: l) = Cell.room item c + free item l.
Proof. done. Qed.

Lemma len_cons c l : len (c :: l) = len l + 1.
Proof. rewrite /len /=. lia. Qed.

Lemma len_snoc l c : len (l ++ [c]) = len l + 1.
Proof. rewrite /len length_app /=. lia. Qed.

Lemma len_insert l i c : len (<[i:=c]> l) = len l.
Proof. by rewrite /len length_insert. Qed.

Lemma slack_cons c l : slack (c :: l) = Cell.room item c - s + slack l.
Proof. rewrite /slack free_cons len_cons. lia. Qed.

Lemma free_nonneg l : Forall Cell.wf l → 0 ≤ free item l.
Proof.
  intros Hwf. apply sumZ_nonneg. eapply Forall_impl; [done|].
  intros c ?. by apply Cell.room_nonneg.
Qed.

Lemma adds_refl l : Forall Cell.wf l → adds 0 l l.
Proof. intros. split; (done || lia). Qed.

Lemma adds_trans d1 d2 l1 l2 l3 :
  adds d1 l1 l2 → adds d2 l2 l3 → adds (d1 + d2) l1 l3.
Proof.
  intros [_ Hc1 Ho1 Hs1] [? Hc2 Ho2 Hs2]. split; [done|lia| |lia].
  intros other ?. by rewrite Ho2 // Ho1.
Qed.

(** Cells before the one that changes. *)
Lemma adds_skip c d l l' : Cell.wf c → adds d l l' → adds d (c :: l) (c :: l').
Proof.
  intros Hc [? Hcount Hother Hslack]. split.
  - by constructor.
  - rewrite !count_cons. lia.
  - intros other ?. by rewrite !count_cons Hother.
  - rewrite !slack_cons. lia.
Qed.

(** [add_items] on the first cell. *)
Lemma adds_head c l n :
  Cell.wf c → Forall Cell.wf l →
  adds (add_items c item n).1 (c :: l) ((add_items c item n).2 :: l).
Proof.
  intros Hc Hl. split.
  - constructor; [by apply Cell.add_items_wf|done].
  - rewrite !count_cons Cell.add_items_held //. lia.
  - intros other ?. by rewrite !count_cons Cell.add_items_held_other.
  - rewrite !slack_cons Cell.add_items_room //. lia.
Qed.

(** [add_items] on the cell at an index. *)
Lemma adds_insert i c l n :
  l !! i = Some c → Forall Cell.wf l →
  adds (add_items c item n).1 l (<[i:=(add_items c item n).2]> l).
Proof.
  intros Hi Hl. pose proof (Forall_lookup_1 _ _ _ _ Hl Hi) as Hc. split.
  - apply Forall_insert; [done|by apply Cell.add_items_wf].
  - rewrite /count (sumZ_insert _ _ _ c) // Cell.add_items_held //. lia.
  - intros other ?.
    rewrite /count (sumZ_insert _ _ _ c) // Cell.add_items_held_other //. lia.
  - rewrite /slack /free (sumZ_insert _ _ _ c) // len_insert Cell.add_items_room //.
    lia.
Qed.

(** [add_items] on a new empty cell of stack size [s], appended. *)
Lemma adds_snoc c l n :
  Forall Cell.wf l → Cell.wf c → is_empty c = true → Cell.max_stack_size c = s →
  adds (add_items c item n).1 l (l ++ [(add_items c item n).2]).
Proof.
  intros Hl Hc He Hs. split.
  - apply Forall_app. split; [done|]. constructor; [by apply Cell.add_items_wf|done].
  - rewrite count_app count_cons count_nil Cell.add_items_held // Cell.held_empty //.
    lia.
  - intros other ?.
    rewrite count_app count_cons count_nil Cell.add_items_held_other //.
    rewrite Cell.held_empty //. lia.
  - rewrite /slack /free sumZ_snoc len_snoc Cell.add_items_room //.
    rewrite Cell.room_empty // Hs. lia.
Qed.

End adds.

(** ** Facts on one cell that the two passes use *)

Section cell_facts.
Context (item : string).
Implicit Types (c : cell) (r : Z).

Ltac cell_fact :=
  unfold mroom, holds in *; Cell.cell_unfold; Cell.cell_cases;
  try solve [ done | lia | intuition (done || lia || congruence) ].

Lemma mroom_not_holds c : holds item c = false → mroom item c = 0.
Proof. rewrite /mroom. by intros ->. Qed.

Lemma mroom_nonneg c : Cell.wf c → 0 ≤ mroom item c.
Proof. destruct c. intros. cell_fact. Qed.

Lemma room_mroom c : Cell.wf c → is_empty c = false → Cell.room item c = mroom item c.
Proof. destruct c. intros. cell_fact. Qed.

(** A cell that took less than was offered is full. *)
Lemma add_items_left_over c r :
  Cell.wf c → 0 < r → (add_items c item r).1 < r → mroom item (add_items c item r).2 = 0.
Proof. destruct c. intros. cell_fact. Qed.

Lemma add_items_le c r : Cell.wf c → 0 < r → 0 ≤ (add_items c item r).1 ≤ r.
Proof. destruct c. intros. cell_fact. Qed.

(** An empty cell takes at least one item, and is no longer empty. *)
Lemma add_items_empty_pos c r :
  Cell.wf c → 0 < r → is_empty c = true → 0 < (add_items c item r).1.
Proof. destruct c. intros. cell_fact. Qed.

Lemma add_items_not_empty c r :
  Cell.wf c → 0 < (add_items c item r).1 → is_empty (add_items c item r).2 = false.
Proof. destruct c. intros. cell_fact. Qed.

Lemma mroom_empty c : is_empty c = true → mroom item c = 0.
Proof. rewrite /mroom /holds. by intros ->. Qed.

End cell_facts.

(** ** The fill pass *)

Section fill.
Context (item : string) (s : Z).
Implicit Types (l : list cell) (c : cell) (r : Z).

(** What the first loop answers when entered with a positive amount [r] on
    well-formed cells: it added [r] less the remaining amount; it returned
    exactly when nothing remains; and when something remains every cell that
    holds the item is full. *)
Record fill_post l r (res : list cell * Z * bool) : Prop := FillPost {
  fill_adds : adds item s (r - res.1.2) l res.1.1;
  fill_length : length res.1.1 = length l;
  fill_remaining : 0 ≤ res.1.2 ≤ r;
  fill_returned : res.2 = bool_decide (res.1.2 = 0);
  fill_full : 0 < res.1.2 → sumZ (mroom item) res.1.1 = 0;
}.

Lemma fill_post_skip c l r l' r' ret :
  Cell.wf c → holds item c = false →
  fill_post l r (l', r', ret) → fill_post (c :: l) r (c :: l', r', ret).
Proof.
  intros Hc Hh [Hadds Hlen Hr Hret Hfull]. simpl in *. split; simpl.
  - by apply adds_skip.
  - by rewrite Hlen.
  - done.
  - done.
  - intros ?. rewrite sumZ_cons mroom_not_holds // Hfull //.
Qed.

Lemma fill_post_step c l r l' r' ret :
  Cell.wf c → Forall Cell.wf l → 0 < r → (add_items c item r).1 < r →
  fill_post l (r - (add_items c item r).1) (l', r', ret) →
  fill_post (c :: l) r ((add_items c item r).2 :: l', r', ret).
Proof.
  intros Hc Hl Hr Hlt [Hadds Hlen Hr' Hret Hfull]. simpl in *.
  pose proof (add_items_le item c r Hc Hr). split; simpl.
  - replace (r - r') with
      ((add_items c item r).1 + (r - (add_items c item r).1 - r')) by lia.
    eapply adds_trans; [by apply adds_head|].
    apply adds_skip; [by apply Cell.add_items_wf|done].
  - by rewrite Hlen.
  - lia.
  - done.
  - intros ?. rewrite sumZ_cons add_items_left_over // Hfull //.
Qed.

Lemma add_item_fill_spec l r :
  Forall Cell.wf l → 0 < r → fill_post l r (add_item_fill item l r).
Proof.
  intros Hwf. revert r. induction Hwf as [|c l Hc Hl IH]; intros r Hr.
  { split; simpl; [|done|lia| |done].
    - replace (r - r) with 0 by lia. by apply adds_refl.
    - by rewrite bool_decide_eq_false_2; [lia|]. }
  simpl. destruct (holds item c) eqn:Hh; last first.
  { specialize (IH r Hr). destruct (add_item_fill item l r) as [[l' r'] ret].
    by apply fill_post_skip. }
  pose proof (add_items_le item c r Hc Hr) as Hle.
  destruct (add_items c item r) as [added c'] eqn:Hadd. simpl in Hle.
  case_bool_decide as Hdone.
  - assert (added = r) as -> by lia. split; simpl.
    + replace (r - (r - r)) with (add_items c item r).1 by (rewrite Hadd /=; lia).
      replace c' with (add_items c item r).2 by by rewrite Hadd.
      by apply adds_head.
    + done.
    + lia.
    + by rewrite bool_decide_eq_true_2; [lia|].
    + lia.
  - specialize (IH (r - added) ltac:(lia)).
    destruct (add_item_fill item l (r - added)) as [[l' r'] ret].
    replace c' with (add_items c item r).2 by by rewrite Hadd.
    apply fill_post_step; rewrite ?Hadd //=. lia.
Qed.

End fill.

(** ** The overflow loop *)

Section overflow.
Context (item : string) (mss : option Z) (max_cells dmss : Z).
Implicit Types (l : list cell) (c : cell) (r : Z) (st : list cell * Z).

Abbreviation s := (default dmss mss).
Abbreviation body := (add_item_overflow item mss max_cells dmss).
Abbreviation new_cell := (Cell.mk INVENTORY None 0 s None false).

(** The invariant of the loop, entered from the cells [l0] with [r0] to add:
    the cells hold what is no longer to add; they are at most [max_cells];
    while something remains, the cells that hold the item are full; and no
    cell was appended if new cells cannot be built. *)
Definition over_inv (l0 : list cell) (r0 : Z) st : Prop :=
  adds item s (r0 - st.2) l0 st.1 ∧
  len st.1 ≤ max_cells ∧
  0 ≤ st.2 ≤ r0 ∧
  (0 < st.2 → sumZ (mroom item) st.1 = 0) ∧
  (s < 1 → length st.1 = length l0).

(** The measure of the loop: the cells it can still fill or append. *)
Definition over_measure st : nat :=
  Z.to_nat (n_empty st.1 + (max_cells - len st.1)).

(** What the loop leaves.  When it ends normally with something remaining
    there is no room left at all; when the cell constructor raised, the
    existing cells are full for the item and none was appended. *)
Definition over_post (l0 : list cell) (r0 : Z) (res : outcome exn Z * list cell) : Prop :=
  match res.1 with
  | Ok r2 =>
      adds item s (r0 - r2) l0 res.2 ∧ len res.2 ≤ max_cells ∧ 0 ≤ r2 ≤ r0 ∧
      (0 < r2 → free item res.2 = 0 ∧ len res.2 = max_cells) ∧
      (s < 1 → length res.2 = length l0)
  | Raise e =>
      s < 1 ∧
      e = ValidationError [ErrorDetails "max_stack_size" (greater_than_equal 1)] ∧
      adds item s (free item l0) l0 res.2 ∧ free item l0 < r0 ∧
      length res.2 = length l0 ∧ len res.2 < max_cells
  end.

(** The body with the pairs of [add_items] projected. *)
Lemma add_item_overflow_eq l r :
  body (l, r) =
  if bool_decide (r > 0) then
    match find_empty_cell l with
    | Some (i, c) =>
        inl (<[i:=(add_items c item r).2]> l, r - (add_items c item r).1)
    | None =>
        if bool_decide (len l < max_cells) then
          match Cell.__init__ None None (Some s) None None with
          | Ok c => inl (l ++ [(add_items c item r).2], r - (add_items c item r).1)
          | Raise e => inr (Raise e, l)
          end
        else inr (Ok r, l)
    end
  else inr (Ok r, l).
Proof.
  rewrite /add_item_overflow. repeat case_match; simplify_eq/=; try done.
  all: by match goal with H : add_items _ _ _ = _ |- _ => rewrite H end.
Qed.

Lemma n_empty_snoc l c : n_empty (l ++ [c]) = n_empty l + if is_empty c then 1 else 0.
Proof. by rewrite /n_empty sumZ_snoc. Qed.

Lemma n_empty_insert l i c c' :
  l !! i = Some c → is_empty c = true → is_empty c' = false →
  n_empty (<[i:=c']> l) = n_empty l - 1.
Proof.
  intros Hi He He'. rewrite /n_empty (sumZ_insert _ _ _ c) // He He'. lia.
Qed.

(** Without an empty cell, the room is that of the cells holding the item. *)
Lemma free_no_empty l :
  Forall Cell.wf l → find_empty_cell l = None → free item l = sumZ (mroom item) l.
Proof.
  rewrite /find_empty_cell list_find_None. intros Hwf Hne.
  apply sumZ_ext, Forall_forall. intros c Hc.
  rewrite Forall_forall in Hwf. rewrite Forall_forall in Hne.
  apply room_mroom; [by apply Hwf|]. specialize (Hne c Hc). by destruct (is_empty c).
Qed.

(** An iteration that goes round again keeps the invariant and decreases
    the measure. *)
Lemma over_step l0 r0 st st' :
  over_inv l0 r0 st → body st = inl st' →
  over_inv l0 r0 st' ∧ (over_measure st' < over_measure st)%nat.
Proof.
  destruct st as [l r]. intros (Hadds & Hlen & Hr & Hfull & Hs).
  pose proof (adds_wf _ _ _ _ _ Hadds) as Hwf. simpl in Hadds, Hlen, Hr, Hfull, Hs, Hwf.
  rewrite add_item_overflow_eq. case_bool_decide as Hpos; [|done].
  destruct (find_empty_cell l) as [[i c]|] eqn:Hfind.
  - apply list_find_Some in Hfind as (Hi & He & _). intros [= <-].
    pose proof (Forall_lookup_1 _ _ _ _ Hwf Hi) as Hc.
    pose proof (add_items_le item c r Hc ltac:(lia)).
    pose proof (add_items_empty_pos item c r Hc ltac:(lia) He) as Hadded.
    pose proof (add_items_not_empty item c r Hc Hadded) as Hne.
    pose proof (n_empty_nonneg (<[i:=(add_items c item r).2]> l)) as Hnn.
    rewrite /over_inv /over_measure /= len_insert.
    rewrite (n_empty_insert l i c) // in Hnn |- *. split_and!; try lia.
    + replace (r0 - _) with ((r0 - r) + (add_items c item r).1) by lia.
      eapply adds_trans; [done|by apply adds_insert].
    + intros ?. rewrite (sumZ_insert _ _ _ c) // add_items_left_over //; [lia..|].
      rewrite mroom_empty // Hfull; lia.
    + intros ?. by rewrite length_insert Hs.
  - case_bool_decide as Hroom; [|done].
    destruct (decide (1 ≤ s)) as [Hs1|Hs1]; last first.
    { rewrite Cell.init_empty_cell_raise; [lia|done]. }
    rewrite Cell.init_empty_cell //. intros [= <-].
    assert (Cell.wf new_cell) as Hc by (rewrite /Cell.wf /=; split_and!; (done || lia)).
    pose proof (add_items_le item new_cell r Hc ltac:(lia)).
    pose proof (add_items_empty_pos item new_cell r Hc ltac:(lia) eq_refl) as Hadded.
    pose proof (add_items_not_empty item new_cell r Hc Hadded) as Hne.
    rewrite /over_inv /over_measure /= len_snoc n_empty_snoc Hne.
    pose proof (n_empty_nonneg l). split_and!; try lia.
    + replace (r0 - _) with ((r0 - r) + (add_items new_cell item r).1) by lia.
      eapply adds_trans; [done|by apply adds_snoc].
    + intros ?. rewrite sumZ_snoc add_items_left_over //; [lia..|]. rewrite Hfull; lia.
Qed.

(** An iteration that leaves the loop establishes the postcondition. *)
Lemma over_exit l0 r0 st res :
  over_inv l0 r0 st → body st = inr res → over_post l0 r0 res.
Proof.
  destruct st as [l r]. intros (Hadds & Hlen & Hr & Hfull & Hs).
  pose proof (adds_wf _ _ _ _ _ Hadds) as Hwf. simpl in Hadds, Hlen, Hr, Hfull, Hs, Hwf.
  rewrite add_item_overflow_eq. case_bool_decide as Hpos; last first.
  { intros [= <-]. rewrite /over_post /=. split_and!; (done || lia). }
  destruct (find_empty_cell l) as [[i c]|] eqn:Hfind; [done|].
  pose proof (free_no_empty l Hwf Hfind) as Hfree. rewrite Hfull in Hfree; [lia|].
  case_bool_decide as Hroom; last first.
  { intros [= <-]. rewrite /over_post /=. split_and!; (done || lia). }
  destruct (decide (1 ≤ s)) as [Hs1|Hs1]; [by rewrite Cell.init_empty_cell|].
  rewrite Cell.init_empty_cell_raise; [lia|]. intros [= <-].
  specialize (Hs ltac:(lia)).
  assert (r0 - r = free item l0) as Heq.
  { pose proof (adds_slack _ _ _ _ _ Hadds) as Hsl. rewrite /slack /len Hs Hfree in Hsl. lia. }
  rewrite /over_post /=. rewrite -Heq. split_and!; (done || lia).
Qed.

(** The loop ends within any fuel above its measure, in a state that
    satisfies the postcondition. *)
Lemma add_item_overflow_total l r fuel :
  Forall Cell.wf l → len l ≤ max_cells → 0 ≤ r →
  (0 < r → sumZ (mroom item) l = 0) →
  (over_measure (l, r) < fuel)%nat →
  ∃ res, loop body fuel (l, r) = Some res ∧ over_post l r res.
Proof.
  intros Hwf Hlen Hr Hfull Hfuel.
  apply (loop_total body (over_inv l r) over_measure (over_post l r));
    [apply over_step|apply over_exit| |done].
  rewrite /over_inv /=. replace (r - r) with 0 by lia.
  split_and!; [by apply adds_refl|done|lia..|done|done].
Qed.

End overflow.

(** ** [add_item] as a whole *)

Section add_item.
Implicit Types (self : t) (item other : string) (q : Z) (mss : option Z).

(** What a call of [add_item] with a positive quantity leaves: the fields
    other than [cells] are untouched and the inventory is well-formed; a
    normal return added what it says, and added less than asked only when no
    room is left at all; an exception is the cell constructor's, raised once
    the existing cells took all they could. *)
Definition add_post self item q mss (out : outcome exn Z) (self' : t) : Prop :=
  let s := default (default_max_stack_size self) mss in
  component_type self' = component_type self ∧
  max_cells self' = max_cells self ∧
  default_max_stack_size self' = default_max_stack_size self ∧
  wf self' ∧
  match out with
  | Ok added =>
      adds item s added (cells self) (cells self') ∧ 0 ≤ added ≤ q ∧
      (added < q → free item (cells self') = 0 ∧ len (cells self') = max_cells self) ∧
      (s < 1 → length (cells self') = length (cells self))
  | Raise e =>
      s < 1 ∧
      e = ValidationError [ErrorDetails "max_stack_size" (greater_than_equal 1)] ∧
      adds item s (free item (cells self)) (cells self) (cells self') ∧
      free item (cells self) < q ∧
      length (cells self') = length (cells self) ∧
      len (cells self) < max_cells self
  end.

Lemma over_measure_bound self l r :
  length l = length (cells self) →
  (over_measure (max_cells self) (l, r) < add_item_bound self)%nat.
Proof.
  intros Hlen. rewrite /over_measure /add_item_bound /=.
  pose proof (n_empty_le l). lia.
Qed.

Lemma add_item_fuel_post fuel self item q mss :
  wf self → 0 < q → (add_item_bound self ≤ fuel)%nat →
  ∃ out self',
    add_item_fuel fuel self item q mss = Some (out, self') ∧
    add_post self item q mss out self'.
Proof.
  intros (Hwf & Hlen & Hd) Hq Hfuel.
  rewrite /add_item_fuel bool_decide_eq_false_2; [lia|].
  destruct (add_item_fill_spec item (default (default_max_stack_size self) mss)
              (cells self) q Hwf Hq) as [Hadds Hlen1 Hr1 Hret Hfull].
  destruct (add_item_fill item (cells self) q) as [[l1 r1] ret]. simpl in *.
  pose proof (adds_wf _ _ _ _ _ Hadds) as Hwf1.
  assert (len l1 = len (cells self)) as Hlen1' by by rewrite /len Hlen1.
  subst ret. case_bool_decide as Hz.
  { subst r1. eexists _, _. split; [done|]. rewrite /add_post /wf /= Z.sub_0_r in Hadds |- *.
    split_and!; (done || lia). }
  destruct (add_item_overflow_total item mss (max_cells self)
              (default_max_stack_size self) l1 r1 fuel) as ([o l2] & -> & Hpost);
    [done|lia|lia|intros; apply Hfull; lia| |].
  { pose proof (over_measure_bound self l1 r1 Hlen1). lia. }
  rewrite /over_post /= in Hpost. eexists _, _. split; [done|].
  rewrite /add_post /wf /=. destruct o as [r2|e].
  - destruct Hpost as (Hadds2 & Hlen2 & Hr2 & Hfull2 & Hsame).
    pose proof (adds_wf _ _ _ _ _ Hadds2).
    split_and!; try (done || lia || (intros; rewrite Hsame //)).
    replace (q - r2) with ((q - r1) + (r1 - r2)) by lia. by eapply adds_trans.
  - destruct Hpost as (Hs & -> & Hadds2 & Hlt & Hlen2 & Hroom).
    pose proof (adds_wf _ _ _ _ _ Hadds2).
    assert (free item l1 = free item (cells self) - (q - r1)) as Hfree.
    { pose proof (adds_slack _ _ _ _ _ Hadds) as Hsl. rewrite /slack Hlen1' in Hsl. lia. }
    assert (len l2 = len l1) by by rewrite /len Hlen2.
    split_and!; try (done || lia || congruence).
    replace (free item (cells self)) with ((q - r1) + free item l1) by lia.
    by eapply adds_trans.
Qed.

(** The amount of a normal return is the smaller of the request and the
    capacity, when new cells have a positive stack size. *)
Lemma add_post_amount self item q mss added self' :
  wf self → 1 ≤ default (default_max_stack_size self) mss →
  add_post self item q mss (Ok added) self' →
  added = Z.min q (capacity item (default (default_max_stack_size self) mss) self) ∧
  capacity item (default (default_max_stack_size self) mss) self' =
    capacity item (default (default_max_stack_size self) mss) self - added.
Proof.
  intros (Hwf & Hlen & Hd) Hs
    (_ & Hmax & _ & (Hwf' & Hlen' & _) & Hadds & Hr & Hfull & _).
  pose proof (adds_slack _ _ _ _ _ Hadds) as Hsl.
  pose proof (free_nonneg item _ Hwf').
  rewrite /capacity Hmax. rewrite /slack in Hsl. rewrite Hmax in Hlen'.
  split; [|lia]. destruct (decide (added < q)) as [Hlt|]; [|nia].
  destruct (Hfull Hlt) as [Hfree Hfill]. rewrite Hfree in Hsl. nia.
Qed.

End add_item.

(** ** The properties of [add_item] *)

Section theorems.
Implicit Types (self : t) (item other : string) (q : Z) (mss : option Z).

Lemma add_item_nonpos self item q mss :
  q ≤ 0 → add_item self item q mss = Some (Ok 0, self).
Proof. intros. by rewrite /add_item /add_item_fuel bool_decide_eq_true_2. Qed.

Lemma add_item_fuel_mono n m self item q mss res :
  add_item_fuel n self item q mss = Some res → (n ≤ m)%nat →
  add_item_fuel m self item q mss = Some res.
Proof.
  rewrite /add_item_fuel. case_bool_decide; [done|].
  destruct (add_item_fill item (cells self) q) as [[l1 r1] [|]]; [done|].
  destruct (loop _ n _) as [res'|] eqn:Hn; [|done].
  intros ? Hle. by rewrite (loop_fuel_mono _ n m _ res' Hn Hle).
Qed.

Lemma add_item_post self item q mss :
  wf self → 0 < q →
  ∃ out self',
    add_item self item q mss = Some (out, self') ∧ add_post self item q mss out self'.
Proof. intros. by apply add_item_fuel_post. Qed.

(** The counts after a call, from the relation [adds]. *)
Lemma adds_get_item_count item s d self self' :
  adds item s d (cells self) (cells self') →
  get_item_count self' item = get_item_count self item + d ∧
  ∀ other, other ≠ item → get_item_count self' other = get_item_count self other.
Proof.
  intros [_ Hc Ho _]. rewrite !get_item_count_count. split; [done|].
  intros other ?. rewrite !get_item_count_count. by apply Ho.
Qed.

(** C1. [add_item] on a well-formed inventory, for a positive quantity and
    a positive stack size for new cells, returns normally; the amount it
    returns is the smaller of the quantity asked and the capacity of the
    inventory for the item (the room of its empty cells and of the cells
    holding the item, and that of the cells it may still append); the
    capacity shrinks by that amount, and the inventory stays well-formed with
    the same [max_cells]. *)
Theorem add_item_spec self item q mss :
  let s := default (default_max_stack_size self) mss in
  wf self → 0 < q → 1 ≤ s →
  ∃ self',
    add_item self item q mss = Some (Ok (Z.min q (capacity item s self)), self') ∧
    capacity item s self' = capacity item s self - Z.min q (capacity item s self) ∧
    max_cells self' = max_cells self ∧
    default_max_stack_size self' = default_max_stack_size self ∧
    wf self'.
Proof.
  intros s Hwf Hq Hs. destruct (add_item_post self item q mss Hwf Hq)
    as (out & self' & Heq & Hpost).
  destruct out as [added|e]; [|destruct Hpost as (_ & _ & _ & _ & ? & _); lia].
  destruct (add_post_amount self item q mss added self' Hwf Hs Hpost) as [-> Hcap].
  destruct Hpost as (_ & ? & ? & ? & _). by exists self'.
Qed.

(** C3. The counts after [add_item]: for every outcome of a call with a
    positive quantity on a well-formed inventory, the count of the item grew
    by the amount returned, or in case of an exception by all the room the
    existing cells had, and the count of every other item is unchanged. *)
Theorem add_item_counts self item q mss :
  wf self → 0 < q →
  ∃ out self',
    add_item self item q mss = Some (out, self') ∧
    get_item_count self' item =
      get_item_count self item +
      match out with Ok added => added | Raise _ => free item (cells self) end ∧
    ∀ other, other ≠ item → get_item_count self' other = get_item_count self other.
Proof.
  intros Hwf Hq. destruct (add_item_post self item q mss Hwf Hq)
    as (out & self' & Heq & _ & _ & _ & _ & Hpost).
  exists out, self'. split; [done|].
  destruct out; [destruct Hpost as (Hadds & _)|destruct Hpost as (_ & _ & Hadds & _)];
    by eapply adds_get_item_count.
Qed.

(** C2. Termination of the [while] loop: on a well-formed inventory
    [add_item] returns for every argument, and the fuel it gives its loop is
    enough: any larger fuel gives the same result. *)
Theorem add_item_terminates self item q mss fuel :
  wf self → (add_item_bound self ≤ fuel)%nat →
  is_Some (add_item self item q mss) ∧
  add_item_fuel fuel self item q mss = add_item self item q mss.
Proof.
  intros Hwf Hfuel. destruct (decide (0 < q)) as [Hq|Hq].
  - destruct (add_item_post self item q mss Hwf Hq) as (out & self' & Heq & _).
    rewrite Heq. split; [done|]. by eapply add_item_fuel_mono.
  - rewrite /add_item /add_item_fuel !bool_decide_eq_true_2; [lia..|done].
Qed.

(** C10. The error path: when the stack size asked for new cells is below
    one, the existing cells cannot take the whole quantity, and a cell could
    be appended, [add_item] raises the [ValidationError] of the cell
    constructor, after the existing cells have taken all they could: the
    call is not atomic. *)
Theorem add_item_raises self item q s :
  wf self → 0 < q → s < 1 →
  free item (cells self) < q → len (cells self) < max_cells self →
  ∃ self',
    add_item self item q (Some s) =
      Some (Raise (ValidationError
              [ErrorDetails "max_stack_size" (greater_than_equal 1)]), self') ∧
    get_item_count self' item = get_item_count self item + free item (cells self) ∧
    length (cells self') = length (cells self).
Proof.
  intros Hwf Hq Hs Hfree Hlen.
  destruct (add_item_post self item q (Some s) Hwf Hq) as (out & self' & Heq & Hpost).
  destruct Hpost as (_ & Hmax & _ & (Hwf' & _) & Hpost). simpl in Hpost.
  destruct out as [added|e].
  - destruct Hpost as (Hadds & Hr & Hfull & Hsame). exfalso.
    pose proof (adds_slack _ _ _ _ _ Hadds) as Hsl.
    pose proof (free_nonneg item _ Hwf').
    rewrite /slack /len Hsame // in Hsl.
    destruct (decide (added < q)) as [Hlt|]; [|lia].
    destruct (Hfull Hlt) as [_ Hfill]. rewrite /len Hsame // in Hfill.
    rewrite /len in Hlen. lia.
  - destruct Hpost as (_ & -> & Hadds & _ & Hsame & _). exists self'.
    split_and!; [done| |done]. by eapply adds_get_item_count.
Qed.

(** C11. Every call of [add_item] on a well-formed inventory, whatever its
    arguments and whether it returns or raises, leaves a well-formed
    inventory with the same [max_cells] and [default_max_stack_size]. *)
Theorem add_item_wf self item q mss :
  wf self →
  ∃ out self',
    add_item self item q mss = Some (out, self') ∧
    wf self' ∧ max_cells self' = max_cells self ∧
    default_max_stack_size self' = default_max_stack_size self.
Proof.
  intros Hwf. destruct (decide (0 < q)) as [Hq|Hq].
  - destruct (add_item_post self item q mss Hwf Hq)
      as (out & self' & Heq & _ & ? & ? & ? & _). by exists out, self'.
  - exists (Ok 0), self. by rewrite add_item_nonpos; [lia|].
Qed.

(** C27. Adding [a] then [b] of an item adds in total what adding [a + b]
    at once adds, and leaves the same count of the item, whether or not the
    capacity is exceeded. *)
Theorem add_item_split self item a b mss :
  wf self → 0 < a → 0 < b → 1 ≤ default (default_max_stack_size self) mss →
  ∃ r1 r2 r12 self1 self2 self12,
    add_item self item a mss = Some (Ok r1, self1) ∧
    add_item self1 item b mss = Some (Ok r2, self2) ∧
    add_item self item (a + b) mss = Some (Ok r12, self12) ∧
    r1 + r2 = r12 ∧
    get_item_count self2 item = get_item_count self12 item.
Proof.
  intros Hwf Ha Hb Hs.
  destruct (add_item_post self item a mss Hwf Ha) as ([r1|] & self1 & E1 & P1);
    [|destruct P1 as (_ & _ & _ & _ & ? & _); lia].
  destruct (add_post_amount _ _ _ _ _ _ Hwf Hs P1) as [Hr1 Hc1].
  destruct P1 as (_ & Hm1 & Hd1 & Hwf1 & Hadds1 & _).
  rewrite -Hd1 in Hs.
  destruct (add_item_post self1 item b mss Hwf1 Hb) as ([r2|] & self2 & E2 & P2);
    [|destruct P2 as (_ & _ & _ & _ & ? & _); lia].
  destruct (add_post_amount _ _ _ _ _ _ Hwf1 Hs P2) as [Hr2 _].
  destruct P2 as (_ & _ & _ & _ & Hadds2 & _).
  rewrite Hd1 in Hs, Hr2, Hadds2, Hc1.
  destruct (add_item_post self item (a + b) mss Hwf ltac:(lia))
    as ([r12|] & self12 & E12 & P12); [|destruct P12 as (_ & _ & _ & _ & ? & _); lia].
  destruct (add_post_amount _ _ _ _ _ _ Hwf Hs P12) as [Hr12 _].
  destruct P12 as (_ & _ & _ & _ & Hadds12 & _).
  exists r1, r2, r12, self1, self2, self12. split_and!; [done..|lia|].
  apply adds_get_item_count in Hadds1 as [H1 _], Hadds2 as [H2 _], Hadds12 as [H12 _].
  lia.
Qed.

(** *** The properties at concrete inventories *)

Lemma add_item_spec_witness :
  ∃ self',
    add_item satchel "potion" 12 None = Some (Ok (Z.min 12 (capacity "potion" 5 satchel)), self') ∧
    capacity "potion" 5 self' = capacity "potion" 5 satchel - Z.min 12 (capacity "potion" 5 satchel) ∧
    max_cells self' = max_cells satchel ∧
    default_max_stack_size self' = default_max_stack_size satchel ∧
    wf self'.
Proof.
  exact (add_item_spec satchel "potion" 12 None ltac:(by_decide) ltac:(lia) ltac:(by vm_compute)).
Defined.

Lemma add_item_counts_witness :
  ∃ out self',
    add_item satchel "potion" 12 (Some 0) = Some (out, self') ∧
    get_item_count self' "potion" =
      get_item_count satchel "potion" +
      match out with Ok added => added | Raise _ => free "potion" (cells satchel) end ∧
    ∀ other, other ≠ "potion" → get_item_count self' other = get_item_count satchel other.
Proof. exact (add_item_counts satchel "potion" 12 (Some 0) ltac:(by_decide) ltac:(lia)). Defined.

Lemma add_item_terminates_witness :
  is_Some (add_item satchel "potion" 12 None) ∧
  add_item_fuel 50 satchel "potion" 12 None = add_item satchel "potion" 12 None.
Proof.
  exact (add_item_terminates satchel "potion" 12 None 50 ltac:(by_decide) ltac:(vm_compute; lia)).
Defined.

Lemma add_item_raises_witness :
  ∃ self',
    add_item satchel "potion" 12 (Some 0) =
      Some (Raise (ValidationError
              [ErrorDetails "max_stack_size" (greater_than_equal 1)]), self') ∧
    get_item_count self' "potion" = get_item_count satchel "potion" + free "potion" (cells satchel) ∧
    length (cells self') = length (cells satchel).
Proof.
  exact (add_item_raises satchel "potion" 12 0 ltac:(by_decide) ltac:(lia) ltac:(lia)
           ltac:(by vm_compute) ltac:(by vm_compute)).
Defined.

Lemma add_item_wf_witness :
  ∃ out self',
    add_item satchel "sword" 4 (Some (-2)) = Some (out, self') ∧
    wf self' ∧ max_cells self' = max_cells satchel ∧
    default_max_stack_size self' = default_max_stack_size satchel.
Proof. exact (add_item_wf satchel "sword" 4 (Some (-2)) ltac:(by_decide)). Defined.

Lemma add_item_split_witness :
  ∃ r1 r2 r12 self1 self2 self12,
    add_item satchel "potion" 4 None = Some (Ok r1, self1) ∧
    add_item self1 "potion" 9 None = Some (Ok r2, self2) ∧
    add_item satchel "potion" (4 + 9) None = Some (Ok r12, self12) ∧
    r1 + r2 = r12 ∧
    get_item_count self2 "potion" = get_item_count self12 "potion".
Proof.
  exact (add_item_split satchel "potion" 4 9 None ltac:(by_decide) ltac:(lia) ltac:(lia)
           ltac:(by vm_compute)).
Defined.

(** Scenario 2 of the specification: two cells of five fill an inventory
    of two cells; a third call adds nothing and changes nothing. *)
Example scenario_2 :
  let full := mk INVENTORY [Cell.mk INVENTORY (Some "potion") 5 5 None false;
                            Cell.mk INVENTORY (Some "potion") 5 5 None false] 2 5 in
  (s1 ← add_item empty2 "potion" 5 None;
   s2 ← add_item s1.2 "potion" 5 None;
   s3 ← add_item s2.2 "potion" 3 None;
   Some (s1.1, s2.1, s3.1, s2.2, s3.2)) = Some (Ok 5, Ok 5, Ok 0, full, full) ∧
  is_full full = true.
Proof. by vm_compute. Qed.

(** The first-fit order of the two passes: cells that hold the item first,
    then the empty cells in order, then new cells. *)
Example add_item_first_fit :
  let self := mk INVENTORY [Cell.mk INVENTORY None 0 2 None false;
                            Cell.mk INVENTORY (Some "potion") 1 3 None false] 3 5 in
  add_item self "potion" 6 (Some 4) =
    Some (Ok 6, mk INVENTORY [Cell.mk INVENTORY (Some "potion") 2 2 None false;
                              Cell.mk INVENTORY (Some "potion") 3 3 None false;
                              Cell.mk INVENTORY (Some "potion") 2 4 None false] 3 5).
Proof. by vm_compute. Qed.

End theorems.

(** ** Outside the invariant: the loop that does not end *)

Section divergence.
Implicit Types (self : t) (item : string) (q r : Z) (l : list cell) (c : cell).

(** An empty cell that can take nothing. *)
Definition dead c : Prop :=
  is_empty c = true ∧ Cell.max_stack_size c = 0 ∧ quantity c = 0.

Lemma add_item_fill_none item l q :
  Forall (λ c, holds item c = false) l → add_item_fill item l q = (l, q, false).
Proof. induction 1 as [|c l Hc _ IH]; [done|]. by rewrite /= Hc IH. Qed.

Lemma add_items_dead item c r :
  0 < r → dead c → (add_items c item r).1 = 0 ∧ dead (add_items c item r).2.
Proof.
  intros Hr (He & Hm & Hq). rewrite /InventoryCellComponent.add_items He /=.
  rewrite bool_decide_eq_false_2; [lia|]. rewrite Hm Hq /=.
  replace (Z.min r (0 - 0)) with 0 by lia.
  by rewrite /dead /InventoryCellComponent.is_empty /= Hm.
Qed.

Lemma find_empty_cell_insert l i c c' :
  find_empty_cell l = Some (i, c) → is_empty c' = true →
  find_empty_cell (<[i := c']> l) = Some (i, c').
Proof.
  rewrite /find_empty_cell. intros (Hi & _ & Hleast)%list_find_Some He.
  apply list_find_insert_Some. right; left.
  split_and!; [done..|by eapply lookup_lt_Some|done|done].
Qed.

Lemma add_item_overflow_dead item mss max_cells dmss l r :
  (0 < r ∧ ∃ i c, find_empty_cell l = Some (i, c) ∧ dead c) →
  ∃ st, add_item_overflow item mss max_cells dmss (l, r) = inl st ∧
        (0 < st.2 ∧ ∃ i c, find_empty_cell st.1 = Some (i, c) ∧ dead c).
Proof.
  intros (Hr & i & c & Hfind & Hdead).
  rewrite /add_item_overflow bool_decide_eq_true_2; [lia|]. rewrite Hfind.
  destruct (add_items_dead item c r Hr Hdead) as [Hadd Hdead'].
  destruct (add_items c item r) as [added c']. simpl in *. subst added.
  eexists. split; [done|]. simpl. split; [lia|]. exists i, c'. split; [|done].
  apply (find_empty_cell_insert l i c); [done|]. by destruct Hdead'.
Qed.

(** C33. An inventory outside the invariant: when no cell holds the item and the
    first empty cell has stack size zero, the [while] loop of [add_item]
    finds that cell in every iteration, adds nothing to it, and never ends:
    no fuel gives a result. *)
Theorem add_item_diverges self item q mss i c fuel :
  0 < q → Forall (λ c, holds item c = false) (cells self) →
  find_empty_cell (cells self) = Some (i, c) →
  Cell.max_stack_size c = 0 → quantity c = 0 →
  add_item_fuel fuel self item q mss = None.
Proof.
  intros Hq Hnone Hfind Hm Hz.
  rewrite /add_item_fuel bool_decide_eq_false_2; [lia|].
  rewrite add_item_fill_none //.
  rewrite (loop_diverges _ (λ st, 0 < st.2 ∧ ∃ i c, find_empty_cell st.1 = Some (i, c) ∧ dead c)) //.
  - intros [l r]. apply add_item_overflow_dead.
  - split; [done|]. exists i, c. split; [done|]. split_and!; [|done..].
    by apply list_find_Some in Hfind as (_ & ? & _).
Qed.

Definition stuck : t :=
  mk INVENTORY [Cell.mk INVENTORY None 0 0 None false] 10 1.

Lemma add_item_diverges_witness : add_item_fuel 1000 stuck "sword" 1 None = None.
Proof.
  exact (add_item_diverges stuck "sword" 1 None 0%nat
           (Cell.mk INVENTORY None 0 0 None false) 1000%nat
           ltac:(lia) ltac:(by repeat constructor) ltac:(by vm_compute)
           ltac:(done) ltac:(done)).
Defined.

End divergence.
