(* ===== verification/Serialization.v ===== *)
(** * Serialization: the round trip through [model_dump] and [model_validate]

    Every component is saved with [model_dump] and loaded with
    [model_validate] (or the constructor applied to the dict); both are
    Pydantic's.  [model_dump] gives the dict of the declared fields, with the
    instances nested in a list dumped in turn; a dict of the fields is
    represented here by the record of their values.  [model_validate] applied
    to such a dict is the constructor with every field given: the field
    constraints and validators run in declaration order, then the
    after-validators; a nested dict is validated as its own model.

    The specification asks that the instance loaded from a dump be equal,
    field by field, to the instance dumped.  This file proves for which
    instances it is. *)

Set Warnings "-rewrite-rw".
From S2P Require Import Prelude Model Numeric Stat Stats Cell Inventory InventorySpec.

(** Validation of the elements of a list, in order; the first failure is the
    failure of the list. *)
Fixpoint validate_all {A B} (f : A → outcome exn B) (l : list A) : outcome exn (list B) :=
  match l with
  | [] => Ok []
  | x :: l =>
      match f x with
      | Ok y => cons y <$> validate_all f l
      | Raise e => Raise e
      end
  end.

Module StatSerial.
Import StatComponent.

Section defs.
Context `{Num V}.

(** [StatComponent.model_validate(d)] for the dict [d] of the fields. *)
Definition model_validate (d : t V) : outcome exn (t V) :=
  match __init__ (Some (name d)) (Some (base_value d)) (Some (current_value d))
          (min_value d) (max_value d) (Some (description d)) with
  | Ok self =>
      Ok (mk (component_type d) (name self) (base_value self) (current_value self)
             (min_value self) (max_value self) (description self))
  | Raise e => Raise e
  end.

End defs.
End StatSerial.

Module CellSerial.
Import InventoryCellComponent.

(** [InventoryCellComponent.model_validate(d)] for the dict [d] of the
    fields. *)
Definition model_validate (d : t) : outcome exn t :=
  match __init__ (item_id d) (Some (quantity d)) (Some (max_stack_size d))
          (slot_type d) (Some (is_equipped d)) with
  | Ok self =>
      Ok (mk (component_type d) (item_id self) (quantity self) (max_stack_size self)
             (slot_type self) (is_equipped self))
  | Raise e => Raise e
  end.

(** The cell a well-formed cell comes back as: at most one item. *)
Definition reloaded (self : t) : t := set_quantity (Z.min (quantity self) 1) self.

End CellSerial.

Module StatsSerial.
Import StatsComponent.

Section defs.
Context `{Num V}.

(** [StatsComponent.model_validate(d)]: each stat is validated as a
    [StatComponent], then the collection. *)
Definition model_validate (d : t V) : outcome exn (t V) :=
  match validate_all StatSerial.model_validate (stats d) with
  | Ok stats =>
      match __init__ (Some stats) (max_stats d) with
      | Ok self => Ok (mk (component_type d) (StatsComponent.stats self) (max_stats self))
      | Raise e => Raise e
      end
  | Raise e => Raise e
  end.

End defs.
End StatsSerial.

Module InventorySerial.
Import InventoryComponent.

(** [InventoryComponent.model_validate(d)]: each cell is validated as an
    [InventoryCellComponent], then the inventory. *)
Definition model_validate (d : t) : outcome exn t :=
  match validate_all CellSerial.model_validate (cells d) with
  | Ok cells =>
      match __init__ (Some cells) (Some (max_cells d)) (Some (default_max_stack_size d)) with
      | Ok self =>
          Ok (mk (component_type d) (InventoryComponent.cells self) (max_cells self)
                 (default_max_stack_size self))
      | Raise e => Raise e
      end
  | Raise e => Raise e
  end.

End InventorySerial.

(** ** Round trips *)

Section validate_all.
Context {A B : Type} (f : A → outcome exn B).

Lemma validate_all_fmap (g : A → B) l :
  Forall (λ x, f x = Ok (g x)) l → validate_all f l = Ok (g <$> l).
Proof. induction 1 as [|x l Hx _ IH]; [done|]. by rewrite /= Hx IH. Qed.

End validate_all.

Section stat.
Context `{Num V}.

(** A stat comes back as it was, whatever its values and bounds: the
    constructor clamps nothing. *)
Lemma stat_roundtrip (self : StatComponent.t V) : StatSerial.model_validate self = Ok self.
Proof. rewrite /StatSerial.model_validate StatComponent.init_eq /=. by destruct self. Qed.

(** C25. The round trip of a collection of stats: a collection within its
    capacity that is dumped and loaded comes back as it was, every stat with
    its values and bounds, whether or not the values are within the
    bounds. *)
Theorem stats_roundtrip (self : StatsComponent.t V) :
  match StatsComponent.max_stats self with
  | Some m => 1 ≤ m ∧ len (StatsComponent.stats self) ≤ m
  | None => True
  end →
  StatsSerial.model_validate self = Ok self.
Proof.
  intros Hcap. rewrite /StatsSerial.model_validate (validate_all_fmap _ id).
  { apply Forall_true. intros s. apply stat_roundtrip. }
  rewrite list_fmap_id StatsComponent.init_fits //. by destruct self.
Qed.

End stat.

Lemma stats_roundtrip_witness :
  StatsSerial.model_validate StatsComponent.party = Ok StatsComponent.party.
Proof. exact (stats_roundtrip StatsComponent.party ltac:(by vm_compute)). Defined.

Section cell.
Import InventoryCellComponent.
Implicit Types (self : t).

Lemma cell_model_validate self :
  wf self → CellSerial.model_validate self = Ok (CellSerial.reloaded self).
Proof.
  intros (Hm & Hq & Hiff). rewrite /CellSerial.model_validate /__init__ /from_option.
  rewrite !check_ge_ok //=; [lia|]. rewrite validate_quantity_init.
  rewrite /validate_item_id_and_quantity /CellSerial.reloaded /=.
  destruct self as [ct [i|] q m st eq]; simpl in *; repeat case_bool_decide;
    try (f_equal; f_equal; lia); destruct Hiff as [H1 H2]; try (specialize (H2 eq_refl));
    try lia; assert (q = 0) as -> by lia; by specialize (H1 eq_refl).
Qed.

(** C24. The round trip of a cell: a well-formed cell that is dumped and
    loaded comes back with at most one item, because the quantity is
    validated against the default stack size; it comes back as it was exactly
    when it holds at most one item. *)
Theorem cell_roundtrip self :
  wf self →
  CellSerial.model_validate self = Ok (set_quantity (Z.min (quantity self) 1) self) ∧
  (CellSerial.model_validate self = Ok self ↔ quantity self ≤ 1).
Proof.
  intros Hwf. rewrite cell_model_validate //. split; [done|].
  rewrite /CellSerial.reloaded. destruct self as [ct i q m st eq]. rewrite /set_quantity /=.
  split; [intros [= Hq]; lia|]. intros. do 2 f_equal. simpl in *. lia.
Qed.

Lemma cell_roundtrip_witness :
  CellSerial.model_validate potion3 =
    Ok (set_quantity (Z.min (quantity potion3) 1) potion3) ∧
  (CellSerial.model_validate potion3 = Ok potion3 ↔ quantity potion3 ≤ 1).
Proof. exact (cell_roundtrip potion3 ltac:(by vm_compute)). Defined.

End cell.

Section inventory.
Import InventoryComponent.
Implicit Types (self : t).

Lemma reloaded_held item c :
  Cell.wf c → Cell.held item (CellSerial.reloaded c) = Z.min (Cell.held item c) 1.
Proof.
  intros (Hm & Hq & Hiff). rewrite /Cell.held /Cell.is_empty /CellSerial.reloaded /=.
  repeat case_bool_decide; try lia; tauto.
Qed.

(** C23. The round trip of an inventory: a well-formed inventory that is
    dumped and loaded keeps its cells and their items, but every stack comes
    back as one item: the count of an item after the round trip is the number
    of cells that held it. *)
Theorem inventory_roundtrip self :
  wf self → 1 ≤ max_cells self →
  InventorySerial.model_validate self =
    Ok (set_cells (CellSerial.reloaded <$> cells self) self) ∧
  ∀ item, get_item_count (set_cells (CellSerial.reloaded <$> cells self) self) item =
          sumZ (λ c, Z.min (Cell.held item c) 1) (cells self).
Proof.
  intros (Hwf & Hlen & Hd) Hmax. split.
  - rewrite /InventorySerial.model_validate (validate_all_fmap _ CellSerial.reloaded).
    { eapply Forall_impl; [done|]. apply cell_model_validate. }
    rewrite init_ok // /validate_cells_count /= bool_decide_eq_false_2; [|by destruct self].
    rewrite /len length_fmap. rewrite /len in Hlen. lia.
  - intros item. rewrite get_item_count_count /count /= sumZ_fmap. apply sumZ_ext.
    eapply Forall_impl; [done|]. intros c Hc. by apply reloaded_held.
Qed.

Lemma inventory_roundtrip_witness :
  InventorySerial.model_validate satchel =
    Ok (set_cells (CellSerial.reloaded <$> cells satchel) satchel) ∧
  ∀ item, get_item_count (set_cells (CellSerial.reloaded <$> cells satchel) satchel) item =
          sumZ (λ c, Z.min (Cell.held item c) 1) (cells satchel).
Proof. exact (inventory_roundtrip satchel ltac:(by_decide) ltac:(by vm_compute)). Defined.

(** Two potions saved, one potion loaded. *)
Example roundtrip_loses_items :
  get_item_count satchel "potion" = 2 ∧
  (self ← InventorySerial.model_validate satchel; Ok (get_item_count self "potion")) = Ok 1.
Proof. by vm_compute. Qed.

End inventory.
