(* ===== verification/InventoryMachine.v ===== *)
(** * InventoryComponent: sequences of calls, and the bag they implement

    A program that uses an inventory makes a sequence of calls of
    [add_item], [remove_item] and [clear_all], and may catch the exception of
    a call and go on.  [run] makes such a sequence of calls on the model and
    collects what each call answered.

    What the inventory promises its callers does not mention cells: it is a
    bag of items, observed through [get_item_count].  [bag_step] is that
    contract, a relation between the counts before a call, the call, its
    answer, and the counts after.  The refinement theorem says that every
    sequence of calls on a well-formed inventory runs to its end and is a
    sequence of steps of the bag; the conservation law of the last section is
    proved of the bag alone. *)

Set Warnings "-rewrite-rw".
From Stdlib Require Import Morphisms.
From S2P Require Import Prelude Model Cell Inventory InventorySpec InventoryAdd.

Import InventoryComponent.

(** ** Calls and their answers *)

Inductive op : Type :=
| AddItem (item : string) (quantity : Z) (max_stack_size : option Z)
| RemoveItem (item : string) (quantity : Z)
| ClearAll.

(** What a call answers: an [int], or [None] for [clear_all]; or the
    exception it raised. *)
Definition answer : Type := outcome exn (option Z).

(** One call.  [None] when the loop of [add_item] runs out of fuel. *)
Definition step (self : t) (o : op) : option (answer * t) :=
  match o with
  | AddItem item quantity max_stack_size =>
      match add_item self item quantity max_stack_size with
      | Some (r, self') => Some (Some <$> r, self')
      | None => None
      end
  | RemoveItem item quantity =>
      let '(r, self') := remove_item self item quantity in
      Some (Ok (Some r), self')
  | ClearAll =>
      let '(r, self') := clear_all self in
      Some ((λ _, @None Z) <$> r, self')
  end.

(** A sequence of calls, each on the inventory the one before left. *)
Fixpoint run (self : t) (ops : list op) : option (list answer * t) :=
  match ops with
  | [] => Some ([], self)
  | o :: ops =>
      match step self o with
      | Some (r, self') =>
          match run self' ops with
          | Some (rs, self'') => Some (r :: rs, self'')
          | None => None
          end
      | None => None
      end
  end.

(** ** The bag *)

(** The counts of a bag: how many of each item. *)
Definition bag : Type := string → Z.

(** Two bags are the same when they count every item the same. *)
#[export] Instance bag_equiv : Equiv bag := pointwise_relation string (=).

(** The bag an inventory holds. *)
Definition counts (self : t) : bag := get_item_count self.

(** [b] with [d] more of [item]. *)
Definition bag_add (item : string) (d : Z) (b : bag) : bag :=
  λ x, if bool_decide (x = item) then b x + d else b x.

Definition bag_empty : bag := λ _, 0.

(** The contract of the three methods.  An addition adds up to the
    quantity asked and answers how much; when it raises it may have added
    some.  A removal removes what is asked or all there is, and answers how
    much.  States are compared item by item. *)
Inductive bag_step (b : bag) : op → answer → bag → Prop :=
| BagAdd item q mss d b' :
    0 ≤ d ≤ Z.max 0 q → b' ≡ bag_add item d b →
    bag_step b (AddItem item q mss) (Ok (Some d)) b'
| BagAddRaise item q s d e b' :
    s < 1 → 0 ≤ d < q → b' ≡ bag_add item d b →
    bag_step b (AddItem item q (Some s)) (Raise e) b'
| BagRemove item q b' :
    b' ≡ bag_add item (- Z.min (Z.max 0 q) (b item)) b →
    bag_step b (RemoveItem item q) (Ok (Some (Z.min (Z.max 0 q) (b item)))) b'
| BagClear b' :
    b' ≡ bag_empty → bag_step b ClearAll (Ok None) b'.

Inductive bag_run : bag → list op → list answer → bag → Prop :=
| BagNil b b' : b' ≡ b → bag_run b [] [] b'
| BagCons b o r b1 ops rs b2 :
    bag_step b o r b1 → bag_run b1 ops rs b2 → bag_run b (o :: ops) (r :: rs) b2.

(** What the answers of a sequence of calls say was added of an item, less
    what they say was removed. *)
Fixpoint net (item : string) (ops : list op) (rs : list answer) : Z :=
  match ops, rs with
  | AddItem item' _ _ :: ops, Ok (Some d) :: rs =>
      (if bool_decide (item' = item) then d else 0) + net item ops rs
  | RemoveItem item' _ :: ops, Ok (Some d) :: rs =>
      net item ops rs - (if bool_decide (item' = item) then d else 0)
  | _ :: ops, _ :: rs => net item ops rs
  | _, _ => 0
  end.

(** The calls of a sequence that are sure to keep what was there: no
    [clear_all], and no addition with a stack size that the cell constructor
    rejects. *)
Definition keeps (o : op) : bool :=
  match o with
  | AddItem _ _ (Some s) => bool_decide (1 ≤ s)
  | AddItem _ _ None | RemoveItem _ _ => true
  | ClearAll => false
  end.

(** ** Bags *)

Section bags.
Implicit Types (b : bag) (item : string) (d : Z).

#[export] Instance bag_equivalence : Equivalence (≡@{bag}).
Proof. rewrite /equiv /bag_equiv. apply _. Qed.

#[export] Instance bag_add_proper item d : Proper ((≡) ==> (≡)) (bag_add item d).
Proof. intros b b' Hb x. rewrite /bag_add. by rewrite (Hb x). Qed.

Lemma bag_add_0 item b : bag_add item 0 b ≡ b.
Proof. intros x. rewrite /bag_add. case_bool_decide; lia. Qed.

Lemma bag_add_same item d b : bag_add item d b item = b item + d.
Proof. by rewrite /bag_add bool_decide_eq_true_2. Qed.

(** The final bag of a step or of a run is known up to [≡]. *)
Lemma bag_step_equiv b o r b1 b2 : bag_step b o r b1 → b1 ≡ b2 → bag_step b o r b2.
Proof. intros Hs Hb. inversion Hs; subst; econstructor; eauto; by rewrite -Hb. Qed.

Lemma bag_run_equiv b ops rs b1 b2 : bag_run b ops rs b1 → b1 ≡ b2 → bag_run b ops rs b2.
Proof.
  intros Hr Hb. induction Hr; [constructor; by rewrite -Hb|econstructor; eauto].
Qed.

#[export] Instance bag_step_proper b o r : Proper ((≡) ==> iff) (bag_step b o r).
Proof. intros b1 b2 Hb. split; intros Hs; eapply bag_step_equiv; eauto. Qed.

#[export] Instance bag_run_proper b ops rs : Proper ((≡) ==> iff) (bag_run b ops rs).
Proof. intros b1 b2 Hb. split; intros Hs; eapply bag_run_equiv; eauto. Qed.

(** One step of the bag on the count of an item. *)
Lemma bag_step_net b o r b' item :
  bag_step b o r b' → keeps o = true → b' item = b item + net item [o] [r].
Proof.
  intros Hs Hk. inversion Hs as [i q mss d ? Hd Hb|i q s d e ? Hlt|i q ? Hb|]; subst;
    simpl in *; try done.
  - rewrite (Hb item) /bag_add. rewrite (bool_decide_ext (item = i) (i = item)) //.
    case_bool_decide; lia.
  - apply bool_decide_eq_true in Hk. lia.
  - rewrite (Hb item) /bag_add. rewrite (bool_decide_ext (item = i) (i = item)) //.
    case_bool_decide; subst; lia.
Qed.

Lemma net_cons item o r ops rs :
  net item (o :: ops) (r :: rs) = net item [o] [r] + net item ops rs.
Proof. destruct o, r as [[d|]|]; simpl; lia. Qed.

(** The conservation law of the bag: over calls that keep what is there,
    the count of an item moves by what the answers say. *)
Lemma bag_run_net b ops rs b' item :
  bag_run b ops rs b' → forallb keeps ops = true →
  b' item = b item + net item ops rs.
Proof.
  induction 1 as [b b' Hb|b o r b1 ops rs b2 Hs _ IH]; intros Hk.
  - rewrite (Hb item) /=. lia.
  - simpl in Hk. apply andb_true_iff in Hk as [Ho Hk].
    rewrite net_cons IH // (bag_step_net b o r b1) //. lia.
Qed.

End bags.

(** ** The inventory implements the bag *)

Section refinement.
Implicit Types (self : t) (item : string) (q : Z) (o : op) (ops : list op).

Lemma counts_nonneg self item : wf self → 0 ≤ counts self item.
Proof. apply get_item_count_nonneg. Qed.

(** The counts after a change of the cells that [adds] describes. *)
Lemma counts_adds item s d self self' :
  adds item s d (cells self) (cells self') → counts self' ≡ bag_add item d (counts self).
Proof.
  intros [Hc Ho]%adds_get_item_count x. rewrite /counts /bag_add.
  case_bool_decide as Hx; [by subst|by apply Ho].
Qed.

Lemma step_add_item self item q mss :
  wf self →
  ∃ r self', step self (AddItem item q mss) = Some (r, self') ∧
    wf self' ∧ max_cells self' = max_cells self ∧
    bag_step (counts self) (AddItem item q mss) r (counts self').
Proof.
  intros Hwf. destruct (decide (0 < q)) as [Hq|Hq]; last first.
  { rewrite /step add_item_nonpos; [lia|]. eexists _, _. split_and!; [done..|].
    apply BagAdd; [lia|]. by rewrite bag_add_0. }
  destruct (add_item_post self item q mss Hwf Hq)
    as (out & self' & Heq & _ & Hmax & _ & Hwf' & Hout).
  rewrite /step Heq. eexists _, _. split_and!; [done..|].
  destruct out as [added|e]; simpl.
  - destruct Hout as (Hadds & Hr & _). apply BagAdd; [lia|]. by eapply counts_adds.
  - destruct Hout as (Hs & _ & Hadds & Hlt & _).
    destruct mss as [s|]; simpl in Hs; [|destruct Hwf as (_ & _ & ?); lia].
    eapply BagAddRaise; [done| |by eapply counts_adds].
    split; [|done]. apply free_nonneg, Hwf.
Qed.

Lemma step_remove_item self item q :
  wf self →
  ∃ r self', step self (RemoveItem item q) = Some (r, self') ∧
    wf self' ∧ max_cells self' = max_cells self ∧
    bag_step (counts self) (RemoveItem item q) r (counts self').
Proof.
  intros Hwf. destruct (remove_item_wf self item q Hwf) as [Hwf' Hmax].
  pose proof (counts_nonneg self item Hwf) as Hnn.
  assert ((remove_item self item q).1 = Z.min (Z.max 0 q) (counts self item) ∧
          counts (remove_item self item q).2 ≡
            bag_add item (- Z.min (Z.max 0 q) (counts self item)) (counts self))
    as [Hr Hb].
  { destruct (decide (0 < q)) as [Hq|Hq].
    - destruct (remove_item_post self item q Hwf Hq) as (Hr & [_ _ _ _ Hc Ho] & _).
      rewrite /counts !get_item_count_count in Hnn |- *. simpl in *.
      split; [lia|]. intros x. rewrite /bag_add !get_item_count_count.
      case_bool_decide; subst; [lia|by apply Ho].
    - rewrite remove_item_nonpos; [lia|]. simpl.
      replace (Z.min (Z.max 0 q) (counts self item)) with 0 by lia.
      split; [done|]. by rewrite bag_add_0. }
  rewrite /step. destruct (remove_item self item q) as [r self']. simpl in *.
  eexists _, _. split_and!; [done..|]. rewrite Hr. by apply BagRemove.
Qed.

Lemma step_clear_all self :
  wf self →
  ∃ r self', step self ClearAll = Some (r, self') ∧
    wf self' ∧ max_cells self' = max_cells self ∧
    bag_step (counts self) ClearAll r (counts self').
Proof.
  intros Hwf. rewrite /step clear_all_eq //. eexists _, _.
  split_and!; [done|by apply cleared_all_wf|done|]. apply BagClear.
  intros x. by rewrite /counts get_item_count_count /= count_cleared.
Qed.

(** Every call on a well-formed inventory returns or raises, leaves a
    well-formed inventory, and is a step of the bag. *)
Lemma step_refines self o :
  wf self →
  ∃ r self', step self o = Some (r, self') ∧
    wf self' ∧ max_cells self' = max_cells self ∧
    bag_step (counts self) o r (counts self').
Proof.
  destruct o; [apply step_add_item|apply step_remove_item|apply step_clear_all].
Qed.

Lemma run_cons self o ops r self' rs self'' :
  step self o = Some (r, self') → run self' ops = Some (rs, self'') →
  run self (o :: ops) = Some (r :: rs, self'').
Proof. intros Hs Hr. by rewrite /= Hs Hr. Qed.

(** C4. Refinement: every sequence of [add_item], [remove_item] and
    [clear_all] calls on a well-formed inventory runs to its end, whatever the
    arguments and with the calls that raise included; the inventory it leaves
    is well-formed with the same [max_cells], and the answers and the counts
    are those of a run of the bag. *)
Theorem run_refines ops self :
  wf self →
  ∃ rs self', run self ops = Some (rs, self') ∧
    wf self' ∧ max_cells self' = max_cells self ∧
    bag_run (counts self) ops rs (counts self').
Proof.
  revert self. induction ops as [|o ops IH]; intros self Hwf.
  { eexists _, _. split_and!; [done..|]. by constructor. }
  destruct (step_refines self o Hwf) as (r & self1 & Hs & Hwf1 & Hmax1 & Hb1).
  destruct (IH self1 Hwf1) as (rs & self2 & Hr & Hwf2 & Hmax2 & Hb2).
  exists (r :: rs), self2. split_and!; [by eapply run_cons|done|congruence|].
  by econstructor.
Qed.

(** C18. Conservation: over a sequence of calls without [clear_all] and
    without a stack size the cell constructor rejects, no call raises and
    the count of every item at the end is its count at the start, plus what
    the additions answered, less what the removals answered. *)
Theorem run_conservation ops self :
  wf self → forallb keeps ops = true →
  ∃ rs self', run self ops = Some (rs, self') ∧
    Forall (λ r, is_ok r = true) rs ∧
    ∀ item, get_item_count self' item = get_item_count self item + net item ops rs.
Proof.
  revert self. induction ops as [|o ops IH]; intros self Hwf Hk.
  { eexists _, _. split_and!; [done..|]. intros item. simpl. lia. }
  simpl in Hk. apply andb_true_iff in Hk as [Ho Hk].
  destruct (step_refines self o Hwf) as (r & self1 & Hs & Hwf1 & _ & Hb1).
  destruct (IH self1 Hwf1 Hk) as (rs & self2 & Hr & Hok & Hnet).
  exists (r :: rs), self2. split_and!; [by eapply run_cons| |].
  - constructor; [|done]. inversion Hb1; subst; try done.
    apply bool_decide_eq_true in Ho. lia.
  - intros item. rewrite Hnet net_cons.
    pose proof (bag_step_net _ _ _ _ item Hb1 Ho) as Hstep. rewrite /counts in Hstep. lia.
Qed.

End refinement.

(** ** The properties at a concrete inventory *)

Section examples.

(** A session on [satchel]: an addition that raises, additions within and
    beyond the capacity, removals beyond the stock, a clearing. *)
Definition session : list op :=
  [AddItem "gem" 2 (Some 0); AddItem "potion" 4 None; AddItem "arrow" 30 (Some 20);
   RemoveItem "potion" 10; RemoveItem "sword" 1; ClearAll; AddItem "gem" 2 None].

Lemma run_refines_witness :
  ∃ rs self', run satchel session = Some (rs, self') ∧
    wf self' ∧ max_cells self' = max_cells satchel ∧
    bag_run (counts satchel) session rs (counts self').
Proof. exact (run_refines session satchel ltac:(by_decide)). Defined.

Lemma run_conservation_witness :
  ∃ rs self', run satchel (take 4 (drop 1 session)) = Some (rs, self') ∧
    Forall (λ r, is_ok r = true) rs ∧
    ∀ item, get_item_count self' item =
            get_item_count satchel item + net item (take 4 (drop 1 session)) rs.
Proof.
  exact (run_conservation (take 4 (drop 1 session)) satchel ltac:(by_decide) ltac:(by vm_compute)).
Defined.

(** What the session answers, and the inventory it leaves. *)
Example run_session :
  run satchel session =
  Some ([Raise (ValidationError [ErrorDetails "max_stack_size" (greater_than_equal 1)]);
         Ok (Some 4); Ok (Some 0); Ok (Some 6); Ok (Some 1); Ok None; Ok (Some 2)],
        mk INVENTORY [Cell.mk INVENTORY (Some "gem") 2 5 None false;
                      Cell.mk INVENTORY None 0 1 None false;
                      Cell.mk INVENTORY None 0 5 None false] 3 5).
Proof. by vm_compute. Qed.

End examples.
