(* ===== verification/Tests.v ===== *)
(** * The test suite, replayed on the model

    The cases of [src/tests/test_components.py] that exercise the modelled
    behaviour, each as an [Example] of the name of its test function, run on
    the definitions by evaluation.  Stats are run on binary64 floats, as in
    the tests.  They check the model against the behaviour the repository
    expects of its code: in particular that validators clamp on assignment,
    that the cell constructor is only given quantities of at most one, and
    that [add_item] allocates cells first-fit.

    [model_dump] is the record of the fields.  Not replayed: the three cases
    on extra attributes and the two on the constructor of the bare
    [ComponentModel], which the records do not represent. *)

Set Warnings "-rewrite-rw,-inexact-float".
From Stdlib Require Import Floats.
From stdpp Require Import gmap.
From S2P Require Import Prelude Model Editor Numeric Stat Stats Cell Inventory.

Module S := StatComponent.
Module SS := StatsComponent.
Module C := InventoryCellComponent.
Module I := InventoryComponent.

Open Scope float_scope.

(** ** class TestFieldType, class TestComponentType *)

Example test_field_type_values :
  FieldType_value <$> [NUMBER; TEXT; CHECKBOX; LIST; OBJECT; SELECT; TEXTAREA] =
  ["number"; "text"; "checkbox"; "list"; "object"; "select"; "textarea"].
Proof. done. Qed.

Example test_component_type_values :
  ComponentType_value <$> [STAT; INVENTORY; CUSTOM] = ["stat"; "inventory"; "custom"].
Proof. done. Qed.

(** ** class TestComponentModel *)

Example test_get_editor_config_basic :
  "component_type" ∉ (get_editor_config ComponentModel_fields []).*1.
Proof. by_decide. Qed.

Example test_get_editor_config_with_extra :
  let config := get_editor_config ComponentModel_fields
                  [("dynamic_field", PyStr "test"); ("number_field", PyInt 123)] in
  (λ e, (e.1, fc_type e.2)) <$> config = [("dynamic_field", TEXT); ("number_field", NUMBER)].
Proof. by vm_compute. Qed.

Example test_infer_value_type :
  _infer_value_type (PyInt 42) = NUMBER ∧ _infer_value_type (PyFloat 3.14) = NUMBER ∧
  _infer_value_type (PyStr "text") = TEXT ∧ _infer_value_type (PyBool true) = CHECKBOX ∧
  _infer_value_type (PyList [PyInt 1; PyInt 2; PyInt 3]) = LIST ∧
  _infer_value_type (PyDict [("key", PyStr "value")]) = OBJECT ∧
  _infer_value_type PyNone = TEXT.
Proof. done. Qed.

(** ** class TestStatComponent *)

Example test_stat_component_basic_creation :
  S.__init__ (Some "strength") (Some 10) None None None None =
  Ok (S.mk STAT "strength" 10 10 None None "").
Proof. by vm_compute. Qed.

Example test_stat_component_with_current_value :
  S.__init__ (Some "health") (Some 100) (Some 75) None None None =
  Ok (S.mk STAT "health" 100 75 None None "").
Proof. by vm_compute. Qed.

Example test_stat_component_with_constraints :
  (stat ← S.__init__ (Some "mana") (Some 50) None (Some 0) (Some 100) None;
   Ok (S.min_value stat, S.max_value stat)) = Ok (Some 0, Some 100).
Proof. by vm_compute. Qed.

Example test_stat_component_name_required :
  is_ok (S.__init__ None (Some 10) None None None None) = false.
Proof. done. Qed.

Example test_stat_component_validation_min_value :
  (stat ← S.__init__ (Some "health") (Some 10) None (Some 0) (Some 100) None;
   Ok (S.current_value (S.setattr_current_value stat (-5)))) = Ok 0.
Proof. by vm_compute. Qed.

Example test_stat_component_validation_max_value :
  (stat ← S.__init__ (Some "mana") (Some 50) None (Some 0) (Some 100) None;
   Ok (S.current_value (S.setattr_current_value stat 150))) = Ok 100.
Proof. by vm_compute. Qed.

Example test_stat_component_validation_base_value_min :
  (stat ← S.__init__ (Some "health") (Some 10) None (Some 0) (Some 100) None;
   Ok (S.base_value (S.setattr_base_value stat (-10)))) = Ok 0.
Proof. by vm_compute. Qed.

Example test_stat_component_validation_base_value_max :
  (stat ← S.__init__ (Some "mana") (Some 50) None (Some 0) (Some 100) None;
   Ok (S.base_value (S.setattr_base_value stat 150))) = Ok 100.
Proof. by vm_compute. Qed.

Example test_modify_value_increase :
  (stat ← S.__init__ (Some "strength") (Some 10) None None None None;
   let r := S.modify_value stat 5 in
   Ok (r.1, S.current_value r.2, S.base_value r.2)) = Ok (15, 15, 10).
Proof. by vm_compute. Qed.

Example test_modify_value_decrease :
  (stat ← S.__init__ (Some "health") (Some 100) (Some 75) None None None;
   let r := S.modify_value stat (-20) in Ok (r.1, S.current_value r.2)) = Ok (55, 55).
Proof. by vm_compute. Qed.

Example test_modify_value_respects_min :
  (stat ← S.__init__ (Some "mana") (Some 50) (Some 10) (Some 0) (Some 100) None;
   let r := S.modify_value stat (-50) in Ok (r.1, S.current_value r.2)) = Ok (0, 0).
Proof. by vm_compute. Qed.

Example test_modify_value_respects_max :
  (stat ← S.__init__ (Some "health") (Some 80) (Some 90) (Some 0) (Some 100) None;
   let r := S.modify_value stat 50 in Ok (r.1, S.current_value r.2)) = Ok (100, 100).
Proof. by vm_compute. Qed.

Example test_reset_to_base :
  (stat ← S.__init__ (Some "strength") (Some 10) (Some 15) None None None;
   let stat := S.reset_to_base stat in
   Ok (S.current_value stat, S.base_value stat)) = Ok (10, 10).
Proof. by vm_compute. Qed.

Example test_set_base_value :
  (stat ← S.__init__ (Some "mana") (Some 50) (Some 40) None None None;
   let r := S.set_base_value stat 60 in
   Ok (r.1, S.base_value r.2, S.current_value r.2)) = Ok (60, 60, 60).
Proof. by vm_compute. Qed.

Example test_set_base_value_respects_min :
  (stat ← S.__init__ (Some "health") (Some 50) None (Some 0) (Some 100) None;
   let r := S.set_base_value stat (-10) in
   Ok (r.1, S.base_value r.2, S.current_value r.2)) = Ok (0, 0, 0).
Proof. by vm_compute. Qed.

Example test_set_base_value_respects_max :
  (stat ← S.__init__ (Some "mana") (Some 50) None (Some 0) (Some 100) None;
   let r := S.set_base_value stat 150 in
   Ok (r.1, S.base_value r.2, S.current_value r.2)) = Ok (100, 100, 100).
Proof. by vm_compute. Qed.

Example test_stat_component_with_description :
  (stat ← S.__init__ (Some "intelligence") (Some 12) None None None
            (Some "Mental acuity and reasoning");
   Ok (S.description stat)) = Ok "Mental acuity and reasoning".
Proof. by vm_compute. Qed.

(** ** class TestStatsComponent *)

(** [StatsComponent()] then a sequence of calls. *)
Definition stats_after (ops : list (SS.op float)) : outcome exn (SS.t float) :=
  stats ← SS.__init__ None None; Ok (SS.run stats ops).

Definition add (name : string) (base_value : float) : SS.op float :=
  SS.AddStat name base_value None None None "" false.

Example test_stats_component_basic_creation :
  SS.__init__ (V:=float) None None = Ok (SS.mk STAT [] None).
Proof. done. Qed.

Example test_stats_component_with_max_stats :
  (stats ← SS.__init__ (V:=float) None (Some 5%Z); Ok (SS.max_stats stats)) = Ok (Some 5%Z).
Proof. by vm_compute. Qed.

Example test_add_stat_basic :
  (stats ← SS.__init__ None None;
   let r := SS.add_stat "strength" 15 None None None "" false stats in
   Ok (r.1, len (SS.stats r.2))) =
  Ok (Ok (S.mk STAT "strength" 15 15 None None ""), 1%Z).
Proof. by vm_compute. Qed.

Example test_add_stat_with_all_parameters :
  (stats ← SS.__init__ None None;
   Ok (SS.add_stat "health" 100 (Some 75) (Some 0) (Some 100) "Current health" false stats).1) =
  Ok (Ok (S.mk STAT "health" 100 75 (Some 0) (Some 100) "Current health")).
Proof. by vm_compute. Qed.

Example test_add_stat_duplicate_name_raises_error :
  (stats ← stats_after [add "strength" 15];
   Ok (SS.add_stat "strength" 10 None None None "" false stats).1) =
  Ok (Raise (ValueError
    "Stat with name 'strength' already exists. Use replace_if_exists=True to replace it.")).
Proof. by vm_compute. Qed.

Example test_add_stat_replace_if_exists :
  (stats ← stats_after [add "strength" 15];
   let r := SS.add_stat "strength" 20 None None None "" true stats in
   Ok (len (SS.stats r.2), S.base_value <$> r.1)) = Ok (1%Z, Ok 20).
Proof. by vm_compute. Qed.

Example test_add_stat_respects_max_stats :
  (stats ← SS.__init__ None (Some 2%Z);
   let stats := SS.run stats [add "stat1" 10; add "stat2" 10] in
   Ok (SS.add_stat "stat3" 10 None None None "" false stats).1) =
  Ok (Raise (ValueError "Cannot add stat: maximum number of stats (2) reached")).
Proof. by vm_compute. Qed.

Example test_remove_stat_success :
  (stats ← stats_after [add "strength" 15];
   let r := SS.remove_stat stats "strength" in Ok (r.1, len (SS.stats r.2))) =
  Ok (true, 0%Z).
Proof. by vm_compute. Qed.

Example test_remove_stat_not_found :
  (stats ← stats_after []; Ok (SS.remove_stat stats "nonexistent").1) = Ok false.
Proof. by vm_compute. Qed.

Example test_get_stat_success :
  (stats ← stats_after [add "strength" 15]; Ok (SS.get_stat stats "strength")) =
  Ok (Some (S.mk STAT "strength" 15 15 None None "")).
Proof. by vm_compute. Qed.

Example test_get_stat_not_found :
  (stats ← stats_after []; Ok (SS.get_stat stats "nonexistent")) = Ok None.
Proof. by vm_compute. Qed.

Example test_has_stat_true :
  (stats ← stats_after [add "strength" 15]; Ok (SS.has_stat stats "strength")) = Ok true.
Proof. by vm_compute. Qed.

Example test_has_stat_false :
  (stats ← stats_after []; Ok (SS.has_stat stats "strength")) = Ok false.
Proof. by vm_compute. Qed.

Example test_modify_stat_success :
  (stats ← stats_after [SS.AddStat "health" 100 (Some 75) None None "" false];
   let r := SS.modify_stat stats "health" 10 in
   Ok (r.1, S.current_value <$> SS.get_stat r.2 "health")) = Ok (Some 85, Some 85).
Proof. by vm_compute. Qed.

Example test_modify_stat_not_found :
  (stats ← stats_after []; Ok (SS.modify_stat stats "nonexistent" 10).1) = Ok None.
Proof. by vm_compute. Qed.

Example test_modify_stat_respects_constraints :
  (stats ← stats_after [SS.AddStat "health" 50 None (Some 0) (Some 100) "" false];
   Ok (SS.modify_stat stats "health" 100).1) = Ok (Some 100).
Proof. by vm_compute. Qed.

Example test_set_stat_base_value :
  (stats ← stats_after [add "strength" 10];
   let r := SS.set_stat_base_value stats "strength" 15 in
   Ok (r.1, (λ s, (S.base_value s, S.current_value s)) <$> SS.get_stat r.2 "strength")) =
  Ok (Some 15, Some (15, 15)).
Proof. by vm_compute. Qed.

Example test_set_stat_base_value_not_found :
  (stats ← stats_after []; Ok (SS.set_stat_base_value stats "nonexistent" 10).1) = Ok None.
Proof. by vm_compute. Qed.

Example test_set_stat_current_value :
  (stats ← stats_after [SS.AddStat "health" 100 (Some 75) None None "" false];
   let r := SS.set_stat_current_value stats "health" 50 in
   Ok (r.1, (λ s, (S.current_value s, S.base_value s)) <$> SS.get_stat r.2 "health")) =
  Ok (Some 50, Some (50, 100)).
Proof. by vm_compute. Qed.

Example test_set_stat_current_value_not_found :
  (stats ← stats_after []; Ok (SS.set_stat_current_value stats "nonexistent" 10).1) = Ok None.
Proof. by vm_compute. Qed.

Example test_reset_stat_to_base :
  (stats ← stats_after [SS.AddStat "health" 100 (Some 50) None None "" false];
   let r := SS.reset_stat_to_base stats "health" in
   Ok (r.1, S.current_value <$> SS.get_stat r.2 "health")) = Ok (true, Some 100).
Proof. by vm_compute. Qed.

Example test_reset_stat_to_base_not_found :
  (stats ← stats_after []; Ok (SS.reset_stat_to_base stats "nonexistent").1) = Ok false.
Proof. by vm_compute. Qed.

Example test_reset_all_to_base :
  (stats ← stats_after [SS.AddStat "health" 100 (Some 50) None None "" false;
                        SS.AddStat "mana" 50 (Some 25) None None "" false;
                        SS.ResetAllToBase];
   Ok (S.current_value <$> SS.get_stat stats "health",
       S.current_value <$> SS.get_stat stats "mana")) = Ok (Some 100, Some 50).
Proof. by vm_compute. Qed.

Example test_get_stat_names :
  (stats ← stats_after [add "strength" 15; add "health" 100];
   Ok (SS.get_stat_names stats)) = Ok ["strength"; "health"].
Proof. by vm_compute. Qed.

Example test_get_stat_names_empty :
  (stats ← stats_after []; Ok (SS.get_stat_names stats)) = Ok [].
Proof. by vm_compute. Qed.

Example test_get_all_stats :
  (stats ← stats_after [add "strength" 15; add "health" 100];
   Ok (len (SS.get_all_stats stats))) = Ok 2%Z.
Proof. by vm_compute. Qed.

Example test_clear_all_stats :
  (stats ← stats_after [add "strength" 15; add "health" 100];
   let r := SS.clear_all_stats stats in Ok (r.1, len (SS.stats r.2))) = Ok (2%Z, 0%Z).
Proof. by vm_compute. Qed.

Example test_clear_all_stats_empty :
  (stats ← stats_after []; Ok (SS.clear_all_stats stats).1) = Ok 0%Z.
Proof. by vm_compute. Qed.

Example test_stats_component_multiple_operations :
  (stats ← stats_after [add "strength" 15;
                        SS.AddStat "health" 100 (Some 75) None None "" false;
                        SS.AddStat "mana" 50 None (Some 0) (Some 100) "" false;
                        SS.ModifyStat "health" 10; SS.ModifyStat "mana" (-5);
                        SS.RemoveStat "strength"];
   Ok (S.current_value <$> SS.get_stat stats "health",
       S.current_value <$> SS.get_stat stats "mana",
       len (SS.stats stats), SS.has_stat stats "strength")) =
  Ok (Some 85, Some 45, 2%Z, false).
Proof. by vm_compute. Qed.

Example test_stats_component_serialization :
  (stats ← stats_after [add "strength" 15]; Ok (len (SS.stats stats))) = Ok 1%Z.
Proof. by vm_compute. Qed.

(** ** class TestComponentIntegration *)

Example test_stat_component_with_editor_config :
  let config := get_editor_config StatComponent_fields [] in
  ["name"; "base_value"; "current_value"] ⊆ config.*1 ∧
  fc_type <$> (list_to_map config : gmap string field_config) !! "base_value" = Some NUMBER ∧
  fc_type <$> (list_to_map config : gmap string field_config) !! "name" = Some TEXT.
Proof. split; [by_decide|by vm_compute]. Qed.

Example test_inventory_cell_component_with_editor_config :
  let config := get_editor_config InventoryCellComponent_fields [] in
  ["item_id"; "quantity"; "max_stack_size"] ⊆ config.*1 ∧
  fc_type <$> (list_to_map config : gmap string field_config) !! "quantity" = Some NUMBER ∧
  fc_type <$> (list_to_map config : gmap string field_config) !! "item_id" = Some TEXT.
Proof. split; [by_decide|by vm_compute]. Qed.

Example test_component_model_serialization :
  S.__init__ (Some "health") (Some 100) None None None None =
  Ok (S.mk STAT "health" 100 100 None None "").
Proof. by vm_compute. Qed.

Example test_component_model_deserialization :
  (stat ← S.__init__ (Some "mana") (Some 50) (Some 30) None None None;
   Ok (S.name stat, S.base_value stat, S.current_value stat)) = Ok ("mana", 50, 30).
Proof. by vm_compute. Qed.

Close Scope float_scope.

(** ** class TestInventoryCellComponent *)

(** [InventoryCellComponent(max_stack_size=n)] then a sequence of calls. *)
Definition cell_after (max_stack_size : option Z) (ops : list C.op) : outcome exn C.t :=
  cell ← C.__init__ None None max_stack_size None None; Ok (C.run cell ops).

Example test_inventory_cell_component_basic_creation :
  C.__init__ None None None None None = Ok (C.mk INVENTORY None 0 1 None false).
Proof. done. Qed.

Example test_inventory_component_with_max_stack :
  (cell ← C.__init__ None None (Some 10) None None; Ok (C.max_stack_size cell)) = Ok 10.
Proof. by vm_compute. Qed.

Example test_inventory_component_with_slot_type :
  (cell ← C.__init__ None None None (Some "weapon") None; Ok (C.slot_type cell)) =
  Ok (Some "weapon").
Proof. by vm_compute. Qed.

Example test_inventory_component_validation_quantity_exceeds_max :
  (cell ← cell_after (Some 5) [C.AddItems "item" 5];
   let r := C.setattr_quantity 10 cell in Ok (C.quantity cell, r.1, C.quantity r.2)) =
  Ok (5, Ok tt, 5).
Proof. by vm_compute. Qed.

Example test_inventory_component_validation_quantity_negative :
  (cell ← cell_after None []; Ok (is_ok (C.setattr_quantity (-5) cell).1)) = Ok false.
Proof. by vm_compute. Qed.

Example test_inventory_component_validation_quantity_without_item_id :
  C.__init__ None (Some 5) None None None =
  Raise (ValidationError
    [ErrorDetails "" (value_error "Cannot have quantity > 0 without an item_id")]).
Proof. by vm_compute. Qed.

Example test_inventory_component_validation_clears_item_id_when_quantity_zero :
  (cell ← C.__init__ (Some "sword") (Some 1) None None None;
   Ok (C.item_id (C.setattr_quantity 0 cell).2)) = Ok None.
Proof. by vm_compute. Qed.

Example test_is_empty_true_when_no_items :
  (cell ← cell_after None []; Ok (C.is_empty cell)) = Ok true.
Proof. by vm_compute. Qed.

Example test_is_empty_true_when_item_id_none :
  (cell ← C.__init__ None (Some 0) None None None; Ok (C.is_empty cell)) = Ok true.
Proof. by vm_compute. Qed.

Example test_is_empty_false_when_has_items :
  (cell ← C.__init__ (Some "sword") (Some 1) None None None; Ok (C.is_empty cell)) = Ok false.
Proof. by vm_compute. Qed.

Example test_is_full_true_when_at_max :
  (cell ← cell_after (Some 5) [C.AddItems "potion" 5]; Ok (C.is_full cell, C.quantity cell)) =
  Ok (true, 5).
Proof. by vm_compute. Qed.

Example test_is_full_false_when_below_max :
  (cell ← cell_after (Some 5) [C.AddItems "potion" 3]; Ok (C.is_full cell)) = Ok false.
Proof. by vm_compute. Qed.

Example test_add_items_to_empty_slot :
  (cell ← cell_after None []; Ok (C.add_items cell "sword" 1)) =
  Ok (1, C.mk INVENTORY (Some "sword") 1 1 None false).
Proof. by vm_compute. Qed.

Example test_add_items_partial_add :
  (cell ← cell_after (Some 5) [C.AddItems "potion" 3];
   let r := C.add_items cell "potion" 5 in
   Ok (C.quantity cell, r.1, C.quantity r.2, C.is_full r.2)) = Ok (3, 2, 5, true).
Proof. by vm_compute. Qed.

Example test_add_items_different_item_id :
  (cell ← cell_after (Some 10) [C.AddItems "sword" 1];
   let r := C.add_items cell "axe" 1 in Ok (r.1, C.item_id r.2, C.quantity r.2)) =
  Ok (0, Some "sword", 1).
Proof. by vm_compute. Qed.

Example test_add_items_zero_or_negative :
  (cell ← cell_after (Some 10) [C.AddItems "sword" 1];
   let r1 := C.add_items cell "sword" 0 in
   let r2 := C.add_items r1.2 "sword" (-5) in Ok (r1.1, r2.1, C.quantity r2.2)) = Ok (0, 0, 1).
Proof. by vm_compute. Qed.

Example test_remove_items_partial :
  (cell ← cell_after (Some 10) [C.AddItems "potion" 5];
   let r := C.remove_items cell 2 in Ok (r.1, C.quantity r.2, C.item_id r.2)) =
  Ok (2, 3, Some "potion").
Proof. by vm_compute. Qed.

Example test_remove_items_all :
  (cell ← cell_after (Some 10) [C.AddItems "sword" 3];
   let r := C.remove_items cell 3 in Ok (r.1, C.quantity r.2, C.item_id r.2)) =
  Ok (3, 0, None).
Proof. by vm_compute. Qed.

Example test_remove_items_more_than_available :
  (cell ← cell_after (Some 10) [C.AddItems "potion" 2];
   let r := C.remove_items cell 5 in Ok (r.1, C.quantity r.2, C.item_id r.2)) =
  Ok (2, 0, None).
Proof. by vm_compute. Qed.

Example test_remove_items_zero_or_negative :
  (cell ← cell_after (Some 10) [C.AddItems "sword" 3];
   let r1 := C.remove_items cell 0 in
   let r2 := C.remove_items r1.2 (-5) in Ok (r1.1, r2.1, C.quantity r2.2)) = Ok (0, 0, 3).
Proof. by vm_compute. Qed.

Example test_remove_items_from_empty_slot :
  (cell ← cell_after None []; let r := C.remove_items cell 1 in Ok (r.1, C.quantity r.2)) =
  Ok (0, 0).
Proof. by vm_compute. Qed.

Example test_clear_slot :
  (cell ← cell_after (Some 10) [C.AddItems "sword" 5];
   let r := C.clear_slot cell in Ok (r.1, C.quantity r.2, C.item_id r.2)) =
  Ok (Ok 5, 0, None).
Proof. by vm_compute. Qed.

Example test_clear_slot_empty_slot :
  (cell ← cell_after None [];
   let r := C.clear_slot cell in Ok (r.1, C.quantity r.2, C.item_id r.2)) =
  Ok (Ok 0, 0, None).
Proof. by vm_compute. Qed.

Example test_inventory_component_with_equipped :
  (cell ← C.__init__ (Some "sword") (Some 1) None None (Some true); Ok (C.is_equipped cell)) =
  Ok true.
Proof. by vm_compute. Qed.

Example test_inventory_component_stacking :
  (cell ← cell_after (Some 10) [];
   let r1 := C.add_items cell "potion" 3 in
   let r2 := C.add_items r1.2 "potion" 4 in
   let r3 := C.add_items r2.2 "potion" 5 in
   Ok (r1.1, C.quantity r1.2, r2.1, C.quantity r2.2, r3.1, C.quantity r3.2, C.is_full r3.2)) =
  Ok (3, 3, 4, 7, 3, 10, true).
Proof. by vm_compute. Qed.

(** ** class TestInventoryComponent *)

(** The calls of a test, each on the inventory the one before left; the
    answers of all of them and the inventory at the end. *)
Fixpoint calls (inv : I.t) (l : list (string * Z)) : option (list (outcome exn Z) * I.t) :=
  match l with
  | [] => Some ([], inv)
  | (item, q) :: l =>
      '(r, inv) ← I.add_item inv item q None;
      '(rs, inv) ← calls inv l;
      Some (r :: rs, inv)
  end.

(** [InventoryComponent(max_cells, default_max_stack_size)] then a sequence
    of [add_item] calls. *)
Definition inv_after (max_cells default_max_stack_size : option Z) (l : list (string * Z))
  : option (list (outcome exn Z) * I.t) :=
  match I.__init__ None max_cells default_max_stack_size with
  | Ok inv => calls inv l
  | Raise _ => None
  end.

(** The item and the quantity of every cell. *)
Definition contents (inv : I.t) : list (option string * Z) :=
  (λ c, (C.item_id c, C.quantity c)) <$> I.cells inv.

Example test_inventory_component_basic_creation :
  I.__init__ None None None = Ok (I.mk INVENTORY [] 10 1).
Proof. done. Qed.

Example test_inventory_component_with_custom_settings :
  (inv ← I.__init__ None (Some 20) (Some 5); Ok (I.max_cells inv, I.default_max_stack_size inv)) =
  Ok (20, 5).
Proof. by vm_compute. Qed.

Example test_add_item_to_empty_inventory :
  (r ← inv_after None None [("sword", 1)]; Some (r.1, contents r.2)) =
  Some ([Ok 1], [(Some "sword", 1)]).
Proof. by vm_compute. Qed.

Example test_add_item_creates_new_cell :
  (r ← inv_after None (Some 5) [("potion", 3)]; Some (r.1, contents r.2)) =
  Some ([Ok 3], [(Some "potion", 3)]).
Proof. by vm_compute. Qed.

Example test_add_item_to_existing_cell :
  (r ← inv_after None (Some 10) [("potion", 5); ("potion", 3)]; Some (r.1, contents r.2)) =
  Some ([Ok 5; Ok 3], [(Some "potion", 8)]).
Proof. by vm_compute. Qed.

Example test_add_item_fills_existing_then_creates_new :
  (r ← inv_after None (Some 5) [("potion", 3); ("potion", 5)]; Some (r.1, contents r.2)) =
  Some ([Ok 3; Ok 5], [(Some "potion", 5); (Some "potion", 3)]).
Proof. by vm_compute. Qed.

Example test_add_item_different_items :
  (r ← inv_after None None [("sword", 1); ("axe", 1)]; Some (contents r.2)) =
  Some [(Some "sword", 1); (Some "axe", 1)].
Proof. by vm_compute. Qed.

Example test_add_item_respects_max_cells :
  (r ← inv_after (Some 2) None [("item1", 1); ("item2", 1); ("item3", 1)];
   Some (r.1, len (I.cells r.2))) = Some ([Ok 1; Ok 1; Ok 0], 2).
Proof. by vm_compute. Qed.

Example test_add_item_partial_add_when_full :
  (r ← inv_after (Some 2) (Some 5) [("potion", 5); ("potion", 5); ("potion", 3)];
   Some r.1) = Some [Ok 5; Ok 5; Ok 0].
Proof. by vm_compute. Qed.

Example test_remove_item_from_inventory :
  (r ← inv_after None (Some 10) [("potion", 5)];
   let r := I.remove_item r.2 "potion" 2 in Some (r.1, contents r.2)) =
  Some (2, [(Some "potion", 3)]).
Proof. by vm_compute. Qed.

Example test_remove_item_from_multiple_cells :
  (r ← inv_after None (Some 5) [("potion", 5); ("potion", 5)];
   let r := I.remove_item r.2 "potion" 7 in Some (r.1, contents r.2)) =
  Some (7, [(None, 0); (Some "potion", 3)]).
Proof. by vm_compute. Qed.

Example test_remove_item_clears_cell :
  (r ← inv_after None None [("sword", 1)];
   let r := I.remove_item r.2 "sword" 1 in Some (r.1, C.is_empty <$> I.cells r.2)) =
  Some (1, [true]).
Proof. by vm_compute. Qed.

Example test_remove_item_partial_remove :
  (r ← inv_after None None [("potion", 3)];
   let r := I.remove_item r.2 "potion" 10 in Some (r.1, contents r.2)) =
  Some (3, [(None, 0); (None, 0); (None, 0)]).
Proof. by vm_compute. Qed.

Example test_remove_item_nonexistent :
  (r ← inv_after None None []; Some (I.remove_item r.2 "nonexistent" 1).1) = Some 0.
Proof. by vm_compute. Qed.

Example test_has_item_true :
  (r ← inv_after None None [("sword", 3)];
   Some (I.has_item r.2 "sword" 1, I.has_item r.2 "sword" 2, I.has_item r.2 "sword" 3)) =
  Some (true, true, true).
Proof. by vm_compute. Qed.

Example test_has_item_false :
  (r ← inv_after None None []; Some (I.has_item r.2 "sword" 1)) = Some false ∧
  (r ← inv_after None None [("sword", 2)]; Some (I.has_item r.2 "sword" 3)) = Some false.
Proof. by vm_compute. Qed.

Example test_has_item_multiple_cells :
  (r ← inv_after None (Some 5) [("potion", 5); ("potion", 3)];
   Some (I.has_item r.2 "potion" 8, I.has_item r.2 "potion" 9)) = Some (true, false).
Proof. by vm_compute. Qed.

Example test_get_item_count :
  (r ← inv_after None (Some 5) [("potion", 5); ("potion", 3)];
   Some (I.get_item_count r.2 "potion")) = Some 8.
Proof. by vm_compute. Qed.

Example test_get_item_count_zero :
  (r ← inv_after None None []; Some (I.get_item_count r.2 "nonexistent")) = Some 0.
Proof. by vm_compute. Qed.

Example test_get_empty_cells_count :
  (r ← inv_after (Some 5) None [("item1", 1); ("item2", 1); ("item3", 1)];
   Some (I.get_empty_cells_count (I.remove_item r.2 "item1" 1).2)) = Some 1.
Proof. by vm_compute. Qed.

Example test_is_full_true :
  (r ← inv_after (Some 2) (Some 5) [("potion", 5); ("potion", 5)]; Some (I.is_full r.2)) =
  Some true.
Proof. by vm_compute. Qed.

Example test_is_full_false_partial :
  (r ← inv_after (Some 2) (Some 5) [("potion", 3)]; Some (I.is_full r.2)) = Some false.
Proof. by vm_compute. Qed.

Example test_is_full_false_not_all_cells :
  (r ← inv_after (Some 5) (Some 5) [("potion", 5); ("potion", 5)]; Some (I.is_full r.2)) =
  Some false.
Proof. by vm_compute. Qed.

Example test_clear_all :
  (r ← inv_after None None [("sword", 1); ("axe", 1)];
   let r := I.clear_all r.2 in Some (r.1, forallb C.is_empty (I.cells r.2))) =
  Some (Ok tt, true).
Proof. by vm_compute. Qed.

Example test_inventory_component_serialization :
  (r ← inv_after (Some 5) None [("sword", 1)]; Some (len (I.cells r.2))) = Some 1.
Proof. by vm_compute. Qed.
